(** * ServiceNow MCP tools: identifier resolution and query construction

    A shallow embedding of the request/response adapters of
    [servicenow_mcp.tools] (request_tools, record_tools, asset_tools,
    knowledge_base, hardware_ordering) together with the properties of
    the identifier resolvers and of the [sysparm_query] construction.

    The Python functions talk to the ServiceNow table API through
    [requests]; here every function runs in a small monad that threads
    the list of HTTP exchanges performed so far and the messages passed
    to [logger.error], and that can raise a Python exception. *)

From Stdlib Require Import String Ascii List Bool ZArith Lia DecimalString.
Import ListNotations.
Open Scope string_scope.

(** ** Python values and helpers *)

(** A JSON object of the table API: field name to (string) field value,
    in the order the fields were inserted. *)
Definition record := list (string * string).

(** Values stored in the dictionaries the tools build ([params=],
    [json=] and the dictionaries they return). *)
Inductive pyval :=
| VNone
| VBool (b : bool)
| VInt (z : Z)
| VStr (s : string)
| VRow (r : record)
| VRows (rs : list record).

Definition pydict := list (string * pyval).

Module Py.

(** [str(n)] for an [int]. *)
Definition str_int (z : Z) : string := NilZero.string_of_int (Z.to_int z).

(** [str(b).lower()] for a [bool]. *)
Definition str_bool_lower (b : bool) : string := if b then "true" else "false".

(** Strings are sequences of 8-bit characters; the identifiers, field
    names and query operators the tools handle are ASCII. *)

(** [sep.join(parts)]. *)
Fixpoint join (sep : string) (parts : list string) : string :=
  match parts with
  | [] => ""
  | p :: rest =>
      match rest with
      | [] => p
      | _ :: _ => p ++ sep ++ join sep rest
      end
  end.

(** [c in alphabet] for a one-character string [c]. *)
Fixpoint char_in (c : ascii) (alphabet : string) : bool :=
  match alphabet with
  | EmptyString => false
  | String a rest => Ascii.eqb c a || char_in c rest
  end.

(** [all(c in alphabet for c in s)]. *)
Fixpoint all_in (alphabet : string) (s : string) : bool :=
  match s with
  | EmptyString => true
  | String c rest => char_in c alphabet && all_in alphabet rest
  end.

(** Truth value of a [str]: the empty string is false. *)
Definition truthy_str (s : string) : bool :=
  match s with EmptyString => false | String _ _ => true end.

(** Truth value of an [Optional[str]]: [None] and [""] are false. *)
Definition truthy (o : option string) : bool :=
  match o with None => false | Some s => truthy_str s end.

(** Truth value of a [list]. *)
Definition truthy_list {A} (l : list A) : bool :=
  match l with [] => false | _ :: _ => true end.

(** [d.get(key)] on a dictionary. *)
Fixpoint get {V} (key : string) (d : list (string * V)) : option V :=
  match d with
  | [] => None
  | (k, v) :: rest => if String.eqb k key then Some v else get key rest
  end.

(** [d[key] = v]: an existing key keeps its position, a new key goes last. *)
Fixpoint set {V} (key : string) (v : V) (d : list (string * V)) : list (string * V) :=
  match d with
  | [] => [(key, v)]
  | (k, v0) :: rest =>
      if String.eqb k key then (k, v) :: rest else (k, v0) :: set key v rest
  end.

(** [l.append(x)]. *)
Definition append {A} (l : list A) (x : A) : list A := (l ++ [x])%list.

(** An [Optional[str]] interpolated in an f-string, or passed on where
    a [str] is expected after its truth value was tested. *)
Definition the (o : option string) : string :=
  match o with Some s => s | None => "None" end.

(** A value of type [Optional[str]] as a dictionary value. *)
Definition of_opt (o : option string) : pyval :=
  match o with None => VNone | Some s => VStr s end.

End Py.

(** ** The HTTP collaborator *)

Inductive Method := GET | POST | PATCH | DELETE.

(** The arguments of one [requests.get/post/patch/delete] call. *)
Record Request := mkRequest {
  req_method : Method;
  req_url : string;
  req_params : option pydict;
  req_json : option pydict;
  req_headers : list (string * string);
  req_auth : option (string * string);
  req_timeout : Z
}.

(** The value under the key ["result"] of a JSON response body. *)
Inductive jresult :=
| RList (rows : list record)
| RDict (row : record).

(** What [requests] hands back: status line, final URL and the decoded
    JSON body (an object whose ["result"] key may be absent), with the
    text [%s] gives for that body where it is logged. *)
Record Response := mkResponse {
  status_code : Z;
  reason : string;
  resp_url : string;
  json_result : option jresult;
  body_text : string
}.

(** The outcome of one call: [requests] raises a [RequestException]
    (connection error, timeout) or returns a response. *)
Inductive Reply :=
| Failed (e : string)
| Answered (r : Response).

Definition Exchange := (Request * Reply)%type.

(** The backend decides each reply from the exchanges seen so far and
    the request at hand. *)
Definition Backend := list Exchange -> Request -> Reply.

(** ** Exceptions, the world, and the monad of the tools *)

Inductive exn :=
| RequestException (msg : string)
| KeyError
| AttributeError
| TypeError
| IndexError.

Inductive Outcome (A : Type) :=
| Ok (a : A)
| Raise (e : exn).
Arguments Ok {A} a.
Arguments Raise {A} e.

(** Observable effects: the HTTP exchanges, oldest first, and the
    messages given to [logger.error]. *)
Record World := mkWorld {
  calls : list Exchange;
  errors_logged : list string
}.

(** The world after one more exchange, and after one more logged error. *)
Definition record_call (w : World) (x : Exchange) : World :=
  mkWorld (calls w ++ [x])%list (errors_logged w).

Definition record_error (w : World) (msg : string) : World :=
  mkWorld (calls w) (errors_logged w ++ [msg])%list.

Definition M (A : Type) := Backend -> World -> Outcome A * World.

Definition ret {A} (a : A) : M A := fun _ w => (Ok a, w).

Definition bind {A B} (m : M A) (k : A -> M B) : M B :=
  fun b w =>
    match m b w with
    | (Ok a, w') => k a b w'
    | (Raise e, w') => (Raise e, w')
    end.

Definition raise {A} (e : exn) : M A := fun _ w => (Raise e, w).

Notation "x <- m ;; k" := (bind m (fun x => k))
  (at level 61, m at next level, right associativity).
Notation "m ;;; k" := (bind m (fun _ => k))
  (at level 61, right associativity).

(** [try: body  except requests.RequestException as e: handler]. *)
Definition try_except {A} (body : M A) (handler : string -> M A) : M A :=
  fun b w =>
    match body b w with
    | (Raise (RequestException e), w') => handler e b w'
    | other => other
    end.

(** [logger.error(msg)]. *)
Definition logger_error (msg : string) : M unit :=
  fun _ w => (Ok tt, record_error w msg).

(** One [requests.<verb>(...)] call: the exchange is recorded whether it
    fails or not. *)
Definition requests_call (rq : Request) : M Response :=
  fun b w =>
    let reply := b (calls w) rq in
    let w' := record_call w (rq, reply) in
    match reply with
    | Failed e => (Raise (RequestException e), w')
    | Answered r => (Ok r, w')
    end.

(** [response.raise_for_status()]: an [HTTPError], which is a
    [RequestException], for a 4xx or 5xx status. *)
Definition http_error_msg (r : Response) : option string :=
  if (400 <=? status_code r)%Z && (status_code r <? 500)%Z then
    Some (Py.str_int (status_code r) ++ " Client Error: " ++ reason r
          ++ " for url: " ++ resp_url r)
  else if (500 <=? status_code r)%Z && (status_code r <? 600)%Z then
    Some (Py.str_int (status_code r) ++ " Server Error: " ++ reason r
          ++ " for url: " ++ resp_url r)
  else None.

Definition raise_for_status (r : Response) : M unit :=
  match http_error_msg r with
  | Some msg => raise (RequestException msg)
  | None => ret tt
  end.

(** [response.json().get("result", default)]. *)
Definition json_get_result (r : Response) (default : jresult) : jresult :=
  match json_result r with
  | Some v => v
  | None => default
  end.

(** Truth value of a decoded result: an empty list or object is false. *)
Definition result_truthy (v : jresult) : bool :=
  match v with
  | RList rows => Py.truthy_list rows
  | RDict row => Py.truthy_list row
  end.

(** [result[0]]: the first row of a list; on an object the integer is
    looked up as a key, which the string-keyed objects never have. *)
Definition result_index0 (v : jresult) : M record :=
  match v with
  | RList (r :: _) => ret r
  | RList [] => raise IndexError
  | RDict _ => raise KeyError
  end.

(** [result.get(key)] where [result] is expected to be an object. *)
Definition result_get (v : jresult) (key : string) : M (option string) :=
  match v with
  | RDict row => ret (Py.get key row)
  | RList _ => raise AttributeError
  end.

(** [len(result)]. *)
Definition result_len (v : jresult) : nat :=
  match v with
  | RList rows => length rows
  | RDict row => length row
  end.

Definition result_val (v : jresult) : pyval :=
  match v with
  | RList rows => VRows rows
  | RDict row => VRow row
  end.

(** [for x in xs: body] where the body may [return]: the body yields
    [Some v] to return [v] from the enclosing function and [None] to go
    on with the next element; [orelse] is the code after the loop. *)
Fixpoint for_in {A R} (xs : list A) (body : A -> M (option R)) (orelse : M R) : M R :=
  match xs with
  | [] => orelse
  | x :: rest =>
      r <- body x ;;
      match r with
      | Some v => ret v
      | None => for_in rest body orelse
      end
  end.

(** ** Configuration and authentication (external collaborators) *)

Record ServerConfig := mkConfig {
  api_url : string;
  timeout : Z
}.

Record AuthManager := mkAuth {
  get_headers : list (string * string);
  basic_username : string;
  basic_password : string
}.

Definition get_request (cfg : ServerConfig) (auth : AuthManager)
    (url : string) (params : option pydict) : Request :=
  mkRequest GET url params None (get_headers auth) None (timeout cfg).

Definition post_request (cfg : ServerConfig) (auth : AuthManager)
    (url : string) (json : pydict) : Request :=
  mkRequest POST url None (Some json) (get_headers auth) None (timeout cfg).

Definition patch_request (cfg : ServerConfig) (auth : AuthManager)
    (url : string) (json : pydict) : Request :=
  mkRequest PATCH url None (Some json) (get_headers auth) None (timeout cfg).

Definition delete_request (cfg : ServerConfig) (auth : AuthManager)
    (url : string) : Request :=
  mkRequest DELETE url None None (get_headers auth) None (timeout cfg).

(** [for x in xs: body] where the body does not [return]. *)
Fixpoint for_each {A} (xs : list A) (body : A -> M unit) : M unit :=
  match xs with
  | [] => ret tt
  | x :: rest => body x ;;; for_each rest body
  end.

(** [value or default] for an [Optional[str]]. *)
Definition or_else (value : option string) (default : string) : string :=
  if Py.truthy value then Py.the value else default.

(** The rows a [for item in result] goes through when each [item] is
    used as an object: the elements of a list; iterating a non-empty
    object yields its keys, and the first use of a key as an object
    raises. *)
Definition result_items (v : jresult) : M (list record) :=
  match v with
  | RList rows => ret rows
  | RDict [] => ret []
  | RDict (_ :: _) => raise AttributeError
  end.

(** [row[key]] on an object. *)
Definition row_item (row : record) (key : string) : M string :=
  match Py.get key row with
  | Some v => ret v
  | None => raise KeyError
  end.

(** ** request_tools.py *)

Module request_tools.

Record ListItemRequestsParams := mkListItemRequestsParams {
  lir_limit : Z;
  lir_offset : Z;
  lir_requested_for : option string;
  lir_cat_item : option string;
  lir_number : option string;
  lir_short_description : option string
}.

Record CreateItemRequestParams := mkCreateItemRequestParams {
  cir_number : option string;
  cir_cat_item : string;
  cir_requested_for : string;
  cir_quantity : string;
  cir_request : option string;
  cir_state : string;
  cir_short_description : string
}.

Record CreateRequestParams := mkCreateRequestParams {
  cr_requested_for : string;
  cr_state : string;
  cr_approval : string
}.

Record RequestAndCatalogItemResponse := mkRequestAndCatalogItemResponse {
  success : bool;
  message : string;
  sys_id : option string;
  number : option string
}.

(** One iteration of the lookup loop of [_resolve_user_id]. *)
Definition user_lookup (config : ServerConfig) (auth_manager : AuthManager)
    (user_identifier : string) (field : string) : M (option (option string)) :=
  let api_url := api_url config ++ "/table/sys_user" in
  let query_params :=
    [("sysparm_query", VStr (field ++ "=" ++ user_identifier));
     ("sysparm_limit", VStr "1")] in
  try_except
    (response <- requests_call (get_request config auth_manager api_url (Some query_params)) ;;
     raise_for_status response ;;;
     let result := json_get_result response (RList []) in
     if result_truthy result then
       row <- result_index0 result ;;
       ret (Some (Py.get "sys_id" row))
     else ret None)
    (fun e =>
       logger_error ("Failed to resolve user ID for " ++ field ++ "="
                     ++ user_identifier ++ ": " ++ e) ;;;
       ret None).

Definition _resolve_user_id (config : ServerConfig) (auth_manager : AuthManager)
    (user_identifier : string) : M (option string) :=
  if (String.length user_identifier =? 32)%nat
     && Py.all_in "0123456789abcdef" user_identifier
  then ret (Some user_identifier)
  else
    for_in ["user_name"; "email"]
      (user_lookup config auth_manager user_identifier)
      (ret None).

(** One iteration of the lookup loop of [_resolve_catalog_item_id]. *)
Definition catalog_lookup (config : ServerConfig) (auth_manager : AuthManager)
    (catalog_item_identifier : string) (field : string)
    : M (option (option string)) :=
  let api_url := api_url config ++ "/table/sc_cat_item" in
  let query_params :=
    [("sysparm_query",
      VStr (if negb (String.eqb field "short_description")
            then field ++ "=" ++ catalog_item_identifier
            else field ++ "LIKE" ++ catalog_item_identifier));
     ("sysparm_limit", VStr "1")] in
  try_except
    (response <- requests_call (get_request config auth_manager api_url (Some query_params)) ;;
     raise_for_status response ;;;
     let result := json_get_result response (RList []) in
     if result_truthy result then
       row <- result_index0 result ;;
       ret (Some (Py.get "sys_id" row))
     else ret None)
    (fun e =>
       logger_error ("Failed to resolve catalog item ID for " ++ field ++ "="
                     ++ catalog_item_identifier ++ ": " ++ e) ;;;
       ret None).

Definition _resolve_catalog_item_id (config : ServerConfig)
    (auth_manager : AuthManager) (catalog_item_identifier : string)
    : M (option string) :=
  if (String.length catalog_item_identifier =? 32)%nat
     && Py.all_in "0123456789abcdef" catalog_item_identifier
  then ret (Some catalog_item_identifier)
  else
    for_in ["name"; "sys_id"; "short_description"]
      (catalog_lookup config auth_manager catalog_item_identifier)
      (ret None).

(** The [# Build query] part of [list_item_requests]: the list
    [query_parts] just before it is joined. *)
Definition list_item_requests_query_parts (config : ServerConfig)
    (auth_manager : AuthManager) (params : ListItemRequestsParams)
    : M (list string) :=
  let query_parts : list string := [] in
  query_parts <-
    (if Py.truthy (lir_requested_for params) then
       user_id <- _resolve_user_id config auth_manager
                    (Py.the (lir_requested_for params)) ;;
       if Py.truthy user_id
       then ret (Py.append query_parts ("requested_for=" ++ Py.the user_id))
       else ret (Py.append query_parts
                   ("requested_for=" ++ Py.the (lir_requested_for params)))
     else ret query_parts) ;;
  query_parts <-
    (if Py.truthy (lir_cat_item params) then
       catalog_item_id <- _resolve_catalog_item_id config auth_manager
                            (Py.the (lir_cat_item params)) ;;
       if Py.truthy catalog_item_id
       then ret (Py.append query_parts ("cat_item=" ++ Py.the catalog_item_id))
       else ret (Py.append query_parts
                   ("cat_item=" ++ Py.the (lir_cat_item params)))
     else ret query_parts) ;;
  let query_parts :=
    if Py.truthy (lir_number params)
    then Py.append query_parts ("number=" ++ Py.the (lir_number params))
    else query_parts in
  let query_parts :=
    if Py.truthy (lir_short_description params)
    then Py.append query_parts
           ("short_descriptionLIKE" ++ Py.the (lir_short_description params))
    else query_parts in
  ret query_parts.

Definition list_item_requests (config : ServerConfig) (auth_manager : AuthManager)
    (params : ListItemRequestsParams) : M pydict :=
  let api_url := api_url config ++ "/table/sc_req_item" in
  let query_params :=
    [("sysparm_limit", VStr (Py.str_int (lir_limit params)));
     ("sysparm_offset", VStr (Py.str_int (lir_offset params)));
     ("sysparm_display_value", VStr "true")] in
  query_parts <- list_item_requests_query_parts config auth_manager params ;;
  let query_params :=
    if Py.truthy_list query_parts
    then Py.set "sysparm_query" (VStr (Py.join "^" query_parts)) query_params
    else query_params in
  try_except
    (response <- requests_call (get_request config auth_manager api_url (Some query_params)) ;;
     raise_for_status response ;;;
     let result := json_get_result response (RList []) in
     ret [("success", VBool true);
          ("message", VStr ("Found " ++ Py.str_int (Z.of_nat (result_len result))
                            ++ " item requests"));
          ("item_requests", result_val result);
          ("count", VInt (Z.of_nat (result_len result)))])
    (fun e =>
       logger_error ("Failed to list item requests: " ++ e) ;;;
       ret [("success", VBool false);
            ("message", VStr ("Failed to list item requests: " ++ e))]).

(** The [# Build request body] part of [create_item_request]: either
    the early failure response or the finished body. *)
Definition create_item_request_body (config : ServerConfig)
    (auth_manager : AuthManager) (params : CreateItemRequestParams)
    : M (RequestAndCatalogItemResponse + pydict) :=
  let request_body :=
    [("state", VStr (cir_state params));
     ("short_description", VStr (cir_short_description params));
     ("quantity", VStr (cir_quantity params))] in
  let request_body :=
    if Py.truthy (cir_number params)
    then Py.set "number" (Py.of_opt (cir_number params)) request_body
    else request_body in
  step <-
    (if Py.truthy_str (cir_requested_for params) then
       user_id <- _resolve_user_id config auth_manager (cir_requested_for params) ;;
       if Py.truthy user_id
       then ret (inr (Py.set "requested_for" (Py.of_opt user_id) request_body))
       else ret (inl (mkRequestAndCatalogItemResponse false
                        ("Could not resolve user: " ++ cir_requested_for params)
                        None None))
     else ret (inr request_body)) ;;
  match step with
  | inl early => ret (inl early)
  | inr request_body =>
      if Py.truthy_str (cir_cat_item params) then
        catalog_item_id <- _resolve_catalog_item_id config auth_manager (cir_cat_item params) ;;
        if Py.truthy catalog_item_id
        then ret (inr (Py.set "cat_item" (Py.of_opt catalog_item_id) request_body))
        else ret (inl (mkRequestAndCatalogItemResponse false
                         ("Could not resolve catalog item: " ++ cir_cat_item params)
                         None None))
      else ret (inr request_body)
  end.

Definition create_item_request (config : ServerConfig) (auth_manager : AuthManager)
    (params : CreateItemRequestParams) : M RequestAndCatalogItemResponse :=
  let api_url := api_url config ++ "/table/sc_req_item" in
  step <- create_item_request_body config auth_manager params ;;
  match step with
  | inl early => ret early
  | inr request_body =>
      try_except
        (response <- requests_call (post_request config auth_manager api_url request_body) ;;
         raise_for_status response ;;;
         let result := json_get_result response (RDict []) in
         the_sys_id <- result_get result "sys_id" ;;
         the_number <- result_get result "number" ;;
         ret (mkRequestAndCatalogItemResponse true
                "Item request created successfully" the_sys_id the_number))
        (fun e =>
           logger_error ("Failed to create item request: " ++ e) ;;;
           ret (mkRequestAndCatalogItemResponse false
                  ("Failed to create item request: " ++ e) None None))
  end.

(** The [# Build request body] part of [create_request]. *)
Definition create_request_body (config : ServerConfig)
    (auth_manager : AuthManager) (params : CreateRequestParams)
    : M (RequestAndCatalogItemResponse + pydict) :=
  let request_body :=
    [("state", VStr (cr_state params));
     ("approval", VStr (cr_approval params))] in
  if Py.truthy_str (cr_requested_for params) then
    user_id <- _resolve_user_id config auth_manager (cr_requested_for params) ;;
    if Py.truthy user_id
    then ret (inr (Py.set "requested_for" (Py.of_opt user_id) request_body))
    else ret (inl (mkRequestAndCatalogItemResponse false
                     ("Could not resolve user: " ++ cr_requested_for params)
                     None None))
  else ret (inr request_body).

Definition create_request (config : ServerConfig) (auth_manager : AuthManager)
    (params : CreateRequestParams) : M RequestAndCatalogItemResponse :=
  let api_url := api_url config ++ "/table/sc_request" in
  step <- create_request_body config auth_manager params ;;
  match step with
  | inl early => ret early
  | inr request_body =>
      try_except
        (response <- requests_call (post_request config auth_manager api_url request_body) ;;
         raise_for_status response ;;;
         let result := json_get_result response (RDict []) in
         the_sys_id <- result_get result "sys_id" ;;
         ret (mkRequestAndCatalogItemResponse true
                "Request created successfully" the_sys_id None))
        (fun e =>
           logger_error ("Failed to create request: " ++ e) ;;;
           ret (mkRequestAndCatalogItemResponse false
                  ("Failed to create request: " ++ e) None None))
  end.

End request_tools.

(** ** record_tools.py *)

Module record_tools.

Record CreateProblemParams := mkCreateProblemParams {
  short_description : string;
  urgency : option string;
  impact : option string;
  assigned_to : option string;
  fields : option (list (string * string))
}.

Record ProblemResponse := mkProblemResponse {
  success : bool;
  message : string;
  problem_id : option string;
  problem_number : option string
}.

(** One iteration of the lookup loop of [_resolve_user_id]. *)
Definition user_lookup (config : ServerConfig) (auth_manager : AuthManager)
    (user_identifier : string) (field : string) : M (option (option string)) :=
  let api_url := api_url config ++ "/table/sys_user" in
  let query_params :=
    [("sysparm_query", VStr (field ++ "=" ++ user_identifier));
     ("sysparm_limit", VStr "1")] in
  try_except
    (response <- requests_call (get_request config auth_manager api_url (Some query_params)) ;;
     raise_for_status response ;;;
     let result := json_get_result response (RList []) in
     if result_truthy result then
       row <- result_index0 result ;;
       ret (Some (Py.get "sys_id" row))
     else ret None)
    (fun e =>
       logger_error ("Failed to resolve user ID for " ++ field ++ "="
                     ++ user_identifier ++ ": " ++ e) ;;;
       ret None).

Definition _resolve_user_id (config : ServerConfig) (auth_manager : AuthManager)
    (user_identifier : string) : M (option string) :=
  if (String.length user_identifier =? 32)%nat
     && Py.all_in "0123456789abcdefABCDEF" user_identifier
  then ret (Some user_identifier)
  else
    for_in ["user_name"; "email"]
      (user_lookup config auth_manager user_identifier)
      (ret None).

(** [for field, value in params.fields.items(): data[field] = value]. *)
Fixpoint set_fields (items : list (string * string)) (data : pydict) : pydict :=
  match items with
  | [] => data
  | (field, value) :: rest => set_fields rest (Py.set field (VStr value) data)
  end.

(** The [# Build request data] part of [create_problem]. *)
Definition create_problem_data (config : ServerConfig)
    (auth_manager : AuthManager) (params : CreateProblemParams)
    : M (ProblemResponse + pydict) :=
  let data :=
    [("short_description", VStr (short_description params));
     ("urgency", Py.of_opt (urgency params));
     ("impact", Py.of_opt (impact params))] in
  step <-
    (if Py.truthy (assigned_to params) then
       user_id <- _resolve_user_id config auth_manager (Py.the (assigned_to params)) ;;
       if Py.truthy user_id
       then ret (inr (Py.set "assigned_to" (Py.of_opt user_id) data))
       else ret (inl (mkProblemResponse false
                        ("Could not resolve user: " ++ Py.the (assigned_to params))
                        None None))
     else ret (inr data)) ;;
  match step with
  | inl early => ret (inl early)
  | inr data =>
      match fields params with
      | Some (item :: items) => ret (inr (set_fields (item :: items) data))
      | _ => ret (inr data)
      end
  end.

Definition problem_request (config : ServerConfig) (auth_manager : AuthManager)
    (data : pydict) : Request :=
  mkRequest POST (api_url config ++ "/table/problem") None (Some data)
    (get_headers auth_manager)
    (Some (basic_username auth_manager, basic_password auth_manager))
    (timeout config).

Definition create_problem (config : ServerConfig) (auth_manager : AuthManager)
    (params : CreateProblemParams) : M ProblemResponse :=
  step <- create_problem_data config auth_manager params ;;
  match step with
  | inl early => ret early
  | inr data =>
      try_except
        (response <- requests_call (problem_request config auth_manager data) ;;
         raise_for_status response ;;;
         let result := json_get_result response (RDict []) in
         the_sys_id <- result_get result "sys_id" ;;
         match the_sys_id with
         | None => raise TypeError
         | Some id =>
             the_number <- result_get result "number" ;;
             ret (mkProblemResponse true
                    ("Problem created successfully. The sys_id of the problem is: " ++ id)
                    (Some id) the_number)
         end)
        (fun e =>
           logger_error ("Failed to create problem: " ++ e) ;;;
           ret (mkProblemResponse false ("Failed to create problem: " ++ e)
                  None None))
  end.

End record_tools.

(** ** asset_tools.py *)

Module asset_tools.

Record CreateAssetParams := mkCreateAssetParams {
  ca_asset_tag : string;
  ca_display_name : string;
  ca_model : option string;
  ca_serial_number : option string;
  ca_assigned_to : option string;
  ca_location : option string;
  ca_cost : option string;
  ca_purchase_date : option string;
  ca_warranty_expiration : option string;
  ca_category : option string;
  ca_subcategory : option string;
  ca_manufacturer : option string;
  ca_model_category : option string;
  ca_state : option string;
  ca_substatus : option string;
  ca_comments : option string
}.

Record ListAssetsParams := mkListAssetsParams {
  la_limit : Z;
  la_offset : Z;
  la_assigned_to : option (list string);
  la_location : option string;
  la_name : option string;
  la_query : option string
}.

Record ListHardwareAssetsParams := mkListHardwareAssetsParams {
  lha_limit : Z;
  lha_offset : Z;
  lha_assigned_to : option string;
  lha_name : option string;
  lha_query : option string
}.

Record AssetResponse := mkAssetResponse {
  success : bool;
  message : string;
  asset_id : option string;
  asset_tag : option string
}.

(** [if value: data[key] = value]. *)
Definition set_if (key : string) (value : option string) (data : pydict) : pydict :=
  if Py.truthy value then Py.set key (Py.of_opt value) data else data.

(** [if value: query_parts.append(clause)]. *)
Definition append_if (value : option string) (clause : string)
    (query_parts : list string) : list string :=
  if Py.truthy value then Py.append query_parts clause else query_parts.

Record UpdateAssetParams := mkUpdateAssetParams {
  ua_asset_id : string;
  ua_display_name : option string;
  ua_model : option string;
  ua_serial_number : option string;
  ua_assigned_to : option string;
  ua_location : option string;
  ua_cost : option string;
  ua_purchase_date : option string;
  ua_warranty_expiration : option string;
  ua_category : option string;
  ua_subcategory : option string;
  ua_manufacturer : option string;
  ua_model_category : option string;
  ua_state : option string;
  ua_substatus : option string;
  ua_comments : option string
}.

Record GetAssetParams := mkGetAssetParams {
  ga_asset_id : option string;
  ga_asset_tag : option string;
  ga_serial_number : option string
}.

Record DeleteAssetParams := mkDeleteAssetParams {
  da_asset_id : string;
  da_reason : option string
}.

Record TransferAssetParams := mkTransferAssetParams {
  ta_asset_id : string;
  ta_new_assigned_to : string;
  ta_transfer_reason : option string;
  ta_comments : option string
}.

Record SearchAssetsByNameParams := mkSearchAssetsByNameParams {
  sa_name : string;
  sa_limit : Z;
  sa_offset : Z;
  sa_exact_match : bool
}.

Section with_resolvers.

(** [resolve_user_id] is imported from [servicenow_mcp.utils.resolvers],
    which is not among the sources: the asset tools are modelled over
    an arbitrary resolver. *)
Variable resolve_user_id : ServerConfig -> AuthManager -> string -> M (option string).

(** The [# Build query] part of [list_hardware_assets]. *)
Definition list_hardware_assets_query_parts (config : ServerConfig)
    (auth_manager : AuthManager) (params : ListHardwareAssetsParams)
    : M (list string) :=
  let query_parts : list string := [] in
  query_parts <-
    (if Py.truthy (lha_assigned_to params) then
       user_id <- resolve_user_id config auth_manager
                    (Py.the (lha_assigned_to params)) ;;
       if Py.truthy user_id
       then ret (Py.append query_parts ("assigned_to=" ++ Py.the user_id))
       else ret (Py.append query_parts
                   ("assigned_to=" ++ Py.the (lha_assigned_to params)))
     else ret query_parts) ;;
  let query_parts :=
    append_if (lha_name params)
      ("display_nameLIKE" ++ Py.the (lha_name params)) query_parts in
  let query_parts :=
    append_if (lha_query params)
      ("^asset_tagLIKE" ++ Py.the (lha_query params)
       ++ "^ORdisplay_nameLIKE" ++ Py.the (lha_query params)
       ++ "^ORserial_numberLIKE" ++ Py.the (lha_query params)
       ++ "^ORmodelLIKE" ++ Py.the (lha_query params)) query_parts in
  ret query_parts.

Definition list_hardware_assets (config : ServerConfig)
    (auth_manager : AuthManager) (params : ListHardwareAssetsParams)
    : M pydict :=
  let api_url := api_url config ++ "/table/alm_hardware" in
  let query_params :=
    [("sysparm_limit", VStr (Py.str_int (lha_limit params)));
     ("sysparm_offset", VStr (Py.str_int (lha_offset params)));
     ("sysparm_display_value", VStr "true")] in
  query_parts <- list_hardware_assets_query_parts config auth_manager params ;;
  let query_params :=
    if Py.truthy_list query_parts
    then Py.set "sysparm_query" (VStr (Py.join "^" query_parts)) query_params
    else query_params in
  try_except
    (response <- requests_call (get_request config auth_manager api_url (Some query_params)) ;;
     raise_for_status response ;;;
     let result := json_get_result response (RList []) in
     ret [("success", VBool true);
          ("message", VStr ("Found " ++ Py.str_int (Z.of_nat (result_len result))
                            ++ " hardware assets"));
          ("hardware_assets", result_val result);
          ("count", VInt (Z.of_nat (result_len result)))])
    (fun e =>
       logger_error ("Failed to list hardware assets: " ++ e) ;;;
       ret [("success", VBool false);
            ("message", VStr ("Failed to list hardware assets: " ++ e))]).

(** The [# Build request data] part of [create_asset]. *)
Definition create_asset_data (config : ServerConfig)
    (auth_manager : AuthManager) (params : CreateAssetParams)
    : M (AssetResponse + pydict) :=
  let data :=
    [("asset_tag", VStr (ca_asset_tag params));
     ("display_name", VStr (ca_display_name params))] in
  let data := set_if "model" (ca_model params) data in
  let data := set_if "serial_number" (ca_serial_number params) data in
  step <-
    (if Py.truthy (ca_assigned_to params) then
       user_id <- resolve_user_id config auth_manager
                    (Py.the (ca_assigned_to params)) ;;
       if Py.truthy user_id
       then ret (inr (Py.set "assigned_to" (Py.of_opt user_id) data))
       else ret (inl (mkAssetResponse false
                        ("Could not resolve user: " ++ Py.the (ca_assigned_to params))
                        None None))
     else ret (inr data)) ;;
  match step with
  | inl early => ret (inl early)
  | inr data =>
      let data := set_if "location" (ca_location params) data in
      let data := set_if "cost" (ca_cost params) data in
      let data := set_if "purchase_date" (ca_purchase_date params) data in
      let data := set_if "warranty_expiration" (ca_warranty_expiration params) data in
      let data := set_if "category" (ca_category params) data in
      let data := set_if "subcategory" (ca_subcategory params) data in
      let data := set_if "manufacturer" (ca_manufacturer params) data in
      let data := set_if "model_category" (ca_model_category params) data in
      let data := set_if "state" (ca_state params) data in
      let data := set_if "substatus" (ca_substatus params) data in
      let data := set_if "comments" (ca_comments params) data in
      ret (inr data)
  end.

Definition create_asset (config : ServerConfig) (auth_manager : AuthManager)
    (params : CreateAssetParams) : M AssetResponse :=
  let api_url := api_url config ++ "/table/alm_asset" in
  step <- create_asset_data config auth_manager params ;;
  match step with
  | inl early => ret early
  | inr data =>
      try_except
        (response <- requests_call (post_request config auth_manager api_url data) ;;
         raise_for_status response ;;;
         let result := json_get_result response (RDict []) in
         the_sys_id <- result_get result "sys_id" ;;
         the_asset_tag <- result_get result "asset_tag" ;;
         ret (mkAssetResponse true "Asset created successfully"
                the_sys_id the_asset_tag))
        (fun e =>
           logger_error ("Failed to create asset: " ++ e) ;;;
           ret (mkAssetResponse false ("Failed to create asset: " ++ e)
                  None None))
  end.

(** [for i, user in enumerate(params.assigned_to)] of [list_assets]:
    the resolved ids are collected in [user_ids]. *)
Fixpoint resolve_users (config : ServerConfig) (auth_manager : AuthManager)
    (users : list string) (user_ids : list string) : M (list string) :=
  match users with
  | [] => ret user_ids
  | user :: rest =>
      user_id <- resolve_user_id config auth_manager user ;;
      let user_ids :=
        if Py.truthy user_id then Py.append user_ids (Py.the user_id)
        else user_ids in
      resolve_users config auth_manager rest user_ids
  end.

(** The [# Build query] part of [list_assets]. *)
Definition list_assets_query_parts (config : ServerConfig)
    (auth_manager : AuthManager) (params : ListAssetsParams)
    : M (list string) :=
  let query_parts : list string := [] in
  query_parts <-
    (match la_assigned_to params with
     | Some (user :: users) =>
         user_ids <- resolve_users config auth_manager (user :: users) [] ;;
         ret (Py.append query_parts ("assigned_toIN" ++ Py.join "," user_ids))
     | _ => ret query_parts
     end) ;;
  let query_parts :=
    append_if (la_location params)
      ("location=" ++ Py.the (la_location params)) query_parts in
  let query_parts :=
    append_if (la_name params)
      ("display_nameLIKE" ++ Py.the (la_name params)) query_parts in
  let query_parts :=
    append_if (la_query params)
      ("^asset_tagLIKE" ++ Py.the (la_query params)
       ++ "^ORdisplay_nameLIKE" ++ Py.the (la_query params)
       ++ "^ORserial_numberLIKE" ++ Py.the (la_query params)
       ++ "^ORmodelLIKE" ++ Py.the (la_query params)
       ++ "^ORshort_descriptionLIKE" ++ Py.the (la_query params)) query_parts in
  ret query_parts.

Definition list_assets (config : ServerConfig) (auth_manager : AuthManager)
    (params : ListAssetsParams) : M pydict :=
  let api_url := api_url config ++ "/table/alm_asset" in
  let query_params :=
    [("sysparm_limit", VStr (Py.str_int (la_limit params)));
     ("sysparm_offset", VStr (Py.str_int (la_offset params)));
     ("sysparm_display_value", VStr "true")] in
  query_parts <- list_assets_query_parts config auth_manager params ;;
  let query_params :=
    if Py.truthy_list query_parts
    then Py.set "sysparm_query" (VStr (Py.join "^" query_parts)) query_params
    else query_params in
  try_except
    (response <- requests_call (get_request config auth_manager api_url (Some query_params)) ;;
     raise_for_status response ;;;
     let result := json_get_result response (RList []) in
     ret [("success", VBool true);
          ("message", VStr ("Found " ++ Py.str_int (Z.of_nat (result_len result))
                            ++ " assets"));
          ("assets", result_val result);
          ("count", VInt (Z.of_nat (result_len result)))])
    (fun e =>
       logger_error ("Failed to list assets: " ++ e) ;;;
       ret [("success", VBool false);
            ("message", VStr ("Failed to list assets: " ++ e))]).

(** [resolve_asset_id] comes from [servicenow_mcp.utils.resolvers] as
    well: the operations below are modelled over an arbitrary one. *)
Variable resolve_asset_id : ServerConfig -> AuthManager -> string -> M (option string).

(** The part of [update_asset] up to [# Make request]: the early
    failure response, or the URL and the data of the request. *)
Definition update_asset_data (config : ServerConfig)
    (auth_manager : AuthManager) (params : UpdateAssetParams)
    : M (AssetResponse + (string * pydict)) :=
  asset_sys_id <- resolve_asset_id config auth_manager (ua_asset_id params) ;;
  if negb (Py.truthy asset_sys_id) then
    ret (inl (mkAssetResponse false
                ("Could not find asset: " ++ ua_asset_id params) None None))
  else
    let api_url := api_url config ++ "/table/alm_asset/" ++ Py.the asset_sys_id in
    let data : pydict := [] in
    let data := set_if "display_name" (ua_display_name params) data in
    let data := set_if "model" (ua_model params) data in
    let data := set_if "serial_number" (ua_serial_number params) data in
    step <-
      (if Py.truthy (ua_assigned_to params) then
         user_id <- resolve_user_id config auth_manager
                      (Py.the (ua_assigned_to params)) ;;
         if Py.truthy user_id
         then ret (inr (Py.set "assigned_to" (Py.of_opt user_id) data))
         else ret (inl (mkAssetResponse false
                          ("Could not resolve user: " ++ Py.the (ua_assigned_to params))
                          None None))
       else ret (inr data)) ;;
    match step with
    | inl early => ret (inl early)
    | inr data =>
        let data := set_if "location" (ua_location params) data in
        let data := set_if "cost" (ua_cost params) data in
        let data := set_if "purchase_date" (ua_purchase_date params) data in
        let data := set_if "warranty_expiration" (ua_warranty_expiration params) data in
        let data := set_if "category" (ua_category params) data in
        let data := set_if "subcategory" (ua_subcategory params) data in
        let data := set_if "manufacturer" (ua_manufacturer params) data in
        let data := set_if "model_category" (ua_model_category params) data in
        let data := set_if "state" (ua_state params) data in
        let data := set_if "substatus" (ua_substatus params) data in
        let data := set_if "comments" (ua_comments params) data in
        ret (inr (api_url, data))
    end.

Definition update_asset (config : ServerConfig) (auth_manager : AuthManager)
    (params : UpdateAssetParams) : M AssetResponse :=
  step <- update_asset_data config auth_manager params ;;
  match step with
  | inl early => ret early
  | inr (api_url, data) =>
      try_except
        (response <- requests_call (patch_request config auth_manager api_url data) ;;
         raise_for_status response ;;;
         let result := json_get_result response (RDict []) in
         the_sys_id <- result_get result "sys_id" ;;
         the_asset_tag <- result_get result "asset_tag" ;;
         ret (mkAssetResponse true "Asset updated successfully"
                the_sys_id the_asset_tag))
        (fun e =>
           logger_error ("Failed to update asset: " ++ e) ;;;
           ret (mkAssetResponse false ("Failed to update asset: " ++ e)
                  None None))
  end.

(** The resolution step of [delete_asset]. *)
Definition delete_asset_target (config : ServerConfig)
    (auth_manager : AuthManager) (params : DeleteAssetParams)
    : M (AssetResponse + option string) :=
  asset_sys_id <- resolve_asset_id config auth_manager (da_asset_id params) ;;
  if negb (Py.truthy asset_sys_id) then
    ret (inl (mkAssetResponse false
                ("Could not find asset: " ++ da_asset_id params) None None))
  else ret (inr asset_sys_id).

Definition delete_asset (config : ServerConfig) (auth_manager : AuthManager)
    (params : DeleteAssetParams) : M AssetResponse :=
  step <- delete_asset_target config auth_manager params ;;
  match step with
  | inl early => ret early
  | inr asset_sys_id =>
      let api_url := api_url config ++ "/table/alm_asset/" ++ Py.the asset_sys_id in
      try_except
        (response <- requests_call (delete_request config auth_manager api_url) ;;
         raise_for_status response ;;;
         ret (mkAssetResponse true "Asset deleted successfully" asset_sys_id None))
        (fun e =>
           logger_error ("Failed to delete asset: " ++ e) ;;;
           ret (mkAssetResponse false ("Failed to delete asset: " ++ e)
                  None None))
  end.

(** The part of [transfer_asset] up to [# Make request]. *)
Definition transfer_asset_data (config : ServerConfig)
    (auth_manager : AuthManager) (params : TransferAssetParams)
    : M (AssetResponse + (string * pydict)) :=
  asset_sys_id <- resolve_asset_id config auth_manager (ta_asset_id params) ;;
  if negb (Py.truthy asset_sys_id) then
    ret (inl (mkAssetResponse false
                ("Could not find asset: " ++ ta_asset_id params) None None))
  else
    new_user_id <- resolve_user_id config auth_manager (ta_new_assigned_to params) ;;
    if negb (Py.truthy new_user_id) then
      ret (inl (mkAssetResponse false
                  ("Could not resolve user: " ++ ta_new_assigned_to params) None None))
    else
      let api_url := api_url config ++ "/table/alm_asset/" ++ Py.the asset_sys_id in
      let data := [("assigned_to", Py.of_opt new_user_id)] in
      let transfer_comment := "Asset transferred to " ++ ta_new_assigned_to params in
      let transfer_comment :=
        if Py.truthy (ta_transfer_reason params)
        then transfer_comment ++ " - Reason: " ++ Py.the (ta_transfer_reason params)
        else transfer_comment in
      let transfer_comment :=
        if Py.truthy (ta_comments params)
        then transfer_comment ++ " - " ++ Py.the (ta_comments params)
        else transfer_comment in
      let data := Py.set "comments" (VStr transfer_comment) data in
      ret (inr (api_url, data)).

Definition transfer_asset (config : ServerConfig) (auth_manager : AuthManager)
    (params : TransferAssetParams) : M AssetResponse :=
  step <- transfer_asset_data config auth_manager params ;;
  match step with
  | inl early => ret early
  | inr (api_url, data) =>
      try_except
        (response <- requests_call (patch_request config auth_manager api_url data) ;;
         raise_for_status response ;;;
         let result := json_get_result response (RDict []) in
         the_sys_id <- result_get result "sys_id" ;;
         the_asset_tag <- result_get result "asset_tag" ;;
         ret (mkAssetResponse true
                ("Asset transferred successfully to " ++ ta_new_assigned_to params)
                the_sys_id the_asset_tag))
        (fun e =>
           logger_error ("Failed to transfer asset: " ++ e) ;;;
           ret (mkAssetResponse false ("Failed to transfer asset: " ++ e)
                  None None))
  end.

End with_resolvers.

(** The [# Build query parameters] part of [get_asset]: the early
    failure, or [query_params] as passed to [requests.get]. *)
Definition get_asset_query_params (params : GetAssetParams) : pydict + pydict :=
  let query_params : pydict := [] in
  let step :=
    if Py.truthy (ga_asset_id params) then
      inr (Py.set "sysparm_query"
             (VStr ("sys_id=" ++ Py.the (ga_asset_id params))) query_params)
    else if Py.truthy (ga_asset_tag params) then
      inr (Py.set "sysparm_query"
             (VStr ("asset_tag=" ++ Py.the (ga_asset_tag params))) query_params)
    else if Py.truthy (ga_serial_number params) then
      inr (Py.set "sysparm_query"
             (VStr ("serial_number=" ++ Py.the (ga_serial_number params))) query_params)
    else
      inl [("success", VBool false);
           ("message", VStr "At least one search parameter is required")] in
  match step with
  | inl early => inl early
  | inr query_params =>
      let query_params := Py.set "sysparm_limit" (VStr "1") query_params in
      let query_params := Py.set "sysparm_display_value" (VStr "true") query_params in
      inr query_params
  end.

Definition get_asset (config : ServerConfig) (auth_manager : AuthManager)
    (params : GetAssetParams) : M pydict :=
  let api_url := api_url config ++ "/table/alm_asset" in
  match get_asset_query_params params with
  | inl early => ret early
  | inr query_params =>
      try_except
        (response <- requests_call (get_request config auth_manager api_url (Some query_params)) ;;
         raise_for_status response ;;;
         let result := json_get_result response (RList []) in
         if negb (result_truthy result) then
           ret [("success", VBool false); ("message", VStr "Asset not found")]
         else
           row <- result_index0 result ;;
           ret [("success", VBool true); ("message", VStr "Asset found");
                ("asset", VRow row)])
        (fun e =>
           logger_error ("Failed to get asset: " ++ e) ;;;
           ret [("success", VBool false);
                ("message", VStr ("Failed to get asset: " ++ e))])
  end.

Definition search_assets_by_name_query_params (params : SearchAssetsByNameParams)
    : pydict :=
  let query_params :=
    [("sysparm_limit", VStr (Py.str_int (sa_limit params)));
     ("sysparm_offset", VStr (Py.str_int (sa_offset params)));
     ("sysparm_display_value", VStr "true")] in
  if sa_exact_match params
  then Py.set "sysparm_query" (VStr ("display_name=" ++ sa_name params)) query_params
  else Py.set "sysparm_query" (VStr ("display_nameLIKE" ++ sa_name params)) query_params.

Definition search_assets_by_name (config : ServerConfig)
    (auth_manager : AuthManager) (params : SearchAssetsByNameParams) : M pydict :=
  let api_url := api_url config ++ "/table/alm_asset" in
  let query_params := search_assets_by_name_query_params params in
  try_except
    (response <- requests_call (get_request config auth_manager api_url (Some query_params)) ;;
     raise_for_status response ;;;
     let result := json_get_result response (RList []) in
     ret [("success", VBool true);
          ("message", VStr ("Found " ++ Py.str_int (Z.of_nat (result_len result))
                            ++ " assets matching name '" ++ sa_name params ++ "'"));
          ("assets", result_val result);
          ("count", VInt (Z.of_nat (result_len result)));
          ("search_term", VStr (sa_name params));
          ("exact_match", VBool (sa_exact_match params))])
    (fun e =>
       logger_error ("Failed to search assets by name: " ++ e) ;;;
       ret [("success", VBool false);
            ("message", VStr ("Failed to search assets by name: " ++ e))]).

End asset_tools.

(** ** knowledge_base.py *)

Module knowledge_base.

Record ListKnowledgeBasesParams := mkListKnowledgeBasesParams {
  limit : Z;
  offset : Z;
  active : option bool;
  query : option string
}.

(** One entry of the ["knowledge_bases"] list of the answer. *)
Record KnowledgeBaseItem := mkKnowledgeBaseItem {
  kb_id : string;
  kb_title : string;
  kb_description : string;
  kb_owner : string;
  kb_managers : string;
  kb_active : bool;
  kb_created : string;
  kb_updated : string
}.

(** The dictionary [list_knowledge_bases] returns. *)
Record KnowledgeBaseList := mkKnowledgeBaseList {
  success : bool;
  message : string;
  knowledge_bases : list KnowledgeBaseItem;
  count : Z;
  out_limit : Z;
  out_offset : Z
}.

(** [kb_item.get(key, "")]. *)
Definition get_or_empty (key : string) (kb_item : record) : string :=
  match Py.get key kb_item with Some v => v | None => "" end.

(** The body of the transformation loop; field values are strings, so
    the [isinstance(..., dict)] tests on owner and managers fail. *)
Definition transform_item (kb_item : record) : KnowledgeBaseItem :=
  mkKnowledgeBaseItem
    (get_or_empty "sys_id" kb_item)
    (get_or_empty "title" kb_item)
    (get_or_empty "description" kb_item)
    ""
    ""
    (match Py.get "active" kb_item with
     | Some v => String.eqb v "true"
     | None => false
     end)
    (get_or_empty "sys_created_on" kb_item)
    (get_or_empty "sys_updated_on" kb_item).

(** The [# Build query string] part: the list [query_parts]. *)
Definition list_knowledge_bases_query_parts (params : ListKnowledgeBasesParams)
    : list string :=
  let query_parts : list string := [] in
  let query_parts :=
    match active params with
    | Some a => Py.append query_parts ("active=" ++ Py.str_bool_lower a)
    | None => query_parts
    end in
  let query_parts :=
    if Py.truthy (query params)
    then Py.append query_parts
           ("titleLIKE" ++ Py.the (query params)
            ++ "^ORdescriptionLIKE" ++ Py.the (query params))
    else query_parts in
  query_parts.

Definition list_knowledge_bases_query_params (params : ListKnowledgeBasesParams)
    : pydict :=
  let query_params :=
    [("sysparm_limit", VInt (limit params));
     ("sysparm_offset", VInt (offset params));
     ("sysparm_display_value", VStr "true")] in
  let query_parts := list_knowledge_bases_query_parts params in
  if Py.truthy_list query_parts
  then Py.set "sysparm_query" (VStr (Py.join "^" query_parts)) query_params
  else query_params.

Definition list_knowledge_bases (config : ServerConfig) (auth_manager : AuthManager)
    (params : ListKnowledgeBasesParams) : M KnowledgeBaseList :=
  let api_url := api_url config ++ "/table/kb_knowledge_base" in
  let query_params := list_knowledge_bases_query_params params in
  try_except
    (response <- requests_call (get_request config auth_manager api_url (Some query_params)) ;;
     raise_for_status response ;;;
     match json_result response with
     | None =>
         logger_error ("Unexpected response format: " ++ body_text response) ;;;
         ret (mkKnowledgeBaseList false "Unexpected response format" []
                0 (limit params) (offset params))
     | Some result =>
         let knowledge_bases :=
           match result with
           | RList rows => map transform_item rows
           | RDict _ => []
           end in
         ret (mkKnowledgeBaseList true
                ("Found " ++ Py.str_int (Z.of_nat (length knowledge_bases))
                 ++ " knowledge bases")
                knowledge_bases
                (Z.of_nat (length knowledge_bases))
                (limit params) (offset params))
     end)
    (fun e =>
       logger_error ("Failed to list knowledge bases: " ++ e) ;;;
       ret (mkKnowledgeBaseList false ("Failed to list knowledge bases: " ++ e) []
              0 (limit params) (offset params))).

Record CreateKnowledgeBaseParams := mkCreateKnowledgeBaseParams {
  ckb_title : string;
  ckb_description : option string;
  ckb_owner : option string;
  ckb_managers : option string;
  ckb_publish_workflow : option string;
  ckb_retire_workflow : option string
}.

Record CreateCategoryParams := mkCreateCategoryParams {
  cc_title : string;
  cc_description : option string;
  cc_knowledge_base : string;
  cc_parent_category : option string;
  cc_parent_table : option string;
  cc_active : bool
}.

Record CreateArticleParams := mkCreateArticleParams {
  car_title : string;
  car_text : string;
  car_short_description : string;
  car_knowledge_base : string;
  car_category : string;
  car_keywords : option string;
  car_article_type : option string
}.

Record UpdateArticleParams := mkUpdateArticleParams {
  uar_article_id : string;
  uar_title : option string;
  uar_text : option string;
  uar_short_description : option string;
  uar_category : option string;
  uar_keywords : option string
}.

Record PublishArticleParams := mkPublishArticleParams {
  par_article_id : string;
  par_workflow_state : option string;
  par_workflow_version : option string
}.

Record AddCommentParams := mkAddCommentParams {
  ac_article_id : string;
  ac_comment : string;
  ac_is_work_note : bool
}.

Record CreateServiceRequestParams := mkCreateServiceRequestParams {
  csr_catalog_item : string;
  csr_requested_for : option string;
  csr_quantity : Z;
  csr_short_description : option string;
  csr_description : option string;
  csr_variables : option pydict
}.

Record KnowledgeBaseResponse := mkKnowledgeBaseResponse {
  kbr_success : bool;
  kbr_message : string;
  kbr_kb_id : option string;
  kbr_kb_name : option string
}.

Record CategoryResponse := mkCategoryResponse {
  cat_success : bool;
  cat_message : string;
  cat_category_id : option string;
  cat_category_name : option string
}.

Record ArticleResponse := mkArticleResponse {
  art_success : bool;
  art_message : string;
  art_article_id : option string;
  art_article_title : option string;
  art_workflow_state : option string
}.

Record CommentResponse := mkCommentResponse {
  com_success : bool;
  com_message : string;
  com_article_id : option string;
  com_comment_id : option string
}.

Definition set_if (key : string) (value : option string) (data : pydict) : pydict :=
  if Py.truthy value then Py.set key (Py.of_opt value) data else data.

Definition create_knowledge_base_data (params : CreateKnowledgeBaseParams) : pydict :=
  let data := [("title", VStr (ckb_title params))] in
  let data := set_if "description" (ckb_description params) data in
  let data := set_if "owner" (ckb_owner params) data in
  let data := set_if "kb_managers" (ckb_managers params) data in
  let data := set_if "workflow_publish" (ckb_publish_workflow params) data in
  let data := set_if "workflow_retire" (ckb_retire_workflow params) data in
  data.

Definition create_knowledge_base (config : ServerConfig) (auth_manager : AuthManager)
    (params : CreateKnowledgeBaseParams) : M KnowledgeBaseResponse :=
  let api_url := api_url config ++ "/table/kb_knowledge_base" in
  let data := create_knowledge_base_data params in
  try_except
    (response <- requests_call (post_request config auth_manager api_url data) ;;
     raise_for_status response ;;;
     let result := json_get_result response (RDict []) in
     the_sys_id <- result_get result "sys_id" ;;
     the_title <- result_get result "title" ;;
     ret (mkKnowledgeBaseResponse true "Knowledge base created successfully"
            the_sys_id the_title))
    (fun e =>
       logger_error ("Failed to create knowledge base: " ++ e) ;;;
       ret (mkKnowledgeBaseResponse false ("Failed to create knowledge base: " ++ e)
              None None)).

Definition create_category_data (params : CreateCategoryParams) : pydict :=
  let data :=
    [("label", VStr (cc_title params));
     ("kb_knowledge_base", VStr (cc_knowledge_base params));
     ("active", VStr (Py.str_bool_lower (cc_active params)))] in
  let data := set_if "description" (cc_description params) data in
  let data := set_if "parent" (cc_parent_category params) data in
  let data := set_if "parent_table" (cc_parent_table params) data in
  data.

Definition create_category (config : ServerConfig) (auth_manager : AuthManager)
    (params : CreateCategoryParams) : M CategoryResponse :=
  let api_url := api_url config ++ "/table/kb_category" in
  let data := create_category_data params in
  try_except
    (response <- requests_call (post_request config auth_manager api_url data) ;;
     raise_for_status response ;;;
     let result := json_get_result response (RDict []) in
     the_sys_id <- result_get result "sys_id" ;;
     the_label <- result_get result "label" ;;
     ret (mkCategoryResponse true "Category created successfully"
            the_sys_id the_label))
    (fun e =>
       logger_error ("Failed to create category: " ++ e) ;;;
       ret (mkCategoryResponse false ("Failed to create category: " ++ e)
              None None)).

Definition create_article_data (params : CreateArticleParams) : pydict :=
  let data :=
    [("short_description", VStr (car_short_description params));
     ("text", VStr (car_text params));
     ("kb_knowledge_base", VStr (car_knowledge_base params));
     ("kb_category", VStr (car_category params));
     ("article_type", Py.of_opt (car_article_type params))] in
  let data :=
    if Py.truthy_str (car_title params)
    then Py.set "short_description" (VStr (car_title params)) data
    else data in
  let data := set_if "keywords" (car_keywords params) data in
  data.

Definition create_article (config : ServerConfig) (auth_manager : AuthManager)
    (params : CreateArticleParams) : M ArticleResponse :=
  let api_url := api_url config ++ "/table/kb_knowledge" in
  let data := create_article_data params in
  try_except
    (response <- requests_call (post_request config auth_manager api_url data) ;;
     raise_for_status response ;;;
     let result := json_get_result response (RDict []) in
     the_sys_id <- result_get result "sys_id" ;;
     the_title <- result_get result "short_description" ;;
     the_state <- result_get result "workflow_state" ;;
     ret (mkArticleResponse true "Article created successfully"
            the_sys_id the_title the_state))
    (fun e =>
       logger_error ("Failed to create article: " ++ e) ;;;
       ret (mkArticleResponse false ("Failed to create article: " ++ e)
              None None None)).

Definition update_article_data (params : UpdateArticleParams) : pydict :=
  let data : pydict := [] in
  let data := set_if "short_description" (uar_title params) data in
  let data := set_if "text" (uar_text params) data in
  let data := set_if "short_description" (uar_short_description params) data in
  let data := set_if "kb_category" (uar_category params) data in
  let data := set_if "keywords" (uar_keywords params) data in
  data.

Definition update_article (config : ServerConfig) (auth_manager : AuthManager)
    (params : UpdateArticleParams) : M ArticleResponse :=
  let api_url := api_url config ++ "/table/kb_knowledge/" ++ uar_article_id params in
  let data := update_article_data params in
  try_except
    (response <- requests_call (patch_request config auth_manager api_url data) ;;
     raise_for_status response ;;;
     let result := json_get_result response (RDict []) in
     the_title <- result_get result "short_description" ;;
     the_state <- result_get result "workflow_state" ;;
     ret (mkArticleResponse true "Article updated successfully"
            (Some (uar_article_id params)) the_title the_state))
    (fun e =>
       logger_error ("Failed to update article: " ++ e) ;;;
       ret (mkArticleResponse false ("Failed to update article: " ++ e)
              None None None)).

Definition publish_article_data (params : PublishArticleParams) : pydict :=
  let data := [("workflow_state", Py.of_opt (par_workflow_state params))] in
  let data := set_if "workflow_version" (par_workflow_version params) data in
  data.

Definition publish_article (config : ServerConfig) (auth_manager : AuthManager)
    (params : PublishArticleParams) : M ArticleResponse :=
  let api_url := api_url config ++ "/table/kb_knowledge/" ++ par_article_id params in
  let data := publish_article_data params in
  try_except
    (response <- requests_call (patch_request config auth_manager api_url data) ;;
     raise_for_status response ;;;
     let result := json_get_result response (RDict []) in
     the_title <- result_get result "short_description" ;;
     the_state <- result_get result "workflow_state" ;;
     ret (mkArticleResponse true "Article published successfully"
            (Some (par_article_id params)) the_title the_state))
    (fun e =>
       logger_error ("Failed to publish article: " ++ e) ;;;
       ret (mkArticleResponse false ("Failed to publish article: " ++ e)
              None None None)).

Definition add_comment_data (params : AddCommentParams) : pydict :=
  let data : pydict := [] in
  if ac_is_work_note params
  then Py.set "work_notes" (VStr (ac_comment params)) data
  else Py.set "comments" (VStr (ac_comment params)) data.

Definition add_comment (config : ServerConfig) (auth_manager : AuthManager)
    (params : AddCommentParams) : M CommentResponse :=
  let api_url := api_url config ++ "/table/kb_knowledge/" ++ ac_article_id params in
  let data := add_comment_data params in
  try_except
    (response <- requests_call (patch_request config auth_manager api_url data) ;;
     raise_for_status response ;;;
     let result := json_get_result response (RDict []) in
     the_sys_id <- result_get result "sys_id" ;;
     ret (mkCommentResponse true "Comment added successfully"
            (Some (ac_article_id params)) the_sys_id))
    (fun e =>
       logger_error ("Failed to add comment: " ++ e) ;;;
       ret (mkCommentResponse false ("Failed to add comment: " ++ e) None None)).

(** [add_comment_to_kb] takes [AddCommentToKBParams], which has the
    fields of [AddCommentParams]. *)
Definition add_comment_to_kb (config : ServerConfig) (auth_manager : AuthManager)
    (params : AddCommentParams) : M pydict :=
  let api_url := api_url config ++ "/table/kb_knowledge/" ++ ac_article_id params in
  let data :=
    if ac_is_work_note params
    then [("work_notes", VStr (ac_comment params))]
    else [("comments", VStr (ac_comment params))] in
  try_except
    (response <- requests_call (patch_request config auth_manager api_url data) ;;
     raise_for_status response ;;;
     ret [("success", VBool true);
          ("message", VStr ("Comment added to article " ++ ac_article_id params));
          ("article_id", VStr (ac_article_id params));
          ("comment_type",
           VStr (if ac_is_work_note params then "work_note" else "comment"))])
    (fun e =>
       logger_error ("Failed to add comment to knowledge base: " ++ e) ;;;
       ret [("success", VBool false);
            ("message", VStr ("Failed to add comment: " ++ e));
            ("article_id", VStr (ac_article_id params))]).

Definition catalog_search_request (config : ServerConfig)
    (auth_manager : AuthManager) (params : CreateServiceRequestParams) : Request :=
  get_request config auth_manager (api_url config ++ "/table/sc_cat_item")
    (Some [("sysparm_query",
            VStr ("nameLIKE" ++ csr_catalog_item params
                  ++ "^ORsys_id=" ++ csr_catalog_item params));
           ("sysparm_limit", VStr "1");
           ("sysparm_fields", VStr "sys_id,name,short_description")]).

Definition service_request_data (params : CreateServiceRequestParams)
    (catalog_item_name : string) : pydict :=
  let request_data :=
    [("short_description",
      VStr (or_else (csr_short_description params)
              ("Request for " ++ catalog_item_name)));
     ("description",
      VStr (or_else (csr_description params)
              ("Service catalog request for " ++ catalog_item_name)))] in
  set_if "requested_for" (csr_requested_for params) request_data.

Definition service_request_item_data (params : CreateServiceRequestParams)
    (request_id : option string) (catalog_item_id catalog_item_name : string)
    : pydict :=
  let request_item_data :=
    [("request", Py.of_opt request_id);
     ("cat_item", VStr catalog_item_id);
     ("quantity", VInt (csr_quantity params));
     ("short_description",
      VStr (or_else (csr_short_description params)
              ("Request for " ++ catalog_item_name)))] in
  set_if "requested_for" (csr_requested_for params) request_item_data.

Definition create_service_request (config : ServerConfig)
    (auth_manager : AuthManager) (params : CreateServiceRequestParams) : M pydict :=
  try_except
    (catalog_response <-
       requests_call (catalog_search_request config auth_manager params) ;;
     raise_for_status catalog_response ;;;
     let catalog_results := json_get_result catalog_response (RList []) in
     if negb (result_truthy catalog_results) then
       ret [("success", VBool false);
            ("message", VStr ("Catalog item '" ++ csr_catalog_item params
                              ++ "' not found"));
            ("request_id", VNone)]
     else
       first <- result_index0 catalog_results ;;
       catalog_item_id <- row_item first "sys_id" ;;
       catalog_item_name <- row_item first "name" ;;
       let request_api_url := api_url config ++ "/table/sc_request" in
       let request_data := service_request_data params catalog_item_name in
       request_response <-
         requests_call (post_request config auth_manager request_api_url request_data) ;;
       raise_for_status request_response ;;;
       let request_result := json_get_result request_response (RDict []) in
       request_id <- result_get request_result "sys_id" ;;
       request_number <- result_get request_result "number" ;;
       let request_item_api_url := api_url config ++ "/table/sc_req_item" in
       let request_item_data :=
         service_request_item_data params request_id catalog_item_id
           catalog_item_name in
       item_response <-
         requests_call
           (post_request config auth_manager request_item_api_url request_item_data) ;;
       raise_for_status item_response ;;;
       let item_result := json_get_result item_response (RDict []) in
       item_id <- result_get item_result "sys_id" ;;
       ret [("success", VBool true);
            ("message", VStr ("Service request " ++ Py.the request_number
                              ++ " created successfully"));
            ("request_id", Py.of_opt request_id);
            ("request_number", Py.of_opt request_number);
            ("item_id", Py.of_opt item_id);
            ("catalog_item", VStr catalog_item_name)])
    (fun e =>
       logger_error ("Failed to create service request: " ++ e) ;;;
       ret [("success", VBool false);
            ("message", VStr ("Failed to create service request: " ++ e));
            ("request_id", VNone)]).

End knowledge_base.

(** ** hardware_ordering.py *)

Module hardware_ordering.

Record SubmitHardwareOrderParams := mkSubmitHardwareOrderParams {
  catalog_item_id : string;
  requested_for : string;
  quantity : Z;
  justification : option string;
  priority : option string;
  requested_delivery_date : option string;
  special_instructions : option string;
  cost_center : option string;
  project_code : option string
}.

(** [d.get(key, default)] where [d] is expected to be an object. *)
Definition result_get_default (v : jresult) (key : string) (default : string)
    : M string :=
  o <- result_get v key ;;
  ret (match o with Some s => s | None => default end).

Definition set_if (key : string) (value : option string) (data : pydict) : pydict :=
  if Py.truthy value then Py.set key (Py.of_opt value) data else data.

Definition submit_hardware_order (config : ServerConfig)
    (auth_manager : AuthManager) (params : SubmitHardwareOrderParams)
    : M pydict :=
  try_except
    (let item_api_url :=
       api_url config ++ "/table/sc_cat_item/" ++ catalog_item_id params in
     item_response <- requests_call (get_request config auth_manager item_api_url None) ;;
     raise_for_status item_response ;;;
     let catalog_item := json_get_result item_response (RDict []) in
     if negb (result_truthy catalog_item) then
       ret [("success", VBool false);
            ("message", VStr ("Catalog item " ++ catalog_item_id params ++ " not found"))]
     else
       name <- result_get_default catalog_item "name" "Hardware Item" ;;
       let request_data :=
         [("requested_for", VStr (requested_for params));
          ("short_description", VStr ("Hardware Order: " ++ name));
          ("description", VStr ("Order for " ++ Py.str_int (quantity params)
                                ++ "x " ++ name));
          ("priority", Py.of_opt (priority params));
          ("state", VStr "1");
          ("special_instructions",
           VStr (if Py.truthy (special_instructions params)
                 then Py.the (special_instructions params) else ""))] in
       let request_data := set_if "justification" (justification params) request_data in
       let request_data :=
         set_if "delivery_date" (requested_delivery_date params) request_data in
       let request_api_url := api_url config ++ "/table/sc_request" in
       request_response <-
         requests_call (post_request config auth_manager request_api_url request_data) ;;
       raise_for_status request_response ;;;
       let service_request := json_get_result request_response (RDict []) in
       request_sys_id <- result_get service_request "sys_id" ;;
       request_number <- result_get service_request "number" ;;
       price <- result_get_default catalog_item "price" "0" ;;
       recurring_price <- result_get_default catalog_item "recurring_price" "0" ;;
       let item_data :=
         [("request", Py.of_opt request_sys_id);
          ("cat_item", VStr (catalog_item_id params));
          ("quantity", VInt (quantity params));
          ("price", VStr price);
          ("recurring_price", VStr recurring_price);
          ("state", VStr "1")] in
       let item_data := set_if "cost_center" (cost_center params) item_data in
       let item_data := set_if "project_code" (project_code params) item_data in
       let item_api_url := api_url config ++ "/table/sc_req_item" in
       item_response <-
         requests_call (post_request config auth_manager item_api_url item_data) ;;
       raise_for_status item_response ;;;
       let request_item := json_get_result item_response (RDict []) in
       item_id <- result_get request_item "sys_id" ;;
       catalog_name <- result_get catalog_item "name" ;;
       estimated_cost <- result_get_default catalog_item "price" "TBD" ;;
       ret [("success", VBool true);
            ("message", VStr ("Hardware order " ++ Py.the request_number
                              ++ " submitted successfully"));
            ("request_id", Py.of_opt request_sys_id);
            ("request_number", Py.of_opt request_number);
            ("item_id", Py.of_opt item_id);
            ("catalog_item", Py.of_opt catalog_name);
            ("quantity", VInt (quantity params));
            ("estimated_cost", VStr estimated_cost);
            ("status", VStr "Pending Approval");
            ("requested_for", VStr (requested_for params))])
    (fun e =>
       logger_error ("Failed to submit hardware order: " ++ e) ;;;
       ret [("success", VBool false);
            ("message", VStr ("Failed to submit hardware order: " ++ e))]).

Record BrowseHardwareCatalogParams := mkBrowseHardwareCatalogParams {
  bh_category : option string;
  bh_manufacturer : option string;
  bh_price_range : option string;
  bh_availability : option bool;
  bh_limit : Z;
  bh_offset : Z
}.

Record TrackHardwareOrderParams := mkTrackHardwareOrderParams {
  th_request_number : option string;
  th_requested_for : option string;
  th_status : option string;
  th_date_range : option string;
  th_limit : Z
}.

Record CancelHardwareOrderParams := mkCancelHardwareOrderParams {
  ch_request_id : string;
  ch_cancellation_reason : string;
  ch_notify_requestor : bool
}.

Record ProvisionHardwareParams := mkProvisionHardwareParams {
  ph_request_id : string;
  ph_asset_tag : string;
  ph_serial_number : option string;
  ph_location : option string;
  ph_configuration_notes : option string
}.

(** The [# Build query filters] part of [browse_hardware_catalog] and
    the request it makes. *)
Definition browse_hardware_catalog_query_filters
    (params : BrowseHardwareCatalogParams) : list string :=
  let query_filters := ["active=true"] in
  let query_filters :=
    if Py.truthy (bh_category params)
    then Py.append query_filters ("category.nameLIKE" ++ Py.the (bh_category params))
    else query_filters in
  let query_filters :=
    if Py.truthy (bh_manufacturer params)
    then Py.append query_filters
           ("short_descriptionLIKE" ++ Py.the (bh_manufacturer params))
    else query_filters in
  let query_filters :=
    if negb (match bh_availability params with Some a => a | None => false end)
    then Py.append query_filters "active=false"
    else query_filters in
  query_filters.

Definition browse_hardware_catalog_request (config : ServerConfig)
    (auth_manager : AuthManager) (params : BrowseHardwareCatalogParams) : Request :=
  let query_filters := browse_hardware_catalog_query_filters params in
  let query_string :=
    if Py.truthy_list query_filters then Py.join "^" query_filters else "" in
  get_request config auth_manager (api_url config ++ "/table/sc_cat_item")
    (Some [("sysparm_query", VStr query_string);
           ("sysparm_fields",
            VStr "sys_id,name,short_description,category,price,picture,active,order,description");
           ("sysparm_limit", VStr (Py.str_int (bh_limit params)));
           ("sysparm_offset", VStr (Py.str_int (bh_offset params)));
           ("sysparm_display_value", VStr "true")]).

(** One request item of a tracked order, and one tracked order. *)
Record OrderItem := mkOrderItem {
  oi_item_name : string;
  oi_quantity : string;
  oi_status : option string;
  oi_price : string
}.

Record OrderDetail := mkOrderDetail {
  od_request_number : option string;
  od_request_id : option string;
  od_description : option string;
  od_status : option string;
  od_priority : option string;
  od_requested_for : option string;
  od_created_date : option string;
  od_delivery_date : option string;
  od_items : list OrderItem
}.

(** The dictionary [track_hardware_orders] returns; the failure
    dictionary has no ["total_count"]. *)
Record TrackedOrders := mkTrackedOrders {
  to_success : bool;
  to_message : string;
  to_orders : list OrderDetail;
  to_total_count : option Z
}.

Definition get_or (key : string) (default : string) (row : record) : string :=
  match Py.get key row with Some v => v | None => default end.

(** [item.get("cat_item", {}).get("name", default)]: field values are
    strings, and a string has no [get]. *)
Definition cat_item_name (item : record) (default : string) : M string :=
  match Py.get "cat_item" item with
  | Some _ => raise AttributeError
  | None => ret default
  end.

(** One processed catalog item and the dictionary
    [browse_hardware_catalog] returns; the failure dictionary has
    neither ["total_count"] nor ["filters_applied"]. *)
Record CatalogItem := mkCatalogItem {
  ci_sys_id : option string;
  ci_name : option string;
  ci_short_description : option string;
  ci_category : option string;
  ci_price : string;
  ci_description : string;
  ci_active : bool;
  ci_order_priority : string;
  ci_price_range : string
}.

Record CatalogPage := mkCatalogPage {
  cp_success : bool;
  cp_message : string;
  cp_items : list CatalogItem;
  cp_total_count : option Z;
  cp_filters_applied : option (option string * option string * option bool)
}.

Section with_price_ranges.

(** The price range of an item is found by parsing
    [item.get("price", "0")] as a floating-point number, inside a [try]
    whose bare [except] gives ["Price varies"]: for every text it
    yields a label and raises nothing. Floating-point parsing is not
    modelled; the classification is a parameter of the operation. *)
Variable price_range_of : string -> string.

Definition process_item (item : record) : CatalogItem :=
  mkCatalogItem (Py.get "sys_id" item) (Py.get "name" item)
    (Py.get "short_description" item) (Py.get "category" item)
    (get_or "price" "Price on request" item)
    (get_or "description" "" item)
    (match Py.get "active" item with
     | Some v => String.eqb v "true"
     | None => false
     end)
    (get_or "order" "100" item)
    (price_range_of (get_or "price" "0" item)).

Definition browse_hardware_catalog (config : ServerConfig)
    (auth_manager : AuthManager) (params : BrowseHardwareCatalogParams)
    : M CatalogPage :=
  try_except
    (response <-
       requests_call (browse_hardware_catalog_request config auth_manager params) ;;
     raise_for_status response ;;;
     let catalog_items := json_get_result response (RList []) in
     rows <- result_items catalog_items ;;
     let processed_items := map process_item rows in
     ret (mkCatalogPage true
            ("Found " ++ Py.str_int (Z.of_nat (length processed_items))
             ++ " hardware items")
            processed_items (Some (Z.of_nat (length processed_items)))
            (Some (bh_category params, bh_manufacturer params,
                   bh_availability params))))
    (fun e =>
       logger_error ("Failed to browse hardware catalog: " ++ e) ;;;
       ret (mkCatalogPage false ("Failed to browse hardware catalog: " ++ e)
              [] None None)).

End with_price_ranges.

Definition track_query_filters (params : TrackHardwareOrderParams) : list string :=
  let query_filters : list string := [] in
  let query_filters :=
    if Py.truthy (th_request_number params)
    then Py.append query_filters ("number=" ++ Py.the (th_request_number params))
    else query_filters in
  let query_filters :=
    if Py.truthy (th_requested_for params)
    then Py.append query_filters ("requested_for=" ++ Py.the (th_requested_for params))
    else query_filters in
  let query_filters :=
    if Py.truthy (th_status params)
    then Py.append query_filters ("state=" ++ Py.the (th_status params))
    else query_filters in
  let query_filters :=
    if Py.truthy (th_date_range params) then
      if String.eqb (Py.the (th_date_range params)) "last_7_days"
      then Py.append query_filters "sys_created_on>=javascript:gs.daysAgo(7)"
      else if String.eqb (Py.the (th_date_range params)) "last_30_days"
      then Py.append query_filters "sys_created_on>=javascript:gs.daysAgo(30)"
      else query_filters
    else query_filters in
  query_filters.

Definition track_request (config : ServerConfig) (auth_manager : AuthManager)
    (params : TrackHardwareOrderParams) : Request :=
  let query_filters := track_query_filters params in
  let query_string :=
    if Py.truthy_list query_filters then Py.join "^" query_filters else "" in
  get_request config auth_manager (api_url config ++ "/table/sc_request")
    (Some [("sysparm_query", VStr query_string);
           ("sysparm_fields",
            VStr "sys_id,number,short_description,state,priority,requested_for,sys_created_on,delivery_date");
           ("sysparm_limit", VStr (Py.str_int (th_limit params)));
           ("sysparm_display_value", VStr "true")]).

Definition order_items_request (config : ServerConfig) (auth_manager : AuthManager)
    (request_sys_id : option string) : Request :=
  get_request config auth_manager (api_url config ++ "/table/sc_req_item")
    (Some [("sysparm_query", VStr ("request=" ++ Py.the request_sys_id));
           ("sysparm_fields", VStr "sys_id,quantity,cat_item.name,state,price");
           ("sysparm_display_value", VStr "true")]).

(** The list comprehension over [items]. *)
Fixpoint order_items (items : list record) : M (list OrderItem) :=
  match items with
  | [] => ret []
  | item :: rest =>
      name <- cat_item_name item "Unknown" ;;
      others <- order_items rest ;;
      ret (mkOrderItem name (get_or "quantity" "1" item) (Py.get "state" item)
             (get_or "price" "TBD" item) :: others)
  end.

(** [for request in requests_data] of [track_hardware_orders]. *)
Fixpoint track_orders (config : ServerConfig) (auth_manager : AuthManager)
    (requests_data : list record) (detailed_orders : list OrderDetail)
    : M (list OrderDetail) :=
  match requests_data with
  | [] => ret detailed_orders
  | request :: rest =>
      let request_sys_id := Py.get "sys_id" request in
      items_response <-
        requests_call (order_items_request config auth_manager request_sys_id) ;;
      let items :=
        if (status_code items_response =? 200)%Z
        then json_get_result items_response (RList [])
        else RList [] in
      rows <- result_items items ;;
      the_items <- order_items rows ;;
      track_orders config auth_manager rest
        (Py.append detailed_orders
           (mkOrderDetail (Py.get "number" request) request_sys_id
              (Py.get "short_description" request) (Py.get "state" request)
              (Py.get "priority" request) (Py.get "requested_for" request)
              (Py.get "sys_created_on" request) (Py.get "delivery_date" request)
              the_items))
  end.

Definition track_hardware_orders (config : ServerConfig)
    (auth_manager : AuthManager) (params : TrackHardwareOrderParams)
    : M TrackedOrders :=
  try_except
    (response <- requests_call (track_request config auth_manager params) ;;
     raise_for_status response ;;;
     let requests_data := json_get_result response (RList []) in
     rows <- result_items requests_data ;;
     detailed_orders <- track_orders config auth_manager rows [] ;;
     ret (mkTrackedOrders true
            ("Found " ++ Py.str_int (Z.of_nat (length detailed_orders))
             ++ " hardware orders")
            detailed_orders (Some (Z.of_nat (length detailed_orders)))))
    (fun e =>
       logger_error ("Failed to track hardware orders: " ++ e) ;;;
       ret (mkTrackedOrders false ("Failed to track hardware orders: " ++ e)
              [] None)).

Definition cancel_request (config : ServerConfig) (auth_manager : AuthManager)
    (params : CancelHardwareOrderParams) : Request :=
  patch_request config auth_manager
    (api_url config ++ "/table/sc_request/" ++ ch_request_id params)
    [("state", VStr "4");
     ("close_notes", VStr ("Order cancelled: " ++ ch_cancellation_reason params));
     ("work_notes",
      VStr ("Hardware order cancelled by user. Reason: "
            ++ ch_cancellation_reason params))].

Definition cancel_items_request (config : ServerConfig) (auth_manager : AuthManager)
    (params : CancelHardwareOrderParams) : Request :=
  get_request config auth_manager (api_url config ++ "/table/sc_req_item")
    (Some [("sysparm_query", VStr ("request=" ++ ch_request_id params));
           ("sysparm_fields", VStr "sys_id")]).

Definition cancel_item_request (config : ServerConfig) (auth_manager : AuthManager)
    (item : record) : Request :=
  patch_request config auth_manager
    (api_url config ++ "/table/sc_req_item/" ++ Py.the (Py.get "sys_id" item))
    [("state", VStr "4")].

Definition cancel_hardware_order (config : ServerConfig)
    (auth_manager : AuthManager) (params : CancelHardwareOrderParams) : M pydict :=
  try_except
    (response <- requests_call (cancel_request config auth_manager params) ;;
     raise_for_status response ;;;
     let result := json_get_result response (RDict []) in
     items_response <-
       requests_call (cancel_items_request config auth_manager params) ;;
     (if (status_code items_response =? 200)%Z then
        items <- result_items (json_get_result items_response (RList [])) ;;
        for_each items
          (fun item =>
             requests_call (cancel_item_request config auth_manager item) ;;;
             ret tt)
      else ret tt) ;;;
     the_number <- result_get_default result "number" (ch_request_id params) ;;
     ret [("success", VBool true);
          ("message", VStr ("Hardware order " ++ the_number
                            ++ " cancelled successfully"));
          ("request_id", VStr (ch_request_id params));
          ("cancellation_reason", VStr (ch_cancellation_reason params));
          ("status", VStr "Cancelled")])
    (fun e =>
       logger_error ("Failed to cancel hardware order: " ++ e) ;;;
       ret [("success", VBool false);
            ("message", VStr ("Failed to cancel hardware order: " ++ e))]).

Definition provision_lookup_request (config : ServerConfig)
    (auth_manager : AuthManager) (params : ProvisionHardwareParams) : Request :=
  get_request config auth_manager
    (api_url config ++ "/table/sc_request/" ++ ph_request_id params)
    (Some [("sysparm_fields", VStr "number,requested_for,short_description")]).

Definition provision_items_request (config : ServerConfig)
    (auth_manager : AuthManager) (params : ProvisionHardwareParams) : Request :=
  get_request config auth_manager (api_url config ++ "/table/sc_req_item")
    (Some [("sysparm_query", VStr ("request=" ++ ph_request_id params));
           ("sysparm_fields", VStr "cat_item.name,quantity");
           ("sysparm_display_value", VStr "true")]).

Definition provision_fulfil_request (config : ServerConfig)
    (auth_manager : AuthManager) (params : ProvisionHardwareParams) : Request :=
  patch_request config auth_manager
    (api_url config ++ "/table/sc_request/" ++ ph_request_id params)
    [("state", VStr "3");
     ("work_notes",
      VStr ("Hardware provisioned with asset tag: " ++ ph_asset_tag params))].

Definition provision_hardware (config : ServerConfig)
    (auth_manager : AuthManager) (params : ProvisionHardwareParams) : M pydict :=
  try_except
    (request_response <-
       requests_call (provision_lookup_request config auth_manager params) ;;
     raise_for_status request_response ;;;
     let request_data := json_get_result request_response (RDict []) in
     if negb (result_truthy request_data) then
       ret [("success", VBool false);
            ("message", VStr ("Service request " ++ ph_request_id params
                              ++ " not found"))]
     else
       items_response <-
         requests_call (provision_items_request config auth_manager params) ;;
       let ordered_items :=
         if (status_code items_response =? 200)%Z
         then json_get_result items_response (RList [])
         else RList [] in
       requested_for <- result_get request_data "requested_for" ;;
       let asset_data :=
         [("asset_tag", VStr (ph_asset_tag params));
          ("display_name", VStr ("Hardware Asset - " ++ ph_asset_tag params));
          ("assigned_to", Py.of_opt requested_for);
          ("state", VStr "1");
          ("install_status", VStr "1");
          ("substatus", VStr "available")] in
       let asset_data := set_if "serial_number" (ph_serial_number params) asset_data in
       let asset_data := set_if "location" (ph_location params) asset_data in
       let asset_data := set_if "comments" (ph_configuration_notes params) asset_data in
       asset_data <-
         (if result_truthy ordered_items then
            first_item <- result_index0 ordered_items ;;
            name <- cat_item_name first_item "Hardware" ;;
            ret (Py.set "display_name"
                   (VStr (name ++ " - " ++ ph_asset_tag params)) asset_data)
          else ret asset_data) ;;
       asset_response <-
         requests_call
           (post_request config auth_manager (api_url config ++ "/table/alm_asset")
              asset_data) ;;
       raise_for_status asset_response ;;;
       let asset_result := json_get_result asset_response (RDict []) in
       requests_call (provision_fulfil_request config auth_manager params) ;;;
       asset_id <- result_get asset_result "sys_id" ;;
       assigned_to <- result_get request_data "requested_for" ;;
       request_number <- result_get request_data "number" ;;
       ret [("success", VBool true);
            ("message", VStr ("Hardware provisioned successfully with asset tag "
                              ++ ph_asset_tag params));
            ("asset_id", Py.of_opt asset_id);
            ("asset_tag", VStr (ph_asset_tag params));
            ("assigned_to", Py.of_opt assigned_to);
            ("request_number", Py.of_opt request_number);
            ("provisioning_status", VStr "Complete")])
    (fun e =>
       logger_error ("Failed to provision hardware: " ++ e) ;;;
       ret [("success", VBool false);
            ("message", VStr ("Failed to provision hardware: " ++ e))]).

End hardware_ordering.

(** * Specification vocabulary *)

(** The canonical-id shape: 32 characters of the hexadecimal alphabet,
    in either case. *)
Definition canonical_id (s : string) : bool :=
  (String.length s =? 32)%nat && Py.all_in "0123456789abcdefABCDEF" s.

(** The same shape restricted to lower-case digits. *)
Definition lowercase_id (s : string) : bool :=
  (String.length s =? 32)%nat && Py.all_in "0123456789abcdef" s.

(** The text of the [RequestException] a reply gives rise to, if any:
    a failed call, or an error status caught by [raise_for_status]. *)
Definition failure_text (reply : Reply) : option string :=
  match reply with
  | Failed e => Some e
  | Answered r => http_error_msg r
  end.

(** The result list of a reply; a reply that fails carries none. *)
Definition rows_of (reply : Reply) : list record :=
  match failure_text reply with
  | Some _ => []
  | None =>
      match reply with
      | Answered r =>
          match json_get_result r (RList []) with
          | RList rows => rows
          | RDict _ => []
          end
      | Failed _ => []
      end
  end.

(** A reply to a table query is well formed when its ["result"], if it
    has one, is a list (or an empty object) and not a record. *)
Definition lists_rows (reply : Reply) : bool :=
  match failure_text reply with
  | Some _ => true
  | None =>
      match reply with
      | Answered r =>
          match json_get_result r (RList []) with
          | RList _ => true
          | RDict [] => true
          | RDict (_ :: _) => false
          end
      | Failed _ => true
      end
  end.

(** Every row of a reply carries a [sys_id]. *)
Definition rows_have_sys_id (reply : Reply) : Prop :=
  forall row, In row (rows_of reply) -> Py.get "sys_id" row <> None.

(** A lookup yields no match when it fails or its result list is empty. *)
Definition no_match (x : Exchange) : Prop :=
  lists_rows (snd x) = true /\ rows_of (snd x) = [].

(** The exchanges [xs] were answered by the backend [b] starting from
    the history [h]. *)
Fixpoint answered_by (b : Backend) (h : list Exchange) (xs : list Exchange) : Prop :=
  match xs with
  | [] => True
  | x :: rest => snd x = b h (fst x) /\ answered_by b (h ++ [x])%list rest
  end.

(** The lookup requests for a user, in the order they are tried. *)
Definition user_query (config : ServerConfig) (auth_manager : AuthManager)
    (identifier : string) (field : string) : Request :=
  mkRequest GET (api_url config ++ "/table/sys_user")
    (Some [("sysparm_query", VStr (field ++ "=" ++ identifier));
           ("sysparm_limit", VStr "1")])
    None (get_headers auth_manager) None (timeout config).

Definition user_candidates (config : ServerConfig) (auth_manager : AuthManager)
    (identifier : string) : list Request :=
  [user_query config auth_manager identifier "user_name";
   user_query config auth_manager identifier "email"].

(** The lookup requests for a catalog item, in the order they are tried. *)
Definition catalog_query (config : ServerConfig) (auth_manager : AuthManager)
    (clause : string) : Request :=
  mkRequest GET (api_url config ++ "/table/sc_cat_item")
    (Some [("sysparm_query", VStr clause); ("sysparm_limit", VStr "1")])
    None (get_headers auth_manager) None (timeout config).

Definition catalog_candidates (config : ServerConfig) (auth_manager : AuthManager)
    (identifier : string) : list Request :=
  [catalog_query config auth_manager ("name=" ++ identifier);
   catalog_query config auth_manager ("sys_id=" ++ identifier);
   catalog_query config auth_manager ("short_descriptionLIKE" ++ identifier)].

(** What the specification asks of a resolution over the candidate
    requests [cands]: the exchanges [xs] follow the candidates in order;
    either the last one is the first with a non-empty result list and
    the answer is the [sys_id] of its first row, or all candidates were
    tried without a match and the answer is not-found. *)
Definition first_non_empty (cands : list Request) (xs : list Exchange)
    (o : option string) : Prop :=
  (exists pre x row others,
      xs = (pre ++ [x])%list /\ Forall no_match pre
      /\ rows_of (snd x) = row :: others /\ o = Py.get "sys_id" row
      /\ map fst xs = firstn (length xs) cands)
  \/ (Forall no_match xs /\ map fst xs = cands /\ o = None).

(** The common shape of the loop bodies of the three resolvers: one
    lookup request, and the message logged when it fails. *)
Definition lookup (rq : Request) (log_msg : string -> string)
    : M (option (option string)) :=
  try_except
    (response <- requests_call rq ;;
     raise_for_status response ;;;
     let result := json_get_result response (RList []) in
     if result_truthy result then
       row <- result_index0 result ;;
       ret (Some (Py.get "sys_id" row))
     else ret None)
    (fun e => logger_error (log_msg e) ;;; ret None).

(** Resolution as the specification words it: try the candidates in
    order, log a failed lookup and go on, stop at the first non-empty
    result list. *)
Fixpoint first_match (b : Backend) (cands : list (Request * (string -> string)))
    (w : World) : option string * World :=
  match cands with
  | [] => (None, w)
  | (rq, log_msg) :: rest =>
      let reply := b (calls w) rq in
      let w1 := record_call w (rq, reply) in
      match failure_text reply with
      | Some e => first_match b rest (record_error w1 (log_msg e))
      | None =>
          match rows_of reply with
          | row :: _ => (Py.get "sys_id" row, w1)
          | [] => first_match b rest w1
          end
      end
  end.

(** The candidates of the user and catalog resolvers together with the
    message each logs when its lookup fails. *)
Definition user_lookups (config : ServerConfig) (auth_manager : AuthManager)
    (identifier : string) : list (Request * (string -> string)) :=
  [(user_query config auth_manager identifier "user_name",
    fun e => "Failed to resolve user ID for " ++ "user_name" ++ "="
             ++ identifier ++ ": " ++ e);
   (user_query config auth_manager identifier "email",
    fun e => "Failed to resolve user ID for " ++ "email" ++ "="
             ++ identifier ++ ": " ++ e)].

Definition catalog_lookups (config : ServerConfig) (auth_manager : AuthManager)
    (identifier : string) : list (Request * (string -> string)) :=
  [(catalog_query config auth_manager ("name=" ++ identifier),
    fun e => "Failed to resolve catalog item ID for " ++ "name" ++ "="
             ++ identifier ++ ": " ++ e);
   (catalog_query config auth_manager ("sys_id=" ++ identifier),
    fun e => "Failed to resolve catalog item ID for " ++ "sys_id" ++ "="
             ++ identifier ++ ": " ++ e);
   (catalog_query config auth_manager ("short_descriptionLIKE" ++ identifier),
    fun e => "Failed to resolve catalog item ID for " ++ "short_description" ++ "="
             ++ identifier ++ ": " ++ e)].

(** The loop of a resolver over its candidates. *)
Definition resolve_loop (cands : list (Request * (string -> string)))
    : M (option string) :=
  for_in cands (fun c => lookup (fst c) (snd c)) (ret None).

(** The messages logged for the failed ones among the exchanges [xs]
    made for the candidates [cands]. *)
Fixpoint failure_log (cands : list (Request * (string -> string)))
    (xs : list Exchange) : list string :=
  match cands, xs with
  | (_, log_msg) :: cs, x :: rest =>
      match failure_text (snd x) with
      | Some e => log_msg e :: failure_log cs rest
      | None => failure_log cs rest
      end
  | _, _ => []
  end.

(** What holds after the loop of a resolver ran from the world [w]:
    the new exchanges [xs] were answered by the backend, every failed
    one was logged, and the outcome is the one the specification asks
    for, unless a reply was not a list of rows, which ends the loop
    with a [KeyError]. *)
Definition loop_post (b : Backend) (cands : list (Request * (string -> string)))
    (w : World) (o : Outcome (option string)) (w' : World) : Prop :=
  exists xs,
    calls w' = (calls w ++ xs)%list
    /\ answered_by b (calls w) xs
    /\ errors_logged w' = (errors_logged w ++ failure_log cands xs)%list
    /\ match o with
       | Ok v => first_non_empty (map fst cands) xs v
       | Raise e =>
           e = KeyError
           /\ exists pre x,
               xs = (pre ++ [x])%list /\ Forall no_match pre
               /\ lists_rows (snd x) = false
               /\ map fst xs = firstn (length xs) (map fst cands)
       end.

(** A resolver [m], run from the world [w] against the backend [b],
    resolves over the candidate requests [cands] in their order. *)
Definition resolves_in_order (b : Backend) (cands : list Request)
    (m : M (option string)) (w : World) : Prop :=
  exists v w' xs,
    m b w = (Ok v, w')
    /\ calls w' = (calls w ++ xs)%list
    /\ answered_by b (calls w) xs
    /\ first_non_empty cands xs v
    /\ ((forall x, In x xs -> rows_have_sys_id (snd x)) ->
        v = None -> Forall no_match xs /\ map fst xs = cands).

(** A resolver [m] absorbs the transport failures of its lookups: it
    never raises a [RequestException]; each failed lookup is logged; a
    failed lookup that is not the last candidate is followed by the
    next lookup; and when no lookup made yields a match the answer is
    not-found, after all candidates were tried. *)
Definition absorbs_failures (b : Backend)
    (cands : list (Request * (string -> string)))
    (m : M (option string)) (w : World) : Prop :=
  exists o w' xs,
    m b w = (o, w')
    /\ (forall e, o <> Raise (RequestException e))
    /\ calls w' = (calls w ++ xs)%list
    /\ answered_by b (calls w) xs
    /\ errors_logged w' = (errors_logged w ++ failure_log cands xs)%list
    /\ (forall pre x post,
          xs = (pre ++ x :: post)%list -> failure_text (snd x) <> None ->
          S (length pre) < length cands -> post <> [])
    /\ (xs <> [] -> Forall no_match xs ->
        o = Ok None /\ map fst xs = map fst cands).

(** The [sysparm_query] and [sysparm_limit] of a request. *)
Definition query_of (rq : Request) : option pyval :=
  match req_params rq with
  | Some d => Py.get "sysparm_query" d
  | None => None
  end.

Definition limit_of (rq : Request) : option pyval :=
  match req_params rq with
  | Some d => Py.get "sysparm_limit" d
  | None => None
  end.

(** The contract the asset tools need of the resolver they import: it
    raises no [RequestException]. *)
Definition never_raises_request_exception
    (resolve : ServerConfig -> AuthManager -> string -> M (option string)) : Prop :=
  forall config auth_manager s b w e,
    fst (resolve config auth_manager s b w) <> Raise (RequestException e).

(** The run of [m] from the world [w] makes the exchanges [xs], raises
    no [RequestException], and turns a failure among [xs] into the
    failure result with message [prefix ++ e]. *)
Definition turns_failures_into_results {R} (m : M R)
    (is_failure : R -> string -> Prop) (prefix : string)
    (b : Backend) (w : World) : Prop :=
  exists o w' xs,
    m b w = (o, w')
    /\ calls w' = (calls w ++ xs)%list
    /\ (forall e, o <> Raise (RequestException e))
    /\ (forall x e, In x xs -> failure_text (snd x) = Some e ->
          exists r, o = Ok r /\ is_failure r (prefix ++ e)).

(** An operation [m] that starts with the part [prepare], in which
    identifiers are resolved, catches the transport failures of the
    HTTP calls it makes itself after that part. *)
Definition catches_transport_failures {X R} (prepare : M X) (m : M R)
    (is_failure : R -> string -> Prop) (prefix : string)
    (b : Backend) (w : World) : Prop :=
  exists prepared w1 o w' xs,
    prepare b w = (prepared, w1)
    /\ m b w = (o, w')
    /\ calls w' = (calls w1 ++ xs)%list
    /\ (forall e, o <> Raise (RequestException e))
    /\ (forall x e, In x xs -> failure_text (snd x) = Some e ->
          exists r, o = Ok r /\ is_failure r (prefix ++ e)).

(** Failure results of the several answer types. *)
Definition dict_failure (r : pydict) (msg : string) : Prop :=
  Py.get "success" r = Some (VBool false) /\ Py.get "message" r = Some (VStr msg).



Definition asset_failure (r : asset_tools.AssetResponse) (msg : string) : Prop :=
  asset_tools.success r = false /\ asset_tools.message r = msg.


(** A computation that raises no [RequestException]. *)
Definition no_request_exception {A} (m : M A) : Prop :=
  forall b w e, fst (m b w) <> Raise (RequestException e).

(** A computation that only inspects values: it makes no call, logs
    nothing and raises no [RequestException]. *)
Definition inspects_only {R} (m : M R) : Prop :=
  exists o, (forall e, o <> Raise (RequestException e))
            /\ forall b w, m b w = (o, w).

(** An exchange that did not fail. *)
Definition quiet (x : Exchange) : Prop := failure_text (snd x) = None.

(** The body of a [try] block raises a [RequestException] exactly when
    its last exchange fails, with the text of that failure. *)
Definition raises_on_failure {R} (m : M R) (b : Backend) (w : World) : Prop :=
  exists o w' xs,
    m b w = (o, w')
    /\ calls w' = (calls w ++ xs)%list
    /\ match o with
       | Raise (RequestException e) =>
           exists pre x,
             xs = (pre ++ [x])%list /\ Forall quiet pre
             /\ failure_text (snd x) = Some e
       | _ => Forall quiet xs
       end.

(** The resolver run [m] ends without an identifier: it returns [None]
    (or an empty string), leaving the world [w1]. *)
Definition unresolved (m : M (option string)) (b : Backend) (w w1 : World) : Prop :=
  exists o, m b w = (Ok o, w1) /\ Py.truthy o = false.

(** The [params=] of the list operations once [query_parts] is built. *)
Definition list_query_params (limit offset : Z) (query_parts : list string) : pydict :=
  let query_params :=
    [("sysparm_limit", VStr (Py.str_int limit));
     ("sysparm_offset", VStr (Py.str_int offset));
     ("sysparm_display_value", VStr "true")] in
  if Py.truthy_list query_parts
  then Py.set "sysparm_query" (VStr (Py.join "^" query_parts)) query_params
  else query_params.

(** The run of [m] from [w1] makes exactly one call, the request [rq]. *)
Definition issues {R} (m : M R) (rq : Request) (b : Backend) (w1 : World) : Prop :=
  exists o w', m b w1 = (o, w')
               /\ calls w' = (calls w1 ++ [(rq, b (calls w1) rq)])%list.

(** Once its part [prepare] has ended with the value [x] in the world
    [w1], the operation [m] makes exactly one more call, the request
    [rq_of x]. *)
Definition issues_after {X R} (prepare : M X) (m : M R) (rq_of : X -> Request)
    (b : Backend) (w : World) : Prop :=
  forall x w1,
    prepare b w = (Ok x, w1) ->
    exists o w',
      m b w = (o, w')
      /\ calls w' = (calls w1 ++ [(rq_of x, b (calls w1) (rq_of x))])%list.

(** The request of a list operation on [table]. *)
Definition list_request (config : ServerConfig) (auth_manager : AuthManager)
    (table : string) (limit offset : Z) (query_parts : list string) : Request :=
  get_request config auth_manager (api_url config ++ table)
    (Some (list_query_params limit offset query_parts)).

(** The clause a filter contributes: present when its value is true. *)
Definition clause (value : option string) (text : string) : list string :=
  if Py.truthy value then [text] else [].

(** The clauses of [list_assets] that need no resolution, as the code
    appends them: location, display name, and the group for the search
    term in the code's own text, which begins with the separator that
    asset_tools.py writes in front of it. *)
Definition list_assets_filters (params : asset_tools.ListAssetsParams) : list string :=
  (clause (asset_tools.la_location params)
     ("location=" ++ Py.the (asset_tools.la_location params))
   ++ clause (asset_tools.la_name params)
        ("display_nameLIKE" ++ Py.the (asset_tools.la_name params))
   ++ clause (asset_tools.la_query params)
        ("^asset_tagLIKE" ++ Py.the (asset_tools.la_query params)
         ++ "^ORdisplay_nameLIKE" ++ Py.the (asset_tools.la_query params)
         ++ "^ORserial_numberLIKE" ++ Py.the (asset_tools.la_query params)
         ++ "^ORmodelLIKE" ++ Py.the (asset_tools.la_query params)
         ++ "^ORshort_descriptionLIKE" ++ Py.the (asset_tools.la_query params)))%list.

(** The entries of [assigned_to] that [list_assets] resolves. *)
Definition users_of (params : asset_tools.ListAssetsParams) : list string :=
  match asset_tools.la_assigned_to params with
  | Some users => users
  | None => []
  end.

(** The identifiers kept from the answers of the resolver: an answer
    that is [None] (or empty) contributes nothing. *)
Definition kept (outs : list (option string)) : list string :=
  flat_map (fun o => if Py.truthy o then [Py.the o] else []) outs.

(** The OR-group of the specification for one search [term] over the
    [fields]: the single clause [ALIKEterm^ORBLIKEterm^OR...], fields
    in the order given, no separator before or after. *)
Definition spec_or_group (fields : list string) (term : string) : string :=
  String.concat "^OR" (map (fun field => field ++ "LIKE" ++ term) fields).

(** The fields [list_assets] searches. *)
Definition asset_search_fields : list string :=
  ["asset_tag"; "display_name"; "serial_number"; "model"; "short_description"].

(** The top-level clauses of a [list_assets] call as the specification
    has them, before the search term: the membership clause over the
    resolved [ids] when users are given, then location and display
    name. *)
Definition spec_list_assets_head (params : asset_tools.ListAssetsParams)
    (ids : list string) : list string :=
  (match users_of params with
   | [] => []
   | _ :: _ => [("assigned_toIN" ++ String.concat "," ids)%string]
   end
   ++ clause (asset_tools.la_location params)
        ("location=" ++ Py.the (asset_tools.la_location params))
   ++ clause (asset_tools.la_name params)
        ("display_nameLIKE" ++ Py.the (asset_tools.la_name params)))%list.

(** All of them: the search term adds its OR-group as one clause. *)
Definition spec_list_assets_clauses (params : asset_tools.ListAssetsParams)
    (ids : list string) : list string :=
  (spec_list_assets_head params ids
   ++ clause (asset_tools.la_query params)
        (spec_or_group asset_search_fields (Py.the (asset_tools.la_query params))))%list.

(** The query string of the specification: the clauses in order,
    joined by the one character [^]; no query without a clause. *)
Definition spec_query (clauses : list string) : option pyval :=
  match clauses with
  | [] => None
  | _ :: _ => Some (VStr (String.concat "^" clauses))
  end.

(** The resolver, called for the [users] one after the other from the
    world [w], answers [outs] and leaves the world [w1]. *)
Fixpoint resolved_in_turn
    (resolve : ServerConfig -> AuthManager -> string -> M (option string))
    (config : ServerConfig) (auth_manager : AuthManager) (b : Backend)
    (w : World) (users : list string) (outs : list (option string)) (w1 : World)
    : Prop :=
  match users, outs with
  | [], [] => w1 = w
  | user :: users', o :: outs' =>
      exists w', resolve config auth_manager user b w = (Ok o, w')
                 /\ resolved_in_turn resolve config auth_manager b w' users' outs' w1
  | _, _ => False
  end.

(** The list operation [m] goes on with the clause [input_clause]
    although the identifier in it did not resolve: from the world [w1]
    in which its query is ready it issues the request [rq_of parts]
    for clauses [parts] among which [input_clause] is, the query
    string of that request is their join, and an answer without error
    gives a result with [success] true. *)
Definition proceeds_with_clause (m : M pydict) (rq_of : list string -> Request)
    (input_clause : string) (b : Backend) (w w1 : World) : Prop :=
  exists o w' parts,
    m b w = (o, w')
    /\ In input_clause parts
    /\ calls w' = (calls w1 ++ [(rq_of parts, b (calls w1) (rq_of parts))])%list
    /\ query_of (rq_of parts) = Some (VStr (String.concat "^" parts))
    /\ (failure_text (b (calls w1) (rq_of parts)) = None ->
        exists r, o = Ok r /\ Py.get "success" r = Some (VBool true)).

(** ** Fixtures for the concrete runs *)

Definition cfg0 : ServerConfig :=
  mkConfig "https://dev.service-now.com/api/now" 30.

Definition auth0 : AuthManager :=
  mkAuth [("Accept", "application/json")] "admin" "secret".

Definition w0 : World := mkWorld [] [].

(** The text of a decoded body with the result [v], for fields free of
    quotes and backslashes. *)
Definition row_text (row : record) : string :=
  "{" ++ Py.join ", " (map (fun field => "'" ++ fst field ++ "': '" ++ snd field ++ "'")
                         row) ++ "}".

Definition result_text (v : jresult) : string :=
  "{'result': "
  ++ match v with
     | RList rows => "[" ++ Py.join ", " (map row_text rows) ++ "]"
     | RDict row => row_text row
     end
  ++ "}".

Definition ok_rows (rows : list record) : Reply :=
  Answered (mkResponse 200 "OK" "" (Some (RList rows)) (result_text (RList rows))).

Definition ok_row (row : record) : Reply :=
  Answered (mkResponse 201 "Created" "" (Some (RDict row)) (result_text (RDict row))).

(** A backend that finds nothing. *)
Definition backend_empty : Backend := fun _ _ => ok_rows [].

(** A backend that knows one user, by e-mail address only. *)
Definition backend_email : Backend :=
  fun _ rq =>
    match req_method rq, query_of rq with
    | GET, Some (VStr q) =>
        if String.eqb q "email=jdoe@example.com"
        then ok_rows [[("sys_id", "6816f79cc0a8016401c5a33be04be441");
                       ("user_name", "john.doe")]]
        else ok_rows []
    | GET, _ => ok_rows []
    | _, _ => ok_row [("sys_id", "46d44a5dc0a8010e0000b4a1ea8f7e5f");
                      ("number", "PRB0040001")]
    end.

(** A backend whose every call fails. *)
Definition backend_down : Backend := fun _ _ => Failed "Connection refused".

Definition order0 : hardware_ordering.SubmitHardwareOrderParams :=
  hardware_ordering.mkSubmitHardwareOrderParams
    "e0d08b13c3330100c8b837659bba8fb4" "6816f79cc0a8016401c5a33be04be441" 1
    None (Some "3") None None None None.

Definition assets_search : asset_tools.ListAssetsParams :=
  asset_tools.mkListAssetsParams 100 0 None None None (Some "laptop").

Definition assets_name_search : asset_tools.ListAssetsParams :=
  asset_tools.mkListAssetsParams 100 0 None None (Some "macbook") (Some "laptop").

Definition assets_nyc_laptop : asset_tools.ListAssetsParams :=
  asset_tools.mkListAssetsParams 100 0 None (Some "NYC") (Some "laptop") None.

Definition assets_of_strangers : asset_tools.ListAssetsParams :=
  asset_tools.mkListAssetsParams 100 0 (Some ["nobody"; "ghost"]) None None None.

Definition hardware_search : asset_tools.ListHardwareAssetsParams :=
  asset_tools.mkListHardwareAssetsParams 10 0 None None (Some "laptop").

Definition kb_search : knowledge_base.ListKnowledgeBasesParams :=
  knowledge_base.mkListKnowledgeBasesParams 10 0 None (Some "laptop").

Definition requests_of_jdoe : request_tools.ListItemRequestsParams :=
  request_tools.mkListItemRequestsParams 10 0 (Some "jdoe") None None None.

Definition problem_for_jdoe : record_tools.CreateProblemParams :=
  record_tools.mkCreateProblemParams "Printer on fire" (Some "3") (Some "3")
    (Some "jdoe") None.


Definition upper_id : string := "0123456789ABCDEF0123456789ABCDEF".

Definition lower_id : string := "6816f79cc0a8016401c5a33be04be441".

(** ** Further fixtures *)

(** A backend that answers a lookup with an object instead of a list. *)
Definition backend_object : Backend :=
  fun _ _ => Answered (mkResponse 200 "OK" ""
                         (Some (RDict [("error", "Unexpected")]))
                         "{'result': {'error': 'Unexpected'}}").

(** A backend whose created records come back without their [sys_id]. *)
Definition backend_no_sys_id : Backend :=
  fun _ _ => ok_row [("number", "PRB0040002")].

Definition problem_plain : record_tools.CreateProblemParams :=
  record_tools.mkCreateProblemParams "Printer on fire" (Some "3") (Some "3")
    None None.

Definition problem_with_fields : record_tools.CreateProblemParams :=
  record_tools.mkCreateProblemParams "Printer on fire" (Some "3") (Some "3")
    None (Some [("urgency", "1"); ("assigned_to", "jdoe")]).

Definition request_for_jdoe : request_tools.CreateRequestParams :=
  request_tools.mkCreateRequestParams "jdoe" "1" "not requested".

(** The first of the [candidates] whose value is present, as the filter
    clause [prefix ++ value]. *)
Fixpoint first_present (candidates : list (option string * string)) : option string :=
  match candidates with
  | [] => None
  | (value, prefix) :: rest =>
      if Py.truthy value then Some (prefix ++ Py.the value) else first_present rest
  end.

(** A dictionary value that is a non-empty string. *)
Definition nonempty_value (v : pyval) : Prop :=
  exists s, v = VStr s /\ s <> "".

Definition asset_by_tag : asset_tools.GetAssetParams :=
  asset_tools.mkGetAssetParams None (Some "P1000479") (Some "BQP-854-D33246-GH").

Definition asset_unspecified : asset_tools.GetAssetParams :=
  asset_tools.mkGetAssetParams None (Some "") None.

(** A backend that holds one asset. *)
Definition backend_one_asset : Backend :=
  fun _ _ => ok_rows [[("sys_id", "00a9a80d3790200044e0bfc8bcbe5d1c");
                       ("asset_tag", "P1000479")]].

Definition transfer_to_jdoe : asset_tools.TransferAssetParams :=
  asset_tools.mkTransferAssetParams "P1000479" "jdoe@example.com"
    (Some "New hire") None.

Definition delete_p1000479 : asset_tools.DeleteAssetParams :=
  asset_tools.mkDeleteAssetParams lower_id (Some "Retired").

Definition update_nothing : asset_tools.UpdateAssetParams :=
  asset_tools.mkUpdateAssetParams lower_id (Some "") None None None None None None
    None None None None None None None None.

(** The comment [transfer_asset] writes on the asset. *)
Definition transfer_note (params : asset_tools.TransferAssetParams) : string :=
  "Asset transferred to " ++ asset_tools.ta_new_assigned_to params
  ++ (if Py.truthy (asset_tools.ta_transfer_reason params)
      then " - Reason: " ++ Py.the (asset_tools.ta_transfer_reason params) else "")
  ++ (if Py.truthy (asset_tools.ta_comments params)
      then " - " ++ Py.the (asset_tools.ta_comments params) else "").

Definition transfer_known : asset_tools.TransferAssetParams :=
  asset_tools.mkTransferAssetParams "00a9a80d3790200044e0bfc8bcbe5d1c"
    "jdoe@example.com" (Some "New hire") (Some "").

Definition update_location : asset_tools.UpdateAssetParams :=
  asset_tools.mkUpdateAssetParams "00a9a80d3790200044e0bfc8bcbe5d1c"
    (Some "") None None None (Some "NYC") None None
    None None None None None (Some "1") None (Some "").

Definition kb_response_failure (r : knowledge_base.KnowledgeBaseResponse)
    (msg : string) : Prop :=
  knowledge_base.kbr_success r = false /\ knowledge_base.kbr_message r = msg.

Definition category_failure (r : knowledge_base.CategoryResponse)
    (msg : string) : Prop :=
  knowledge_base.cat_success r = false /\ knowledge_base.cat_message r = msg.

Definition article_failure (r : knowledge_base.ArticleResponse)
    (msg : string) : Prop :=
  knowledge_base.art_success r = false /\ knowledge_base.art_message r = msg.

Definition comment_failure (r : knowledge_base.CommentResponse)
    (msg : string) : Prop :=
  knowledge_base.com_success r = false /\ knowledge_base.com_message r = msg.

(** The run of [m] from [w] makes exactly the exchanges of the requests
    [rqs], in that order. *)
Fixpoint exchanges (b : Backend) (history : list Exchange) (rqs : list Request)
    : list Exchange :=
  match rqs with
  | [] => []
  | rq :: rest =>
      (rq, b history rq) :: exchanges b (history ++ [(rq, b history rq)])%list rest
  end.

Definition issues_all {R} (m : M R) (rqs : list Request) (b : Backend) (w : World)
    : Prop :=
  exists o w', m b w = (o, w')
               /\ calls w' = (calls w ++ exchanges b (calls w) rqs)%list.

Definition laptop_request : knowledge_base.CreateServiceRequestParams :=
  knowledge_base.mkCreateServiceRequestParams "Laptop" (Some "jdoe") 2 None None
    (Some [("ram", VStr "32GB")]).

(** A service catalog with one item; every POST creates a record. *)
Definition backend_catalog : Backend :=
  fun _ rq =>
    match req_method rq with
    | GET => ok_rows [[("sys_id", "e0d08b13c3330100c8b837659bba8fb4");
                       ("name", "Standard Laptop")]]
    | _ => ok_row [("sys_id", "46d44a5dc0a8010e0000b4a1ea8f7e5f");
                   ("number", "REQ0010001")]
    end.

Definition article_titled : knowledge_base.CreateArticleParams :=
  knowledge_base.mkCreateArticleParams "How to reset a password" "Open the portal."
    "Password reset" "kb1" "cat1" None (Some "text").

Definition article_retitled : knowledge_base.UpdateArticleParams :=
  knowledge_base.mkUpdateArticleParams "art1" (Some "New title") None
    (Some "Old summary") None None.

(** An exchange in which the service was reached: the call came back
    with a response, whatever its status. *)
Definition reached (x : Exchange) : Prop := exists r, snd x = Answered r.

(** The body of a [try] block in which some responses are used without
    [raise_for_status]: when it raises a [RequestException], that is at
    its last exchange; every exchange before, and every exchange of a
    run that raises none, reached the service. *)
Definition raises_when_unreachable {R} (m : M R) (b : Backend) (w : World) : Prop :=
  exists o w' xs,
    m b w = (o, w')
    /\ calls w' = (calls w ++ xs)%list
    /\ match o with
       | Raise (RequestException e) =>
           exists pre x,
             xs = (pre ++ [x])%list /\ Forall reached pre
             /\ failure_text (snd x) = Some e
       | _ => Forall reached xs
       end.

(** The run of [m] from [w] raises no [RequestException], and a call
    of it that does not reach the service gives the failure result with
    message [prefix ++ e]. *)
Definition turns_unreachable_into_results {R} (m : M R)
    (is_failure : R -> string -> Prop) (prefix : string)
    (b : Backend) (w : World) : Prop :=
  exists o w' xs,
    m b w = (o, w')
    /\ calls w' = (calls w ++ xs)%list
    /\ (forall e, o <> Raise (RequestException e))
    /\ (forall x e, In x xs -> snd x = Failed e ->
          exists r, o = Ok r /\ is_failure r (prefix ++ e)).

Definition tracked_failure (r : hardware_ordering.TrackedOrders) (msg : string)
    : Prop :=
  hardware_ordering.to_success r = false
  /\ hardware_ordering.to_message r = msg
  /\ hardware_ordering.to_orders r = [].

(** A backend that is always reached. *)
Definition always_answers (b : Backend) : Prop :=
  forall history rq, exists r, b history rq = Answered r.

Definition cancel_req42 : hardware_ordering.CancelHardwareOrderParams :=
  hardware_ordering.mkCancelHardwareOrderParams "46d44a5dc0a8010e0000b4a1ea8f7e5f"
    "No longer needed" true.

(** A backend on which the request can be cancelled and its two items
    listed, but every later call is refused with status 500. *)
Definition backend_items_locked : Backend :=
  fun history _ =>
    match history with
    | [] => Answered (mkResponse 200 "OK" "" (Some (RDict [("number", "REQ0010001")]))
                       "{'result': {'number': 'REQ0010001'}}")
    | [_] => ok_rows [[("sys_id", "aeed229047801200e0ef563dbb9a71c2")];
                      [("sys_id", "bfed229047801200e0ef563dbb9a71c3")]]
    | _ => Answered (mkResponse 500 "Internal Server Error" "" None
                      "{'error': {'message': 'Internal Server Error'}}")
    end.

Definition provision_req42 : hardware_ordering.ProvisionHardwareParams :=
  hardware_ordering.mkProvisionHardwareParams "46d44a5dc0a8010e0000b4a1ea8f7e5f"
    "P1000479" None (Some "NYC") None.

(** A backend whose every answer is the empty object. *)
Definition backend_blank : Backend := fun _ _ => ok_row [].

Definition track_all : hardware_ordering.TrackHardwareOrderParams :=
  hardware_ordering.mkTrackHardwareOrderParams None None None (Some "last_year") 10.

(** A response to the listing of an order's items that the tracking
    can use: with status 200 it holds a list of items, none of which
    has a field named [cat_item]. *)
Definition items_listed (r : Response) : Prop :=
  status_code r = 200%Z ->
  exists items,
    json_get_result r (RList []) = RList items
    /\ Forall (fun item => Py.get "cat_item" item = None) items.

(** A backend with two orders; the listing of an order's items is
    refused. *)
Definition backend_two_orders : Backend :=
  fun history _ =>
    match history with
    | [] => ok_rows [[("sys_id", "46d44a5dc0a8010e0000b4a1ea8f7e5f");
                      ("number", "REQ0010001")];
                     [("sys_id", "57e55b6ed1b9121f1111c5b2fb908f60");
                      ("number", "REQ0010002")]]
    | _ => Answered (mkResponse 403 "Forbidden" "" None
                      "{'error': {'message': 'Forbidden'}}")
    end.

Definition browse_unavailable : hardware_ordering.BrowseHardwareCatalogParams :=
  hardware_ordering.mkBrowseHardwareCatalogParams (Some "Laptops") None
    (Some "0-1000") (Some false) 20 0.

Definition item_for_request : request_tools.CreateItemRequestParams :=
  request_tools.mkCreateItemRequestParams None "" "" "1"
    (Some "46d44a5dc0a8010e0000b4a1ea8f7e5f") "1" "Laptop".

(** * Properties *)

(** ** The monad *)

Lemma bind_ok {A B} (m : M A) (k : A -> M B) b w a w' :
  m b w = (Ok a, w') -> bind m k b w = k a b w'.
Proof. intros H. unfold bind. rewrite H. reflexivity. Qed.

Lemma bind_raise {A B} (m : M A) (k : A -> M B) b w e w' :
  m b w = (Raise e, w') -> bind m k b w = (Raise e, w').
Proof. intros H. unfold bind. rewrite H. reflexivity. Qed.

(** ** One lookup *)

Lemma lookup_run rq log_msg b w :
  lookup rq log_msg b w =
    let reply := b (calls w) rq in
    let w1 := record_call w (rq, reply) in
    match failure_text reply with
    | Some e => (Ok None, record_error w1 (log_msg e))
    | None =>
        match reply with
        | Answered r =>
            match json_get_result r (RList []) with
            | RList [] => (Ok None, w1)
            | RList (row :: _) => (Ok (Some (Py.get "sys_id" row)), w1)
            | RDict [] => (Ok None, w1)
            | RDict (_ :: _) => (Raise KeyError, w1)
            end
        | Failed _ => (Ok None, w1)
        end
    end.
Proof.
  unfold lookup, try_except, bind, requests_call, raise_for_status, failure_text.
  cbv zeta.
  destruct (b (calls w) rq) as [e | r]; [reflexivity |].
  destruct (http_error_msg r) as [msg |]; [reflexivity |].
  cbn.
  destruct (json_get_result r (RList [])) as [[| row rows] | [| kv row]]; reflexivity.
Qed.

(** ** The resolvers as loops over their candidates *)

Lemma request_tools_resolve_user_id_eq config auth_manager s :
  request_tools._resolve_user_id config auth_manager s =
    if lowercase_id s then ret (Some s)
    else resolve_loop (user_lookups config auth_manager s).
Proof. reflexivity. Qed.

Lemma request_tools_resolve_catalog_item_id_eq config auth_manager s :
  request_tools._resolve_catalog_item_id config auth_manager s =
    if lowercase_id s then ret (Some s)
    else resolve_loop (catalog_lookups config auth_manager s).
Proof. reflexivity. Qed.

Lemma record_tools_resolve_user_id_eq config auth_manager s :
  record_tools._resolve_user_id config auth_manager s =
    if canonical_id s then ret (Some s)
    else resolve_loop (user_lookups config auth_manager s).
Proof. reflexivity. Qed.

Lemma user_candidates_eq config auth_manager s :
  map fst (user_lookups config auth_manager s) = user_candidates config auth_manager s.
Proof. reflexivity. Qed.

Lemma catalog_candidates_eq config auth_manager s :
  map fst (catalog_lookups config auth_manager s)
  = catalog_candidates config auth_manager s.
Proof. reflexivity. Qed.

(** ** The loop of a resolver *)

Lemma first_non_empty_cons rq cs x xs o :
  fst x = rq -> no_match x ->
  first_non_empty cs xs o -> first_non_empty (rq :: cs) (x :: xs) o.
Proof.
  intros Hrq Hx [(pre & x0 & row & others & Hxs & Hpre & Hrows & Ho & Hreq) | (Hall & Hreq & Ho)].
  - left. exists (x :: pre), x0, row, others.
    repeat split; auto.
    + rewrite Hxs. reflexivity.
    + cbn [length map firstn]. rewrite Hrq, Hreq. reflexivity.
  - right. repeat split; auto. cbn [map]. rewrite Hrq, Hreq. reflexivity.
Qed.

Lemma failure_no_match rq reply e :
  failure_text reply = Some e -> no_match (rq, reply).
Proof.
  intros H. unfold no_match, lists_rows, rows_of. cbn [snd]. rewrite H. auto.
Qed.

Lemma failure_log_nil cands : failure_log cands [] = [].
Proof. destruct cands as [| [rq msg] rest]; reflexivity. Qed.

Lemma resolve_loop_post b cands :
  forall w o w', resolve_loop cands b w = (o, w') -> loop_post b cands w o w'.
Proof.
  induction cands as [| [rq msg] rest IH]; intros w o w' Hrun.
  - injection Hrun as <- <-. exists []. cbn. rewrite !app_nil_r.
    repeat split; auto. right. auto.
  - unfold resolve_loop in Hrun. cbn [for_in fst snd] in Hrun.
    unfold bind in Hrun at 1. rewrite lookup_run in Hrun. cbv zeta in Hrun.
    fold (resolve_loop rest) in Hrun.
    set (reply := b (calls w) rq) in *.
    set (x := (rq, reply)) in *.
    assert (Hskip : forall w1 logged,
               calls w1 = (calls w ++ [x])%list ->
               errors_logged w1 = (errors_logged w ++ logged)%list ->
               no_match x ->
               (forall cs, failure_log ((rq, msg) :: rest) (x :: cs)
                           = (logged ++ failure_log rest cs)%list) ->
               resolve_loop rest b w1 = (o, w') ->
               loop_post b ((rq, msg) :: rest) w o w').
    { intros w1 logged Hc He Hno Hlog Hrest.
      destruct (IH _ _ _ Hrest) as (xs & Hcalls & Hans & Herr & Hpost).
      exists (x :: xs). rewrite Hc in Hcalls, Hans. rewrite He in Herr.
      rewrite <- app_assoc in Hcalls. rewrite <- app_assoc in Herr.
      repeat split; auto.
      - rewrite Herr, Hlog. reflexivity.
      - destruct o as [v | e].
        + apply first_non_empty_cons; auto.
        + destruct Hpost as (-> & pre & x0 & Hxs & Hpre & Hbad & Hreq).
          split; [reflexivity |]. exists (x :: pre), x0.
          repeat split; auto.
          * rewrite Hxs. reflexivity.
          * cbn [length map firstn fst]. rewrite Hreq. reflexivity. }
    destruct (failure_text reply) as [e |] eqn:Hfail.
    + apply (Hskip (record_error (record_call w x) (msg e)) [msg e]).
      * reflexivity.
      * reflexivity.
      * apply failure_no_match with e. exact Hfail.
      * intros cs. cbn [failure_log snd x]. fold reply. rewrite Hfail. reflexivity.
      * exact Hrun.
    + assert (Hempty : forall r, reply = Answered r ->
                 rows_of reply = [] -> lists_rows reply = true ->
                 resolve_loop rest b (record_call w x) = (o, w') ->
                 loop_post b ((rq, msg) :: rest) w o w').
      { intros r Hr Hrows Hlist Hrest.
        apply (Hskip (record_call w x) []).
        - reflexivity.
        - cbn. rewrite app_nil_r. reflexivity.
        - split; assumption.
        - intros cs. cbn [failure_log snd x]. fold reply. rewrite Hfail. reflexivity.
        - exact Hrest. }
      assert (Hstop : calls (record_call w x) = (calls w ++ [x])%list
                      /\ answered_by b (calls w) [x]
                      /\ errors_logged (record_call w x)
                         = (errors_logged w ++ failure_log ((rq, msg) :: rest) [x])%list).
      { repeat split; auto.
        cbn [failure_log snd x]. fold reply.
        rewrite Hfail, failure_log_nil, app_nil_r. reflexivity. }
      destruct Hstop as (Hc & Ha & He).
      destruct reply as [e | r] eqn:Hreply; [discriminate |].
      destruct (json_get_result r (RList [])) as [[| row rows] | [| kv row]] eqn:Hres.
      * apply (Hempty r); auto.
        -- unfold rows_of. rewrite Hfail, Hres. reflexivity.
        -- unfold lists_rows. rewrite Hfail, Hres. reflexivity.
      * injection Hrun as <- <-. exists [x]. repeat split; auto.
        left. exists [], x, row, rows. repeat split; auto.
        unfold rows_of. cbn [snd x]. rewrite Hfail, Hres. reflexivity.
      * apply (Hempty r); auto.
        -- unfold rows_of. rewrite Hfail, Hres. reflexivity.
        -- unfold lists_rows. rewrite Hfail, Hres. reflexivity.
      * injection Hrun as <- <-. exists [x]. repeat split; auto.
        exists [], x. repeat split; auto.
        unfold lists_rows. cbn [snd x]. rewrite Hfail, Hres. reflexivity.
Qed.

Lemma answered_by_app b h xs ys :
  answered_by b h (xs ++ ys) <->
  answered_by b h xs /\ answered_by b (h ++ xs) ys.
Proof.
  revert h. induction xs as [| x xs IH]; intros h; cbn [answered_by app].
  - rewrite app_nil_r. tauto.
  - rewrite IH, <- app_assoc. cbn [app]. tauto.
Qed.

Lemma answered_by_last b h pre x :
  answered_by b h (pre ++ [x]) -> snd x = b (h ++ pre)%list (fst x).
Proof.
  intros H. apply answered_by_app in H. destruct H as [_ H].
  cbn in H. tauto.
Qed.

Lemma firstn_request_in (cands : list Request) (xs : list Exchange) x :
  map fst xs = firstn (length xs) cands -> In x xs -> In (fst x) cands.
Proof.
  intros Hreq Hin.
  assert (H : In (fst x) (map fst xs)) by (apply in_map; exact Hin).
  rewrite Hreq in H.
  rewrite <- (firstn_skipn (length xs) cands). apply in_or_app. left. exact H.
Qed.

(** A loop that ends without an exception ends as the specification
    asks, and a not-found answer means that every candidate was tried
    when the rows carry their [sys_id]. *)
Lemma resolve_loop_in_order b cands w :
  (forall h rq, In rq (map fst cands) -> lists_rows (b h rq) = true) ->
  resolves_in_order b (map fst cands) (resolve_loop cands) w.
Proof.
  intros Hlists.
  destruct (resolve_loop cands b w) as [o w'] eqn:Hrun.
  destruct (resolve_loop_post _ _ _ _ _ Hrun) as (xs & Hcalls & Hans & _ & Hpost).
  destruct o as [v | e].
  - exists v, w', xs.
    split; [exact Hrun |]. split; [exact Hcalls |]. split; [exact Hans |].
    split; [exact Hpost |].
    intros Hids Hnone.
    destruct Hpost as [(pre & x & row & others & Hxs & Hpre & Hrows & Hv & Hreq) | (Hall & Hreq & Hv)];
      [| split; assumption].
    exfalso. subst v.
    apply (Hids x) with row; [rewrite Hxs; apply in_or_app; right; left; reflexivity | | exact Hnone].
    rewrite Hrows. left. reflexivity.
  - exfalso. destruct Hpost as (_ & pre & x & Hxs & _ & Hbad & Hreq).
    assert (Hin : In (fst x) (map fst cands)).
    { apply (firstn_request_in _ xs); [exact Hreq |].
      rewrite Hxs. apply in_or_app. right. left. reflexivity. }
    rewrite Hxs in Hans. apply answered_by_last in Hans.
    rewrite Hans, Hlists in Hbad by exact Hin. discriminate.
Qed.

Lemma resolve_loop_absorbs b cands w :
  absorbs_failures b cands (resolve_loop cands) w.
Proof.
  destruct (resolve_loop cands b w) as [o w'] eqn:Hrun.
  destruct (resolve_loop_post _ _ _ _ _ Hrun) as (xs & Hcalls & Hans & Hlog & Hpost).
  exists o, w', xs.
  split; [exact Hrun |].
  split.
  { intros e ->. destruct Hpost as [Hkey _]. discriminate. }
  split; [exact Hcalls |]. split; [exact Hans |]. split; [exact Hlog |].
  split.
  - intros pre x post Hxs Hfail Hlen ->.
    assert (Hno : no_match x).
    { destruct (failure_text (snd x)) as [e |] eqn:He; [| congruence].
      destruct x as [rq reply]. apply failure_no_match with e. exact He. }
    destruct o as [v | e].
    + destruct Hpost as [(pre' & x' & row & others & Hxs' & _ & Hrows & _) | (_ & Hreq & _)].
      * rewrite Hxs in Hxs'. apply app_inj_tail in Hxs'. destruct Hxs' as [_ <-].
        destruct Hno as [_ Hno]. congruence.
      * apply (f_equal (@length _)) in Hreq.
        rewrite Hxs in Hreq. rewrite !length_map, length_app in Hreq.
        cbn in Hreq. lia.
    + destruct Hpost as (_ & pre' & x' & Hxs' & _ & Hbad & _).
      rewrite Hxs in Hxs'. apply app_inj_tail in Hxs'. destruct Hxs' as [_ <-].
      destruct Hno as [Hno _]. congruence.
  - intros _ Hall. destruct o as [v | e].
    + destruct Hpost as [(pre' & x' & row & others & Hxs' & _ & Hrows & _) | (_ & Hreq & ->)].
      * exfalso. rewrite Forall_forall in Hall.
        destruct (Hall x') as [_ Hno];
          [rewrite Hxs'; apply in_or_app; right; left; reflexivity | congruence].
      * split; [reflexivity | exact Hreq].
    + exfalso. destruct Hpost as (_ & pre' & x' & Hxs' & _ & Hbad & _).
      rewrite Forall_forall in Hall.
      destruct (Hall x') as [Hno _];
        [rewrite Hxs'; apply in_or_app; right; left; reflexivity | congruence].
Qed.

(** The fast path absorbs trivially: it makes no call. *)
Lemma ret_absorbs b cands (s : string) w :
  absorbs_failures b cands (ret (Some s)) w.
Proof.
  exists (Ok (Some s)), w, []. cbn. rewrite failure_log_nil, !app_nil_r.
  repeat split; auto; try discriminate.
  - intros pre x post H. destruct pre; discriminate.
  - congruence.
  - congruence.
Qed.

(** ** The identifier shapes *)

Lemma char_in_hex_any_case c :
  Py.char_in c "0123456789abcdef" = true ->
  Py.char_in c "0123456789abcdefABCDEF" = true.
Proof.
  cbn [Py.char_in].
  repeat (destruct (Ascii.eqb c _); [reflexivity | cbn [orb]]).
  discriminate.
Qed.

Lemma all_in_hex_any_case s :
  Py.all_in "0123456789abcdef" s = true ->
  Py.all_in "0123456789abcdefABCDEF" s = true.
Proof.
  induction s as [| c s IH]; [reflexivity |].
  cbn [Py.all_in]. rewrite !andb_true_iff. intros [Hc Hs].
  split; [apply char_in_hex_any_case; exact Hc | apply IH; exact Hs].
Qed.

Lemma lowercase_is_canonical s : lowercase_id s = true -> canonical_id s = true.
Proof.
  unfold lowercase_id, canonical_id. rewrite !andb_true_iff. intros [Hlen Hs].
  split; [exact Hlen | apply all_in_hex_any_case; exact Hs].
Qed.

Lemma not_canonical_not_lowercase s : canonical_id s = false -> lowercase_id s = false.
Proof.
  intros H. destruct (lowercase_id s) eqn:E; [| reflexivity].
  apply lowercase_is_canonical in E. congruence.
Qed.

(** A lower-case identifier is returned as it is by the three resolvers,
    and an identifier in either case by the resolver of record_tools;
    the world is left as it was. *)
Lemma lowercase_id_fast_path config auth_manager s b w :
  lowercase_id s = true ->
  request_tools._resolve_user_id config auth_manager s b w = (Ok (Some s), w)
  /\ request_tools._resolve_catalog_item_id config auth_manager s b w = (Ok (Some s), w)
  /\ record_tools._resolve_user_id config auth_manager s b w = (Ok (Some s), w).
Proof.
  intros H.
  rewrite request_tools_resolve_user_id_eq, request_tools_resolve_catalog_item_id_eq,
    record_tools_resolve_user_id_eq.
  rewrite H, (lowercase_is_canonical _ H). repeat split.
Qed.

Lemma canonical_id_fast_path_record_tools config auth_manager s b w :
  canonical_id s = true ->
  record_tools._resolve_user_id config auth_manager s b w = (Ok (Some s), w).
Proof.
  intros H. rewrite record_tools_resolve_user_id_eq, H. reflexivity.
Qed.

(** ** Identifier resolution *)

(** C1, at an upper-case identifier: [upper_id] has the canonical-id
    shape and the resolver of record_tools returns it as it is without
    a call, but the two resolvers of request_tools, whose shape test
    knows lower-case digits only, look it up field by field (two
    requests for a user, three for a catalog item) and answer
    not-found when the backend finds nothing. *)
Theorem upper_case_id_is_looked_up :
  canonical_id upper_id = true
  /\ record_tools._resolve_user_id cfg0 auth0 upper_id backend_empty w0
     = (Ok (Some upper_id), w0)
  /\ (exists w',
        request_tools._resolve_user_id cfg0 auth0 upper_id backend_empty w0
        = (Ok None, w')
        /\ map fst (calls w') = user_candidates cfg0 auth0 upper_id)
  /\ (exists w',
        request_tools._resolve_catalog_item_id cfg0 auth0 upper_id backend_empty w0
        = (Ok None, w')
        /\ map fst (calls w') = catalog_candidates cfg0 auth0 upper_id).
Proof.
  split; [reflexivity |]. split; [reflexivity |].
  split; eexists; split; reflexivity.
Qed.

(** C2: for an input that has not the canonical-id shape, against a
    backend that answers table queries with lists of rows, each
    resolver makes its lookups in the fixed order (users: [user_name]
    then [email]; catalog items: [name], [sys_id], then
    [short_description] with LIKE), each limited to one row; it returns
    the [sys_id] of the first row of the first non-empty result, and
    not-found after all candidates were tried without a match. When
    the rows carry their [sys_id], not-found is returned in that case
    only. *)
Theorem resolvers_try_candidates_in_order config auth_manager s b w :
  canonical_id s = false ->
  (forall h rq, req_method rq = GET -> lists_rows (b h rq) = true) ->
  resolves_in_order b (user_candidates config auth_manager s)
    (request_tools._resolve_user_id config auth_manager s) w
  /\ resolves_in_order b (user_candidates config auth_manager s)
       (record_tools._resolve_user_id config auth_manager s) w
  /\ resolves_in_order b (catalog_candidates config auth_manager s)
       (request_tools._resolve_catalog_item_id config auth_manager s) w
  /\ map query_of (user_candidates config auth_manager s)
     = [Some (VStr ("user_name=" ++ s)); Some (VStr ("email=" ++ s))]
  /\ map query_of (catalog_candidates config auth_manager s)
     = [Some (VStr ("name=" ++ s)); Some (VStr ("sys_id=" ++ s));
        Some (VStr ("short_descriptionLIKE" ++ s))]
  /\ Forall (fun rq => limit_of rq = Some (VStr "1"))
       (user_candidates config auth_manager s
        ++ catalog_candidates config auth_manager s)%list.
Proof.
  intros Hshape Hlists.
  pose proof (not_canonical_not_lowercase _ Hshape) as Hlower.
  rewrite request_tools_resolve_user_id_eq, request_tools_resolve_catalog_item_id_eq,
    record_tools_resolve_user_id_eq, Hshape, Hlower.
  rewrite <- user_candidates_eq, <- catalog_candidates_eq.
  assert (Hget : forall cands : list (Request * (string -> string)),
             Forall (fun rq => req_method rq = GET) (map fst cands) ->
             forall h rq, In rq (map fst cands) -> lists_rows (b h rq) = true).
  { intros cands Hall h rq Hin. apply Hlists.
    rewrite Forall_forall in Hall. apply Hall. exact Hin. }
  repeat split.
  - apply resolve_loop_in_order, Hget. repeat constructor.
  - apply resolve_loop_in_order, Hget. repeat constructor.
  - apply resolve_loop_in_order, Hget. repeat constructor.
  - repeat constructor.
Qed.

Lemma backend_email_lists_rows h rq :
  req_method rq = GET -> lists_rows (backend_email h rq) = true.
Proof.
  intros Hget. unfold backend_email. rewrite Hget.
  destruct (query_of rq) as [[| | | q | |] |]; try reflexivity.
  destruct (String.eqb q "email=jdoe@example.com"); reflexivity.
Qed.

Lemma resolvers_try_candidates_in_order_witness :
  resolves_in_order backend_email (user_candidates cfg0 auth0 "jdoe@example.com")
    (request_tools._resolve_user_id cfg0 auth0 "jdoe@example.com") w0.
Proof.
  apply (resolvers_try_candidates_in_order cfg0 auth0 "jdoe@example.com"
           backend_email w0).
  - reflexivity.
  - exact backend_email_lists_rows.
Defined.

(** The scenario of the specification: the login-name lookup finds
    nothing, the e-mail lookup finds the user. *)
Example resolve_by_email :
  exists w',
    record_tools._resolve_user_id cfg0 auth0 "jdoe@example.com" backend_email w0
    = (Ok (Some "6816f79cc0a8016401c5a33be04be441"), w')
    /\ map query_of (map fst (calls w'))
       = [Some (VStr "user_name=jdoe@example.com");
          Some (VStr "email=jdoe@example.com")]
    /\ errors_logged w' = [].
Proof. eexists. repeat split. Qed.

(** C3: each resolver absorbs the transport failures of its lookups.
    No [RequestException] leaves it; every failed lookup is logged
    with its field and error text; a failed lookup on a candidate
    that is not the last one is followed by the lookup on the next
    candidate; and when none of the lookups made yields a match,
    whether by failing or by an empty result, all candidates were
    tried and the answer is not-found. *)
Theorem resolvers_absorb_transport_failures config auth_manager s b w :
  absorbs_failures b (user_lookups config auth_manager s)
    (request_tools._resolve_user_id config auth_manager s) w
  /\ absorbs_failures b (user_lookups config auth_manager s)
       (record_tools._resolve_user_id config auth_manager s) w
  /\ absorbs_failures b (catalog_lookups config auth_manager s)
       (request_tools._resolve_catalog_item_id config auth_manager s) w.
Proof.
  rewrite request_tools_resolve_user_id_eq, request_tools_resolve_catalog_item_id_eq,
    record_tools_resolve_user_id_eq.
  repeat split.
  - destruct (lowercase_id s); [apply ret_absorbs | apply resolve_loop_absorbs].
  - destruct (canonical_id s); [apply ret_absorbs | apply resolve_loop_absorbs].
  - destruct (lowercase_id s); [apply ret_absorbs | apply resolve_loop_absorbs].
Qed.

(** With the backend down, both lookups for a user fail, both are
    logged, and the answer is not-found. *)
Example resolve_with_backend_down :
  request_tools._resolve_user_id cfg0 auth0 "jdoe" backend_down w0
  = (Ok None,
     mkWorld
       [(user_query cfg0 auth0 "jdoe" "user_name", Failed "Connection refused");
        (user_query cfg0 auth0 "jdoe" "email", Failed "Connection refused")]
       ["Failed to resolve user ID for user_name=jdoe: Connection refused";
        "Failed to resolve user ID for email=jdoe: Connection refused"]).
Proof. reflexivity. Qed.

(** ** Transport failures at the operation boundary *)

Lemma request_step {A} rq (k : Response -> M A) b w :
  (response <- requests_call rq ;; raise_for_status response ;;; k response) b w =
    match b (calls w) rq with
    | Failed e => (Raise (RequestException e), record_call w (rq, Failed e))
    | Answered r =>
        match http_error_msg r with
        | Some msg => (Raise (RequestException msg), record_call w (rq, Answered r))
        | None => k r b (record_call w (rq, Answered r))
        end
    end.
Proof.
  unfold bind, requests_call, raise_for_status. cbv zeta.
  destruct (b (calls w) rq) as [e | r]; [reflexivity |].
  destruct (http_error_msg r); reflexivity.
Qed.

Lemma catches_bind {X R} (prepare : M X) (k : X -> M R)
    (is_failure : R -> string -> Prop) prefix b w :
  (forall e, fst (prepare b w) <> Raise (RequestException e)) ->
  (forall x w1, turns_failures_into_results (k x) is_failure prefix b w1) ->
  catches_transport_failures prepare (x <- prepare ;; k x) is_failure prefix b w.
Proof.
  intros Hprep Hk. unfold catches_transport_failures, bind.
  destruct (prepare b w) as [[x | e] w1] eqn:Hrun.
  - destruct (Hk x w1) as (o & w' & xs & Hm & Hcalls & Hre & Hfail).
    exists (Ok x), w1, o, w', xs. rewrite Hm. repeat split; auto.
  - exists (Raise e), w1, (Raise e), w1, []. rewrite app_nil_r.
    repeat split; auto.
    + intros e' He. apply (Hprep e'). cbn. injection He as ->. reflexivity.
    + intros x e' [].
Qed.

Lemma ret_turns_failures {R} (r : R) (is_failure : R -> string -> Prop) prefix b w :
  turns_failures_into_results (ret r) is_failure prefix b w.
Proof.
  exists (Ok r), w, []. rewrite app_nil_r. repeat split; try discriminate.
  intros x e [].
Qed.

Lemma resolve_loop_never_raises cands b w e :
  fst (resolve_loop cands b w) <> Raise (RequestException e).
Proof.
  destruct (resolve_loop_absorbs b cands w) as (o & w' & xs & Hrun & Hre & _).
  rewrite Hrun. apply Hre.
Qed.

Lemma record_tools_resolver_never_raises :
  never_raises_request_exception record_tools._resolve_user_id.
Proof.
  intros config auth_manager s b w e. rewrite record_tools_resolve_user_id_eq.
  destruct (canonical_id s); [discriminate | apply resolve_loop_never_raises].
Qed.

Lemma request_tools_user_resolver_never_raises :
  never_raises_request_exception request_tools._resolve_user_id.
Proof.
  intros config auth_manager s b w e. rewrite request_tools_resolve_user_id_eq.
  destruct (lowercase_id s); [discriminate | apply resolve_loop_never_raises].
Qed.

Lemma request_tools_catalog_resolver_never_raises :
  never_raises_request_exception request_tools._resolve_catalog_item_id.
Proof.
  intros config auth_manager s b w e. rewrite request_tools_resolve_catalog_item_id_eq.
  destruct (lowercase_id s); [discriminate | apply resolve_loop_never_raises].
Qed.

Lemma inspects_ret {R} (r : R) : inspects_only (ret r).
Proof. exists (Ok r). split; [discriminate | reflexivity]. Qed.

Lemma inspects_raise {R} (e : exn) :
  (forall msg, e <> RequestException msg) -> inspects_only (@raise R e).
Proof.
  intros He. exists (Raise e). split; [| reflexivity].
  intros msg H. injection H as H. exact (He msg H).
Qed.

Lemma inspects_bind {A R} (m : M A) (k : A -> M R) :
  inspects_only m -> (forall a, inspects_only (k a)) -> inspects_only (bind m k).
Proof.
  intros (o & Ho & Hm) Hk. destruct o as [a | e].
  - destruct (Hk a) as (o' & Ho' & Hka). exists o'. split; [exact Ho' |].
    intros b w. unfold bind. rewrite Hm. apply Hka.
  - exists (Raise e). split.
    + intros msg H. injection H as ->. apply (Ho msg). reflexivity.
    + intros b w. unfold bind. rewrite Hm. reflexivity.
Qed.

Lemma inspects_result_get v key : inspects_only (result_get v key).
Proof.
  destruct v; [apply inspects_raise; discriminate | apply inspects_ret].
Qed.

Lemma inspects_result_get_default v key default :
  inspects_only (hardware_ordering.result_get_default v key default).
Proof.
  apply inspects_bind; [apply inspects_result_get | intros; apply inspects_ret].
Qed.

Lemma inspects_raises_on_failure {R} (m : M R) b w :
  inspects_only m -> raises_on_failure m b w.
Proof.
  intros (o & Ho & Hm). exists o, w, []. rewrite Hm, app_nil_r.
  repeat split. destruct o as [r | [msg | | | |]]; try constructor.
  exfalso. apply (Ho msg). reflexivity.
Qed.

Lemma request_raises_on_failure {R} rq (k : Response -> M R) b w :
  (forall r w1, raises_on_failure (k r) b w1) ->
  raises_on_failure
    (response <- requests_call rq ;; raise_for_status response ;;; k response) b w.
Proof.
  intros Hk. unfold raises_on_failure. rewrite request_step.
  destruct (b (calls w) rq) as [e | r] eqn:Hreply.
  - exists (Raise (RequestException e)), (record_call w (rq, Failed e)), [(rq, Failed e)].
    repeat split. exists [], (rq, Failed e). repeat split. constructor.
  - destruct (http_error_msg r) as [msg |] eqn:Hmsg.
    + exists (Raise (RequestException msg)), (record_call w (rq, Answered r)),
        [(rq, Answered r)].
      repeat split. exists [], (rq, Answered r). repeat split; [constructor | exact Hmsg].
    + destruct (Hk r (record_call w (rq, Answered r))) as (o & w' & xs & Hrun & Hcalls & Hpost).
      exists o, w', ((rq, Answered r) :: xs).
      split; [exact Hrun |]. split.
      { rewrite Hcalls. cbn. rewrite <- app_assoc. reflexivity. }
      assert (Hq : quiet (rq, Answered r)) by exact Hmsg.
      destruct o as [a | [e | | | |]]; try (constructor; assumption).
      destruct Hpost as (pre & x & -> & Hpre & Hx).
      exists ((rq, Answered r) :: pre), x. repeat split; auto.
Qed.

Lemma bind_raises_on_failure {A R} (m : M A) (k : A -> M R) b w :
  inspects_only m -> (forall a w1, raises_on_failure (k a) b w1) ->
  raises_on_failure (bind m k) b w.
Proof.
  intros (o & Ho & Hm) Hk. unfold raises_on_failure, bind. rewrite Hm.
  destruct o as [a | e].
  - apply Hk.
  - exists (Raise e), w, []. rewrite app_nil_r. repeat split.
    destruct e as [msg | | | |]; try constructor.
    exfalso. apply (Ho msg). reflexivity.
Qed.

(** [try: body except RequestException as e: log; return fail(e)]. *)
Lemma try_block_turns_failures {R} (body : M R) (fail : string -> R)
    (is_failure : R -> string -> Prop) prefix b w :
  raises_on_failure body b w ->
  (forall e, is_failure (fail e) (prefix ++ e)) ->
  turns_failures_into_results
    (try_except body (fun e => logger_error (prefix ++ e) ;;; ret (fail e)))
    is_failure prefix b w.
Proof.
  intros (o & w' & xs & Hrun & Hcalls & Hpost) Hfail.
  unfold turns_failures_into_results, try_except. rewrite Hrun.
  assert (Hquiet : Forall quiet xs -> forall x e,
             In x xs -> failure_text (snd x) = Some e -> False).
  { intros Hall x e Hin He. rewrite Forall_forall in Hall.
    specialize (Hall x Hin). unfold quiet in Hall. congruence. }
  destruct o as [r | [e | | | |]].
  - exists (Ok r), w', xs. repeat split; auto; try discriminate.
    intros x e Hin He. exfalso. eapply Hquiet; eauto.
  - destruct Hpost as (pre & x & Hxs & Hpre & Hx).
    exists (Ok (fail e)), (record_error w' (prefix ++ e)), xs.
    repeat split; auto; try discriminate.
    intros y e' Hin He'. exists (fail e). split; [reflexivity |].
    rewrite Hxs in Hin. apply in_app_or in Hin. destruct Hin as [Hin | [<- | []]].
    + exfalso. rewrite Forall_forall in Hpre. specialize (Hpre y Hin).
      unfold quiet in Hpre. congruence.
    + assert (e' = e) as -> by congruence. apply Hfail.
  - exists (Raise KeyError), w', xs. repeat split; auto; try discriminate.
    intros x e Hin He. exfalso. eapply Hquiet; eauto.
  - exists (Raise AttributeError), w', xs. repeat split; auto; try discriminate.
    intros x e Hin He. exfalso. eapply Hquiet; eauto.
  - exists (Raise TypeError), w', xs. repeat split; auto; try discriminate.
    intros x e Hin He. exfalso. eapply Hquiet; eauto.
  - exists (Raise IndexError), w', xs. repeat split; auto; try discriminate.
    intros x e Hin He. exfalso. eapply Hquiet; eauto.
Qed.

Lemma catches_without_prepare {R} (m : M R) (is_failure : R -> string -> Prop)
    prefix b w :
  turns_failures_into_results m is_failure prefix b w ->
  catches_transport_failures (ret tt) m is_failure prefix b w.
Proof.
  intros (o & w' & xs & Hrun & Hcalls & Hre & Hfail).
  exists (Ok tt), w, o, w', xs. repeat split; auto.
Qed.

Lemma ret_no_request_exception {A} (a : A) : no_request_exception (ret a).
Proof. intros b w e. discriminate. Qed.

Lemma raise_no_request_exception {A} (e : exn) :
  (forall msg, e <> RequestException msg) -> no_request_exception (@raise A e).
Proof. intros He b w msg H. injection H as H. exact (He msg H). Qed.

Lemma bind_no_request_exception {A B} (m : M A) (k : A -> M B) :
  no_request_exception m -> (forall a, no_request_exception (k a)) ->
  no_request_exception (bind m k).
Proof.
  intros Hm Hk b w e. unfold bind.
  destruct (m b w) as [[a | e'] w1] eqn:Hrun.
  - apply Hk.
  - cbn. intros H. injection H as ->. apply (Hm b w e). rewrite Hrun. reflexivity.
Qed.

Lemma resolver_no_request_exception resolve config auth_manager s :
  never_raises_request_exception resolve ->
  no_request_exception (resolve config auth_manager s).
Proof. intros H b w e. apply H. Qed.

Lemma turns_failures_no_request_exception {R} (m : M R)
    (is_failure : R -> string -> Prop) prefix :
  (forall b w, turns_failures_into_results m is_failure prefix b w) ->
  no_request_exception m.
Proof.
  intros H b w e. destruct (H b w) as (o & w' & xs & Hrun & _ & Hre & _).
  rewrite Hrun. apply Hre.
Qed.

(** Stepping through the parts of an operation. *)
Ltac inspect :=
  cbv zeta;
  repeat first
    [ apply inspects_ret
    | apply inspects_result_get
    | apply inspects_result_get_default
    | apply inspects_raise; discriminate
    | apply inspects_bind; [| intros ]
    | match goal with
      | |- inspects_only (match ?x with _ => _ end) => destruct x
      end ].

Ltac try_body :=
  cbv zeta;
  repeat first
    [ apply request_raises_on_failure; intros
    | apply bind_raises_on_failure; [ solve [inspect] | intros ]
    | apply inspects_raises_on_failure; solve [inspect]
    | match goal with
      | |- raises_on_failure (if ?c then _ else _) _ _ => destruct c
      | |- raises_on_failure (match ?x with _ => _ end) _ _ => destruct x
      end ].

Ltac quiet_prepare :=
  cbv zeta;
  repeat first
    [ apply ret_no_request_exception
    | apply resolver_no_request_exception; assumption
    | apply resolver_no_request_exception; apply request_tools_user_resolver_never_raises
    | apply resolver_no_request_exception; apply request_tools_catalog_resolver_never_raises
    | apply resolver_no_request_exception; apply record_tools_resolver_never_raises
    | apply bind_no_request_exception; [| intros ]
    | match goal with
      | |- no_request_exception (if ?c then _ else _) => destruct c
      | |- no_request_exception (match ?x with _ => _ end) => destruct x
      end ].









Section asset_tools_catch.

Variable resolve_user_id : ServerConfig -> AuthManager -> string -> M (option string).
Hypothesis resolver_quiet : never_raises_request_exception resolve_user_id.








End asset_tools_catch.





(** With the backend down, the order fails at its first call. *)
Example submit_hardware_order_backend_down :
  fst (hardware_ordering.submit_hardware_order cfg0 auth0 order0 backend_down w0)
  = Ok [("success", VBool false);
        ("message", VStr "Failed to submit hardware order: Connection refused")].
Proof. reflexivity. Qed.

(** ** The request of a list operation *)

Lemma single_request_issues {R} rq (k : Response -> M R) (msg : string -> string)
    (fail : string -> R) b w :
  (forall r, inspects_only (k r)) ->
  issues
    (try_except
       (response <- requests_call rq ;; raise_for_status response ;;; k response)
       (fun e => logger_error (msg e) ;;; ret (fail e)))
    rq b w.
Proof.
  intros Hk. unfold issues, try_except. rewrite request_step.
  destruct (b (calls w) rq) as [e | r].
  - eexists _, _. split; reflexivity.
  - destruct (http_error_msg r) as [e |].
    + eexists _, _. split; reflexivity.
    + destruct (Hk r) as (o & Ho & Hrun). rewrite Hrun.
      exists o, (record_call w (rq, Answered r)).
      split; [| reflexivity].
      destruct o as [a | [e | | | |]]; try reflexivity.
      exfalso. apply (Ho e). reflexivity.
Qed.

Lemma get_sysparm_query limit offset parts :
  Py.get "sysparm_query" (list_query_params limit offset parts)
  = if Py.truthy_list parts then Some (VStr (Py.join "^" parts)) else None.
Proof. destruct parts; reflexivity. Qed.

Lemma bind_issues_after {X R} (prepare : M X) (k : X -> M R) (rq_of : X -> Request) b w :
  (forall x w1, issues (k x) (rq_of x) b w1) ->
  issues_after prepare (x <- prepare ;; k x) rq_of b w.
Proof.
  intros Hk x w1 Hprep. rewrite (bind_ok _ _ _ _ _ _ Hprep). apply Hk.
Qed.


Section asset_tools_requests.

Variable resolve_user_id : ServerConfig -> AuthManager -> string -> M (option string).

Lemma list_assets_issues config auth_manager params b w :
  issues_after
    (asset_tools.list_assets_query_parts resolve_user_id config auth_manager params)
    (asset_tools.list_assets resolve_user_id config auth_manager params)
    (list_request config auth_manager "/table/alm_asset"
       (asset_tools.la_limit params) (asset_tools.la_offset params))
    b w.
Proof.
  unfold asset_tools.list_assets. apply bind_issues_after.
  intros parts w1.
  apply (single_request_issues _ _ (fun e => "Failed to list assets: " ++ e)).
  intros r. inspect.
Qed.

Lemma list_hardware_assets_issues config auth_manager params b w :
  issues_after
    (asset_tools.list_hardware_assets_query_parts resolve_user_id config
       auth_manager params)
    (asset_tools.list_hardware_assets resolve_user_id config auth_manager params)
    (list_request config auth_manager "/table/alm_hardware"
       (asset_tools.lha_limit params) (asset_tools.lha_offset params))
    b w.
Proof.
  unfold asset_tools.list_hardware_assets. apply bind_issues_after.
  intros parts w1.
  apply (single_request_issues _ _ (fun e => "Failed to list hardware assets: " ++ e)).
  intros r. inspect.
Qed.

End asset_tools_requests.

Lemma list_knowledge_bases_issues config auth_manager params b w :
  issues (knowledge_base.list_knowledge_bases config auth_manager params)
    (get_request config auth_manager (api_url config ++ "/table/kb_knowledge_base")
       (Some (knowledge_base.list_knowledge_bases_query_params params)))
    b w.
Proof.
  unfold issues, knowledge_base.list_knowledge_bases, try_except. cbv zeta.
  rewrite request_step.
  destruct (b (calls w) _) as [e | r].
  - eexists _, _. split; reflexivity.
  - destruct (http_error_msg r) as [e |].
    + eexists _, _. split; reflexivity.
    + destruct (json_result r) as [result |]; eexists _, _; split; reflexivity.
Qed.

(** ** Query construction *)

Lemma join_concat sep parts : Py.join sep parts = String.concat sep parts.
Proof.
  induction parts as [| p rest IH]; [reflexivity |].
  cbn [Py.join String.concat]. destruct rest; [reflexivity |].
  rewrite IH. reflexivity.
Qed.

Lemma append_if_clause value text parts :
  asset_tools.append_if value text parts = (parts ++ clause value text)%list.
Proof.
  unfold asset_tools.append_if, clause, Py.append.
  destruct (Py.truthy value); [reflexivity | rewrite app_nil_r; reflexivity].
Qed.

Section asset_tools_queries.

Variable resolve_user_id : ServerConfig -> AuthManager -> string -> M (option string).

Lemma resolve_users_run config auth_manager b users :
  forall outs w w1 user_ids,
    resolved_in_turn resolve_user_id config auth_manager b w users outs w1 ->
    asset_tools.resolve_users resolve_user_id config auth_manager users user_ids b w
    = (Ok (user_ids ++ kept outs)%list, w1).
Proof.
  induction users as [| user rest IH]; intros [| o outs] w w1 user_ids H;
    cbn [resolved_in_turn] in H; try contradiction.
  - subst w1. cbn. rewrite app_nil_r. reflexivity.
  - destruct H as (w' & Hrun & Hrest).
    cbn [asset_tools.resolve_users]. rewrite (bind_ok _ _ _ _ _ _ Hrun).
    cbv zeta. rewrite (IH _ _ _ _ Hrest).
    unfold kept. cbn [flat_map]. fold (kept outs). unfold Py.append.
    destruct (Py.truthy o); [rewrite <- app_assoc |]; reflexivity.
Qed.

(** The parts of the query of [list_assets]: the membership clause,
    when [assigned_to] is a non-empty list, then the other filters. *)
Lemma list_assets_query_parts_run config auth_manager params b w :
  asset_tools.list_assets_query_parts resolve_user_id config auth_manager params b w
  = match asset_tools.la_assigned_to params with
    | Some (user :: users) =>
        match asset_tools.resolve_users resolve_user_id config auth_manager
                (user :: users) [] b w with
        | (Ok user_ids, w1) =>
            (Ok (("assigned_toIN" ++ Py.join "," user_ids)
                 :: list_assets_filters params), w1)
        | (Raise e, w1) => (Raise e, w1)
        end
    | _ => (Ok (list_assets_filters params), w)
    end.
Proof.
  unfold asset_tools.list_assets_query_parts, list_assets_filters. cbv zeta.
  destruct (asset_tools.la_assigned_to params) as [[| user users] |].
  - unfold bind, ret. rewrite !append_if_clause, <- !app_assoc. reflexivity.
  - unfold bind at 1. unfold bind at 1.
    destruct (asset_tools.resolve_users _ _ _ _ _ b w) as [[user_ids | e] w1];
      [| reflexivity].
    unfold ret, Py.append. rewrite !append_if_clause, <- !app_assoc. reflexivity.
  - unfold bind, ret. rewrite !append_if_clause, <- !app_assoc. reflexivity.
Qed.

End asset_tools_queries.

Section asset_tools_claims.

Variable resolve_user_id : ServerConfig -> AuthManager -> string -> M (option string).

(** The request of [list_assets], given the answers of the resolver. *)
Lemma list_assets_request config auth_manager params b w outs w1 :
  resolved_in_turn resolve_user_id config auth_manager b w (users_of params) outs w1 ->
  asset_tools.list_assets_query_parts resolve_user_id config auth_manager params b w
  = (Ok (app (match users_of params with
              | [] => []
              | _ :: _ => ["assigned_toIN" ++ Py.join "," (kept outs)]
              end) (list_assets_filters params)), w1).
Proof.
  intros Hres. rewrite list_assets_query_parts_run. unfold users_of in *.
  destruct (asset_tools.la_assigned_to params) as [[| user users] |].
  - destruct outs; [| contradiction]. cbn in Hres. subst w1. reflexivity.
  - rewrite (resolve_users_run _ _ _ _ _ _ _ _ [] Hres). reflexivity.
  - destruct outs; [| contradiction]. cbn in Hres. subst w1. reflexivity.
Qed.

Lemma list_hardware_assets_search_parts config auth_manager limit offset term b w :
  asset_tools.list_hardware_assets_query_parts resolve_user_id config auth_manager
    (asset_tools.mkListHardwareAssetsParams limit offset None None (Some term)) b w
  = (Ok (clause (Some term)
           ("^asset_tagLIKE" ++ term ++ "^ORdisplay_nameLIKE" ++ term
            ++ "^ORserial_numberLIKE" ++ term ++ "^ORmodelLIKE" ++ term)), w).
Proof.
  unfold asset_tools.list_hardware_assets_query_parts. cbn.
  unfold bind, ret. rewrite !append_if_clause. reflexivity.
Qed.

End asset_tools_claims.

(** C5, at the search term [laptop]: the asset tools put a separator in
    front of their OR-group, so the query of [list_assets] and of
    [list_hardware_assets] begins with [^], and after another clause
    the group follows a doubled [^^]; [list_knowledge_bases] emits the
    group as the claim has it. *)
Theorem asset_search_group_has_leading_separator
    (resolve_user_id : ServerConfig -> AuthManager -> string -> M (option string)) b w :
  (exists o w' rq,
      asset_tools.list_assets resolve_user_id cfg0 auth0 assets_search b w = (o, w')
      /\ calls w' = (calls w ++ [(rq, b (calls w) rq)])%list
      /\ query_of rq
         = Some (VStr ("^asset_tagLIKElaptop^ORdisplay_nameLIKElaptop"
                       ++ "^ORserial_numberLIKElaptop^ORmodelLIKElaptop"
                       ++ "^ORshort_descriptionLIKElaptop")))
  /\ (exists o w' rq,
        asset_tools.list_assets resolve_user_id cfg0 auth0 assets_name_search b w
        = (o, w')
        /\ calls w' = (calls w ++ [(rq, b (calls w) rq)])%list
        /\ query_of rq
           = Some (VStr ("display_nameLIKEmacbook"
                         ++ "^^asset_tagLIKElaptop^ORdisplay_nameLIKElaptop"
                         ++ "^ORserial_numberLIKElaptop^ORmodelLIKElaptop"
                         ++ "^ORshort_descriptionLIKElaptop")))
  /\ (exists o w' rq,
        asset_tools.list_hardware_assets resolve_user_id cfg0 auth0 hardware_search b w
        = (o, w')
        /\ calls w' = (calls w ++ [(rq, b (calls w) rq)])%list
        /\ query_of rq
           = Some (VStr ("^asset_tagLIKElaptop^ORdisplay_nameLIKElaptop"
                         ++ "^ORserial_numberLIKElaptop^ORmodelLIKElaptop")))
  /\ (exists o w' rq,
        knowledge_base.list_knowledge_bases cfg0 auth0 kb_search b w = (o, w')
        /\ calls w' = (calls w ++ [(rq, b (calls w) rq)])%list
        /\ query_of rq = Some (VStr "titleLIKElaptop^ORdescriptionLIKElaptop")).
Proof.
  repeat split.
  - destruct (list_assets_issues resolve_user_id cfg0 auth0 assets_search b w
                (list_assets_filters assets_search) w) as (o & w' & Hrun & Hcalls).
    { apply (list_assets_request resolve_user_id cfg0 auth0 assets_search b w [] w).
      reflexivity. }
    exists o, w', (list_request cfg0 auth0 "/table/alm_asset" 100 0
                     (list_assets_filters assets_search)).
    repeat split; assumption.
  - destruct (list_assets_issues resolve_user_id cfg0 auth0 assets_name_search b w
                (list_assets_filters assets_name_search) w) as (o & w' & Hrun & Hcalls).
    { apply (list_assets_request resolve_user_id cfg0 auth0 assets_name_search b w [] w).
      reflexivity. }
    exists o, w', (list_request cfg0 auth0 "/table/alm_asset" 100 0
                     (list_assets_filters assets_name_search)).
    repeat split; assumption.
  - destruct (list_hardware_assets_issues resolve_user_id cfg0 auth0 hardware_search b w
                _ w (list_hardware_assets_search_parts resolve_user_id cfg0 auth0
                       10 0 "laptop" b w)) as (o & w' & Hrun & Hcalls).
    eexists o, w', _. repeat split; [exact Hrun | exact Hcalls | reflexivity].
  - destruct (list_knowledge_bases_issues cfg0 auth0 kb_search b w)
      as (o & w' & Hrun & Hcalls).
    eexists o, w', _. repeat split; [exact Hrun | exact Hcalls | reflexivity].
Qed.

Lemma string_length_app (s t : string) :
  String.length (s ++ t) = String.length s + String.length t.
Proof. induction s as [| c s IH]; cbn; [reflexivity | now rewrite IH]. Qed.

Lemma string_app_inv_head (p s t : string) : p ++ s = p ++ t -> s = t.
Proof.
  induction p as [| c p IH]; cbn; [trivial |].
  intros H. injection H as H. exact (IH H).
Qed.

Lemma concat_last_differs sep pre (x y : string) :
  String.length x <> String.length y ->
  String.concat sep (pre ++ [x]) <> String.concat sep (pre ++ [y]).
Proof.
  intros Hlen. induction pre as [| p rest IH].
  - cbn. intros ->. apply Hlen. reflexivity.
  - intros H.
    assert (Hstep : forall z,
              String.concat sep ((p :: rest) ++ [z])
              = p ++ sep ++ String.concat sep (rest ++ [z])).
    { intros z. cbn [app String.concat]. destruct rest; reflexivity. }
    rewrite !Hstep in H.
    apply string_app_inv_head, string_app_inv_head in H. exact (IH H).
Qed.

Lemma code_list_assets_filters params outs :
  app (match users_of params with
       | [] => []
       | _ :: _ => ["assigned_toIN" ++ Py.join "," (kept outs)]
       end) (list_assets_filters params)
  = (spec_list_assets_head params (kept outs)
     ++ clause (asset_tools.la_query params)
          ("^" ++ spec_or_group asset_search_fields
                    (Py.the (asset_tools.la_query params))))%list.
Proof.
  unfold spec_list_assets_head, list_assets_filters.
  rewrite join_concat, <- !app_assoc. reflexivity.
Qed.

(** C6: for a call without a search term, the [sysparm_query] of
    [list_assets] is the query of the specification: the present
    clauses (the membership clause of [assigned_to], then location and
    display name) in that order, joined by the single character [^],
    and no query when there is none; with only location [NYC] and name
    [laptop] it is exactly [location=NYC^display_nameLIKElaptop].
    With a search term it is not: the code writes a second [^] in
    front of the OR-group, so the query differs from the specified
    join of the same clauses. *)
Theorem list_assets_join_differs_at_the_search_group
    (resolve_user_id : ServerConfig -> AuthManager -> string -> M (option string))
    config auth_manager params b w :
  (forall outs w1,
      resolved_in_turn resolve_user_id config auth_manager b w (users_of params) outs w1 ->
      exists o w' rq,
        asset_tools.list_assets resolve_user_id config auth_manager params b w = (o, w')
        /\ calls w' = (calls w1 ++ [(rq, b (calls w1) rq)])%list
        /\ (Py.truthy (asset_tools.la_query params) = false ->
            query_of rq = spec_query (spec_list_assets_clauses params (kept outs)))
        /\ (Py.truthy (asset_tools.la_query params) = true ->
            query_of rq
            = Some (VStr (String.concat "^"
                            (spec_list_assets_head params (kept outs)
                             ++ [("^" ++ spec_or_group asset_search_fields
                                           (Py.the (asset_tools.la_query params)))%string])%list))
            /\ query_of rq
               <> spec_query (spec_list_assets_clauses params (kept outs))))
  /\ (asset_tools.la_assigned_to params = None ->
      asset_tools.la_location params = Some "NYC" ->
      asset_tools.la_name params = Some "laptop" ->
      asset_tools.la_query params = None ->
      exists o w' rq,
        asset_tools.list_assets resolve_user_id config auth_manager params b w = (o, w')
        /\ calls w' = (calls w ++ [(rq, b (calls w) rq)])%list
        /\ query_of rq = Some (VStr "location=NYC^display_nameLIKElaptop")).
Proof.
  assert (General : forall outs w1,
      resolved_in_turn resolve_user_id config auth_manager b w (users_of params) outs w1 ->
      exists o w' rq,
        asset_tools.list_assets resolve_user_id config auth_manager params b w = (o, w')
        /\ calls w' = (calls w1 ++ [(rq, b (calls w1) rq)])%list
        /\ (Py.truthy (asset_tools.la_query params) = false ->
            query_of rq = spec_query (spec_list_assets_clauses params (kept outs)))
        /\ (Py.truthy (asset_tools.la_query params) = true ->
            query_of rq
            = Some (VStr (String.concat "^"
                            (spec_list_assets_head params (kept outs)
                             ++ [("^" ++ spec_or_group asset_search_fields
                                           (Py.the (asset_tools.la_query params)))%string])%list))
            /\ query_of rq
               <> spec_query (spec_list_assets_clauses params (kept outs)))).
  { intros outs w1 Hres.
    pose proof (list_assets_request resolve_user_id _ _ _ _ _ _ _ Hres) as Hparts.
    rewrite code_list_assets_filters in Hparts.
    destruct (list_assets_issues resolve_user_id config auth_manager params b w _ _ Hparts)
      as (o & w' & Hrun & Hcalls).
    eexists o, w', _. split; [exact Hrun |]. split; [exact Hcalls |].
    unfold query_of, list_request, get_request. cbn [req_params].
    rewrite get_sysparm_query, join_concat.
    unfold spec_list_assets_clauses, clause.
    split; intros Hterm; rewrite Hterm.
    - rewrite !app_nil_r. unfold spec_query.
      destruct (spec_list_assets_head params (kept outs)); reflexivity.
    - assert (Hcode :
        (if Py.truthy_list
              (spec_list_assets_head params (kept outs)
               ++ [("^" ++ spec_or_group asset_search_fields
                             (Py.the (asset_tools.la_query params)))%string])%list
         then Some (VStr (String.concat "^"
                            (spec_list_assets_head params (kept outs)
                             ++ [("^" ++ spec_or_group asset_search_fields
                                           (Py.the (asset_tools.la_query params)))%string])%list))
         else None)
        = Some (VStr (String.concat "^"
                        (spec_list_assets_head params (kept outs)
                         ++ [("^" ++ spec_or_group asset_search_fields
                                       (Py.the (asset_tools.la_query params)))%string])%list))).
      { destruct (spec_list_assets_head params (kept outs)); reflexivity. }
      rewrite Hcode. split; [reflexivity |].
      assert (Hspec :
        spec_query
          (spec_list_assets_head params (kept outs)
           ++ [spec_or_group asset_search_fields
                 (Py.the (asset_tools.la_query params))])%list
        = Some (VStr (String.concat "^"
                        (spec_list_assets_head params (kept outs)
                         ++ [spec_or_group asset_search_fields
                               (Py.the (asset_tools.la_query params))])%list))).
      { unfold spec_query.
        destruct (spec_list_assets_head params (kept outs)); reflexivity. }
      rewrite Hspec. intros H. injection H as H. revert H.
      apply concat_last_differs. cbn [append String.length]. lia. }
  split; [exact General |].
  intros Hassigned Hloc Hname Hquery.
  destruct (General [] w) as (o & w' & rq & Hrun & Hcalls & Hq & _).
  { unfold users_of. rewrite Hassigned. reflexivity. }
  exists o, w', rq. split; [exact Hrun |]. split; [exact Hcalls |].
  rewrite Hq by (rewrite Hquery; reflexivity).
  unfold spec_list_assets_clauses, spec_list_assets_head, users_of.
  rewrite Hassigned, Hloc, Hname, Hquery. reflexivity.
Qed.

Lemma list_assets_join_differs_at_the_search_group_witness :
  (exists o w' rq,
      asset_tools.list_assets record_tools._resolve_user_id cfg0 auth0 assets_nyc_laptop
        backend_empty w0 = (o, w')
      /\ calls w' = (calls w0 ++ [(rq, backend_empty (calls w0) rq)])%list
      /\ query_of rq = Some (VStr "location=NYC^display_nameLIKElaptop"))
  /\ (exists o w' rq,
        asset_tools.list_assets record_tools._resolve_user_id cfg0 auth0
          assets_name_search backend_empty w0 = (o, w')
        /\ calls w' = (calls w0 ++ [(rq, backend_empty (calls w0) rq)])%list
        /\ query_of rq
           = Some (VStr ("display_nameLIKEmacbook"
                         ++ "^^asset_tagLIKElaptop^ORdisplay_nameLIKElaptop"
                         ++ "^ORserial_numberLIKElaptop^ORmodelLIKElaptop"
                         ++ "^ORshort_descriptionLIKElaptop"))
        /\ spec_query (spec_list_assets_clauses assets_name_search [])
           = Some (VStr ("display_nameLIKEmacbook"
                         ++ "^asset_tagLIKElaptop^ORdisplay_nameLIKElaptop"
                         ++ "^ORserial_numberLIKElaptop^ORmodelLIKElaptop"
                         ++ "^ORshort_descriptionLIKElaptop"))).
Proof.
  split.
  - apply (proj2 (list_assets_join_differs_at_the_search_group
                    record_tools._resolve_user_id
                    cfg0 auth0 assets_nyc_laptop backend_empty w0)); reflexivity.
  - destruct (proj1 (list_assets_join_differs_at_the_search_group
                       record_tools._resolve_user_id
                       cfg0 auth0 assets_name_search backend_empty w0) [] w0 eq_refl)
      as (o & w' & rq & Hrun & Hcalls & _ & Hterm).
    exists o, w', rq. split; [exact Hrun |]. split; [exact Hcalls |].
    split; [exact (proj1 (Hterm eq_refl)) | reflexivity].
Defined.

(** C9: query construction holds no state. The request of
    [list_knowledge_bases], hence its query string, is fixed by the
    parameters alone, whatever the backend and the calls made before;
    the request of [list_assets] is fixed by the parameters and the
    answers of the resolver for the entries of [assigned_to]. *)
Theorem query_construction_is_stateless
    (resolve_user_id : ServerConfig -> AuthManager -> string -> M (option string))
    config auth_manager :
  (forall params : knowledge_base.ListKnowledgeBasesParams,
      exists rq,
        query_of rq
        = Py.get "sysparm_query" (knowledge_base.list_knowledge_bases_query_params params)
        /\ forall b w,
            issues (knowledge_base.list_knowledge_bases config auth_manager params)
              rq b w)
  /\ (forall (params : asset_tools.ListAssetsParams) outs,
        exists rq,
          forall b w w1,
            resolved_in_turn resolve_user_id config auth_manager b w
              (users_of params) outs w1 ->
            exists o w',
              asset_tools.list_assets resolve_user_id config auth_manager params b w
              = (o, w')
              /\ calls w' = (calls w1 ++ [(rq, b (calls w1) rq)])%list).
Proof.
  split.
  - intros params. eexists. split; [| intros b w; apply list_knowledge_bases_issues].
    reflexivity.
  - intros params outs. eexists. intros b w w1 Hres.
    pose proof (list_assets_request resolve_user_id _ _ _ _ _ _ _ Hres) as Hparts.
    exact (list_assets_issues resolve_user_id config auth_manager params b w _ _ Hparts).
Qed.

Lemma query_construction_is_stateless_witness :
  exists rq,
    forall b w w1,
      resolved_in_turn record_tools._resolve_user_id cfg0 auth0 b w
        (users_of assets_of_strangers) [None; None] w1 ->
      exists o w',
        asset_tools.list_assets record_tools._resolve_user_id cfg0 auth0
          assets_of_strangers b w = (o, w')
        /\ calls w' = (calls w1 ++ [(rq, b (calls w1) rq)])%list.
Proof.
  exact (proj2 (query_construction_is_stateless record_tools._resolve_user_id
                  cfg0 auth0) assets_of_strangers [None; None]).
Defined.

Lemma kept_none outs :
  Forall (fun o => Py.truthy o = false) outs -> kept outs = [].
Proof.
  induction 1 as [| o outs' Ho _ IH]; [reflexivity |].
  unfold kept in *. cbn [flat_map]. rewrite Ho. exact IH.
Qed.

(** C10: in [list_assets] with a non-empty [assigned_to], an entry for
    which the resolver answers [None] is left out of the identifiers of
    the [assigned_toIN] clause and the operation goes on: the clause is
    appended in any case, as the bare [assigned_toIN] when no entry
    resolves, the request is made with it, and an answer of the backend
    gives a result with [success] true. *)
Theorem list_assets_drops_unresolved_users
    (resolve_user_id : ServerConfig -> AuthManager -> string -> M (option string))
    config auth_manager params user users b w outs w1 :
  asset_tools.la_assigned_to params = Some (user :: users) ->
  resolved_in_turn resolve_user_id config auth_manager b w (user :: users) outs w1 ->
  let parts :=
    ("assigned_toIN" ++ Py.join "," (kept outs)) :: list_assets_filters params in
  let rq :=
    list_request config auth_manager "/table/alm_asset"
      (asset_tools.la_limit params) (asset_tools.la_offset params) parts in
  asset_tools.list_assets_query_parts resolve_user_id config auth_manager params b w
  = (Ok parts, w1)
  /\ (exists o w',
        asset_tools.list_assets resolve_user_id config auth_manager params b w = (o, w')
        /\ calls w' = (calls w1 ++ [(rq, b (calls w1) rq)])%list
        /\ (failure_text (b (calls w1) rq) = None ->
            exists r, o = Ok r /\ Py.get "success" r = Some (VBool true)))
  /\ query_of rq = Some (VStr (Py.join "^" parts))
  /\ (Forall (fun o => Py.truthy o = false) outs ->
      "assigned_toIN" ++ Py.join "," (kept outs) = "assigned_toIN").
Proof.
  intros Hassigned Hres parts rq.
  assert (Hparts :
    asset_tools.list_assets_query_parts resolve_user_id config auth_manager params b w
    = (Ok parts, w1)).
  { assert (Husers : users_of params = user :: users)
      by (unfold users_of; rewrite Hassigned; reflexivity).
    rewrite <- Husers in Hres.
    rewrite (list_assets_request resolve_user_id _ _ _ _ _ _ _ Hres), Husers.
    reflexivity. }
  split; [exact Hparts |]. split; [| split].
  - unfold asset_tools.list_assets. rewrite (bind_ok _ _ _ _ _ _ Hparts).
    cbv zeta. unfold try_except. rewrite request_step.
    match goal with
    | |- context [b (calls w1) ?r] => change r with rq
    end.
    destruct (b (calls w1) rq) as [e | r] eqn:Hreply.
    + eexists _, _. repeat split. discriminate.
    + cbn [failure_text]. destruct (http_error_msg r) as [e |].
      * eexists _, _. repeat split. discriminate.
      * eexists _, _. repeat split. intros _. eexists. split; reflexivity.
  - reflexivity.
  - intros Hnone. rewrite (kept_none _ Hnone). reflexivity.
Qed.

Lemma list_assets_drops_unresolved_users_witness :
  asset_tools.list_assets_query_parts record_tools._resolve_user_id cfg0 auth0
    assets_of_strangers backend_empty w0
  = (Ok ["assigned_toIN"],
     snd (asset_tools.list_assets_query_parts record_tools._resolve_user_id cfg0 auth0
            assets_of_strangers backend_empty w0)).
Proof.
  refine (proj1 (list_assets_drops_unresolved_users record_tools._resolve_user_id
                   cfg0 auth0 assets_of_strangers "nobody" ["ghost"] backend_empty w0
                   [None; None] _ eq_refl _)).
  cbn. eexists. split; [reflexivity |]. eexists. split; reflexivity.
Defined.

(** ** Operations and unresolved identifiers *)

Lemma create_problem_unresolved config auth_manager params b w w1 :
  Py.truthy (record_tools.assigned_to params) = true ->
  unresolved (record_tools._resolve_user_id config auth_manager
                (Py.the (record_tools.assigned_to params))) b w w1 ->
  record_tools.create_problem config auth_manager params b w
  = (Ok (record_tools.mkProblemResponse false
           ("Could not resolve user: " ++ Py.the (record_tools.assigned_to params))
           None None), w1).
Proof.
  intros Htrue (o & Hrun & Hfalse).
  unfold record_tools.create_problem, record_tools.create_problem_data.
  cbv zeta. rewrite Htrue.
  unfold bind at 1. unfold bind at 1. unfold bind at 1.
  rewrite Hrun, Hfalse. reflexivity.
Qed.

Lemma create_request_unresolved config auth_manager params b w w1 :
  Py.truthy_str (request_tools.cr_requested_for params) = true ->
  unresolved (request_tools._resolve_user_id config auth_manager
                (request_tools.cr_requested_for params)) b w w1 ->
  request_tools.create_request config auth_manager params b w
  = (Ok (request_tools.mkRequestAndCatalogItemResponse false
           ("Could not resolve user: " ++ request_tools.cr_requested_for params)
           None None), w1).
Proof.
  intros Htrue (o & Hrun & Hfalse).
  unfold request_tools.create_request, request_tools.create_request_body.
  cbv zeta. rewrite Htrue.
  unfold bind at 1. unfold bind at 1.
  rewrite Hrun, Hfalse. reflexivity.
Qed.

Lemma create_item_request_unresolved_user config auth_manager params b w w1 :
  Py.truthy_str (request_tools.cir_requested_for params) = true ->
  unresolved (request_tools._resolve_user_id config auth_manager
                (request_tools.cir_requested_for params)) b w w1 ->
  request_tools.create_item_request config auth_manager params b w
  = (Ok (request_tools.mkRequestAndCatalogItemResponse false
           ("Could not resolve user: " ++ request_tools.cir_requested_for params)
           None None), w1).
Proof.
  intros Htrue (o & Hrun & Hfalse).
  unfold request_tools.create_item_request, request_tools.create_item_request_body.
  cbv zeta. rewrite Htrue.
  unfold bind at 1. unfold bind at 1. unfold bind at 1.
  rewrite Hrun, Hfalse. reflexivity.
Qed.

Lemma create_item_request_unresolved_item config auth_manager params b w u w0 w1 :
  Py.truthy_str (request_tools.cir_requested_for params) = true ->
  request_tools._resolve_user_id config auth_manager
    (request_tools.cir_requested_for params) b w = (Ok u, w0) ->
  Py.truthy u = true ->
  Py.truthy_str (request_tools.cir_cat_item params) = true ->
  unresolved (request_tools._resolve_catalog_item_id config auth_manager
                (request_tools.cir_cat_item params)) b w0 w1 ->
  request_tools.create_item_request config auth_manager params b w
  = (Ok (request_tools.mkRequestAndCatalogItemResponse false
           ("Could not resolve catalog item: " ++ request_tools.cir_cat_item params)
           None None), w1).
Proof.
  intros Huser Hrun Hu Hitem (o & Hrun' & Hfalse).
  unfold request_tools.create_item_request, request_tools.create_item_request_body.
  cbv zeta. rewrite Huser, Hitem.
  unfold bind at 1. unfold bind at 1. unfold bind at 1.
  rewrite Hrun, Hu. unfold ret at 1. cbv beta iota.
  unfold bind at 1. rewrite Hrun', Hfalse. reflexivity.
Qed.

Lemma list_item_requests_unresolved_user config auth_manager params b w w1 :
  Py.truthy (request_tools.lir_requested_for params) = true ->
  unresolved (request_tools._resolve_user_id config auth_manager
                (Py.the (request_tools.lir_requested_for params))) b w w1 ->
  forall parts w2,
    request_tools.list_item_requests_query_parts config auth_manager params b w
    = (Ok parts, w2) ->
    hd_error parts
    = Some ("requested_for=" ++ Py.the (request_tools.lir_requested_for params)).
Proof.
  intros Htrue (o & Hrun & Hfalse) parts w2.
  unfold request_tools.list_item_requests_query_parts. cbv zeta. rewrite Htrue.
  unfold bind at 1. unfold bind at 1.
  rewrite Hrun, Hfalse. unfold ret at 1. cbv beta iota.
  destruct (Py.truthy (request_tools.lir_cat_item params)).
  - unfold bind.
    destruct (request_tools._resolve_catalog_item_id _ _ _ b w1) as [[item | e] w'];
      [| discriminate].
    destruct (Py.truthy item), (Py.truthy (request_tools.lir_number params)),
      (Py.truthy (request_tools.lir_short_description params));
      intros H; injection H as <- <-; reflexivity.
  - unfold bind, ret.
    destruct (Py.truthy (request_tools.lir_number params)),
      (Py.truthy (request_tools.lir_short_description params));
      intros H; injection H as <- <-; reflexivity.
Qed.

Section asset_tools_unresolved.

Variable resolve_user_id : ServerConfig -> AuthManager -> string -> M (option string).

Lemma create_asset_unresolved config auth_manager params b w w1 :
  Py.truthy (asset_tools.ca_assigned_to params) = true ->
  unresolved (resolve_user_id config auth_manager
                (Py.the (asset_tools.ca_assigned_to params))) b w w1 ->
  asset_tools.create_asset resolve_user_id config auth_manager params b w
  = (Ok (asset_tools.mkAssetResponse false
           ("Could not resolve user: " ++ Py.the (asset_tools.ca_assigned_to params))
           None None), w1).
Proof.
  intros Htrue (o & Hrun & Hfalse).
  unfold asset_tools.create_asset, asset_tools.create_asset_data.
  cbv zeta. rewrite Htrue.
  unfold bind at 1. unfold bind at 1. unfold bind at 1.
  rewrite Hrun, Hfalse. reflexivity.
Qed.

Lemma list_hardware_assets_unresolved config auth_manager params b w w1 :
  Py.truthy (asset_tools.lha_assigned_to params) = true ->
  unresolved (resolve_user_id config auth_manager
                (Py.the (asset_tools.lha_assigned_to params))) b w w1 ->
  asset_tools.list_hardware_assets_query_parts resolve_user_id config auth_manager
    params b w
  = (Ok (("assigned_to=" ++ Py.the (asset_tools.lha_assigned_to params))
         :: app (clause (asset_tools.lha_name params)
                   ("display_nameLIKE" ++ Py.the (asset_tools.lha_name params)))
                (clause (asset_tools.lha_query params)
                   ("^asset_tagLIKE" ++ Py.the (asset_tools.lha_query params)
                    ++ "^ORdisplay_nameLIKE" ++ Py.the (asset_tools.lha_query params)
                    ++ "^ORserial_numberLIKE" ++ Py.the (asset_tools.lha_query params)
                    ++ "^ORmodelLIKE" ++ Py.the (asset_tools.lha_query params)))),
     w1).
Proof.
  intros Htrue (o & Hrun & Hfalse).
  unfold asset_tools.list_hardware_assets_query_parts. cbv zeta. rewrite Htrue.
  unfold bind at 1. unfold bind at 1.
  rewrite Hrun, Hfalse. unfold ret, Py.append.
  rewrite !append_if_clause, <- !app_assoc. reflexivity.
Qed.

End asset_tools_unresolved.

Lemma truthy_some (o : option string) :
  Py.truthy o = true -> exists s, o = Some s /\ s <> "".
Proof.
  destruct o as [[| c s] |]; try discriminate.
  intros _. exists (String c s). split; [reflexivity | discriminate].
Qed.

Lemma truthy_of_nonempty (s : string) : s <> "" -> Py.truthy (Some s) = true.
Proof. destruct s; [congruence | reflexivity]. Qed.

Section asset_tools_more.

Variable resolve_user_id : ServerConfig -> AuthManager -> string -> M (option string).
Variable resolve_asset_id : ServerConfig -> AuthManager -> string -> M (option string).

Lemma update_asset_unresolved config auth_manager params b w w1 :
  unresolved (resolve_asset_id config auth_manager (asset_tools.ua_asset_id params))
    b w w1 ->
  asset_tools.update_asset resolve_user_id resolve_asset_id config auth_manager
    params b w
  = (Ok (asset_tools.mkAssetResponse false
           ("Could not find asset: " ++ asset_tools.ua_asset_id params) None None),
     w1).
Proof.
  intros (o & Hrun & Hfalse).
  unfold asset_tools.update_asset, asset_tools.update_asset_data.
  unfold bind at 1. unfold bind at 1. rewrite Hrun, Hfalse. reflexivity.
Qed.

Lemma delete_asset_unresolved config auth_manager params b w w1 :
  unresolved (resolve_asset_id config auth_manager (asset_tools.da_asset_id params))
    b w w1 ->
  asset_tools.delete_asset resolve_asset_id config auth_manager params b w
  = (Ok (asset_tools.mkAssetResponse false
           ("Could not find asset: " ++ asset_tools.da_asset_id params) None None),
     w1).
Proof.
  intros (o & Hrun & Hfalse).
  unfold asset_tools.delete_asset, asset_tools.delete_asset_target.
  unfold bind at 1. unfold bind at 1. rewrite Hrun, Hfalse. reflexivity.
Qed.

Lemma transfer_asset_unresolved config auth_manager params b w w1 :
  unresolved (resolve_asset_id config auth_manager (asset_tools.ta_asset_id params))
    b w w1 ->
  asset_tools.transfer_asset resolve_user_id resolve_asset_id config auth_manager
    params b w
  = (Ok (asset_tools.mkAssetResponse false
           ("Could not find asset: " ++ asset_tools.ta_asset_id params) None None),
     w1).
Proof.
  intros (o & Hrun & Hfalse).
  unfold asset_tools.transfer_asset, asset_tools.transfer_asset_data.
  unfold bind at 1. unfold bind at 1. rewrite Hrun, Hfalse. reflexivity.
Qed.

End asset_tools_more.


(** C4, as stated, fails: [jdoe] does not resolve, and
    [list_item_requests] puts it in the query all the same and
    succeeds. *)
Lemma unresolved_user_reaches_the_query :
  fst (request_tools._resolve_user_id cfg0 auth0 "jdoe" backend_empty w0) = Ok None
  /\ fst (request_tools.list_item_requests cfg0 auth0 requests_of_jdoe
            backend_empty w0)
     = Ok [("success", VBool true);
           ("message", VStr "Found 0 item requests");
           ("item_requests", VRows []);
           ("count", VInt 0)]
  /\ map query_of
       (map fst (calls (snd (request_tools.list_item_requests cfg0 auth0
                               requests_of_jdoe backend_empty w0))))
     = [Some (VStr "user_name=jdoe"); Some (VStr "email=jdoe");
        Some (VStr "requested_for=jdoe")].
Proof. repeat split; vm_compute; reflexivity. Qed.

Lemma list_try_block rq (result_of : Response -> pydict) (msg : string -> string)
    (fail : string -> pydict) b w1 :
  (forall r, Py.get "success" (result_of r) = Some (VBool true)) ->
  exists o w',
    try_except
      (response <- requests_call rq ;; raise_for_status response ;;;
       ret (result_of response))
      (fun e => logger_error (msg e) ;;; ret (fail e)) b w1 = (o, w')
    /\ calls w' = (calls w1 ++ [(rq, b (calls w1) rq)])%list
    /\ (failure_text (b (calls w1) rq) = None ->
        exists r, o = Ok r /\ Py.get "success" r = Some (VBool true)).
Proof.
  intros Hk. unfold try_except. rewrite request_step.
  destruct (b (calls w1) rq) as [e | r] eqn:Hreply.
  - eexists _, _. repeat split. discriminate.
  - cbn [failure_text]. destruct (http_error_msg r) as [e |].
    + eexists _, _. repeat split. discriminate.
    + eexists _, _. repeat split. intros _. exists (result_of r).
      split; [reflexivity | apply Hk].
Qed.

Lemma list_request_query config auth_manager table limit offset part parts :
  query_of (list_request config auth_manager table limit offset (part :: parts))
  = Some (VStr (String.concat "^" (part :: parts))).
Proof.
  unfold query_of, list_request, get_request. cbn [req_params].
  rewrite get_sysparm_query, join_concat. reflexivity.
Qed.

Lemma list_item_requests_proceeds config auth_manager params b w parts w2 clause_in :
  request_tools.list_item_requests_query_parts config auth_manager params b w
  = (Ok parts, w2) ->
  In clause_in parts ->
  proceeds_with_clause (request_tools.list_item_requests config auth_manager params)
    (list_request config auth_manager "/table/sc_req_item"
       (request_tools.lir_limit params) (request_tools.lir_offset params))
    clause_in b w w2.
Proof.
  intros Hparts Hin.
  destruct (list_try_block
              (list_request config auth_manager "/table/sc_req_item"
                 (request_tools.lir_limit params) (request_tools.lir_offset params)
                 parts)
              (fun response =>
                 let result := json_get_result response (RList []) in
                 [("success", VBool true);
                      ("message",
                       VStr ("Found " ++ Py.str_int (Z.of_nat (result_len result))
                             ++ " item requests"));
                      ("item_requests", result_val result);
                      ("count", VInt (Z.of_nat (result_len result)))])
              (fun e => "Failed to list item requests: " ++ e)
              (fun e => [("success", VBool false);
                         ("message", VStr ("Failed to list item requests: " ++ e))])
              b w2) as (o & w' & Hrun & Hcalls & Hok).
  { intros r. reflexivity. }
  exists o, w', parts. split; [| split; [exact Hin | split; [exact Hcalls |]]].
  - unfold request_tools.list_item_requests. rewrite (bind_ok _ _ _ _ _ _ Hparts).
    exact Hrun.
  - split; [| exact Hok]. destruct parts as [| part rest]; [contradiction |].
    apply list_request_query.
Qed.

Lemma list_item_requests_unresolved_item config auth_manager params b w w0 w1 :
  Py.truthy (request_tools.lir_cat_item params) = true ->
  (if Py.truthy (request_tools.lir_requested_for params)
   then exists u,
          request_tools._resolve_user_id config auth_manager
            (Py.the (request_tools.lir_requested_for params)) b w = (Ok u, w0)
   else w0 = w) ->
  unresolved (request_tools._resolve_catalog_item_id config auth_manager
                (Py.the (request_tools.lir_cat_item params))) b w0 w1 ->
  exists parts,
    request_tools.list_item_requests_query_parts config auth_manager params b w
    = (Ok parts, w1)
    /\ In ("cat_item=" ++ Py.the (request_tools.lir_cat_item params)) parts.
Proof.
  intros Hitem Huser (o & Hrun & Hfalse).
  unfold request_tools.list_item_requests_query_parts. cbv zeta. rewrite Hitem.
  unfold Py.append.
  destruct (Py.truthy (request_tools.lir_requested_for params)).
  - destruct Huser as (u & Hu).
    unfold bind at 1. unfold bind at 1. rewrite Hu.
    destruct (Py.truthy u); unfold ret at 1; cbv beta iota;
      unfold bind at 1; unfold bind at 1; rewrite Hrun, Hfalse;
      unfold ret; cbv beta iota;
      destruct (Py.truthy (request_tools.lir_number params)),
        (Py.truthy (request_tools.lir_short_description params));
      eexists; (split; [reflexivity |]); cbn; tauto.
  - subst w0. unfold bind at 1. unfold ret at 1. cbv beta iota.
    unfold bind at 1. unfold bind at 1. rewrite Hrun, Hfalse.
    unfold ret; cbv beta iota;
      destruct (Py.truthy (request_tools.lir_number params)),
        (Py.truthy (request_tools.lir_short_description params));
      eexists; (split; [reflexivity |]); cbn; tauto.
Qed.

Section asset_tools_unresolved_more.

Variable resolve_user_id : ServerConfig -> AuthManager -> string -> M (option string).
Variable resolve_asset_id : ServerConfig -> AuthManager -> string -> M (option string).

Lemma list_hardware_assets_proceeds config auth_manager params b w parts w1 clause_in :
  asset_tools.list_hardware_assets_query_parts resolve_user_id config auth_manager
    params b w = (Ok parts, w1) ->
  In clause_in parts ->
  proceeds_with_clause
    (asset_tools.list_hardware_assets resolve_user_id config auth_manager params)
    (list_request config auth_manager "/table/alm_hardware"
       (asset_tools.lha_limit params) (asset_tools.lha_offset params))
    clause_in b w w1.
Proof.
  intros Hparts Hin.
  destruct (list_try_block
              (list_request config auth_manager "/table/alm_hardware"
                 (asset_tools.lha_limit params) (asset_tools.lha_offset params) parts)
              (fun response =>
                 let result := json_get_result response (RList []) in
                 [("success", VBool true);
                      ("message",
                       VStr ("Found " ++ Py.str_int (Z.of_nat (result_len result))
                             ++ " hardware assets"));
                      ("hardware_assets", result_val result);
                      ("count", VInt (Z.of_nat (result_len result)))])
              (fun e => "Failed to list hardware assets: " ++ e)
              (fun e => [("success", VBool false);
                         ("message", VStr ("Failed to list hardware assets: " ++ e))])
              b w1) as (o & w' & Hrun & Hcalls & Hok).
  { intros r. reflexivity. }
  exists o, w', parts. split; [| split; [exact Hin | split; [exact Hcalls |]]].
  - unfold asset_tools.list_hardware_assets. rewrite (bind_ok _ _ _ _ _ _ Hparts).
    exact Hrun.
  - split; [| exact Hok]. destruct parts as [| part rest]; [contradiction |].
    apply list_request_query.
Qed.

Lemma list_assets_proceeds config auth_manager params b w user users outs w1 :
  asset_tools.la_assigned_to params = Some (user :: users) ->
  resolved_in_turn resolve_user_id config auth_manager b w (user :: users) outs w1 ->
  proceeds_with_clause
    (asset_tools.list_assets resolve_user_id config auth_manager params)
    (list_request config auth_manager "/table/alm_asset"
       (asset_tools.la_limit params) (asset_tools.la_offset params))
    ("assigned_toIN" ++ Py.join "," (kept outs)) b w w1.
Proof.
  intros Hassigned Hres.
  assert (Hparts :
    asset_tools.list_assets_query_parts resolve_user_id config auth_manager params b w
    = (Ok (("assigned_toIN" ++ Py.join "," (kept outs)) :: list_assets_filters params),
       w1)).
  { assert (Husers : users_of params = user :: users)
      by (unfold users_of; rewrite Hassigned; reflexivity).
    rewrite <- Husers in Hres.
    rewrite (list_assets_request resolve_user_id _ _ _ _ _ _ _ Hres), Husers.
    reflexivity. }
  destruct (list_try_block
              (list_request config auth_manager "/table/alm_asset"
                 (asset_tools.la_limit params) (asset_tools.la_offset params)
                 (("assigned_toIN" ++ Py.join "," (kept outs))
                  :: list_assets_filters params))
              (fun response =>
                 let result := json_get_result response (RList []) in
                 [("success", VBool true);
                      ("message",
                       VStr ("Found " ++ Py.str_int (Z.of_nat (result_len result))
                             ++ " assets"));
                      ("assets", result_val result);
                      ("count", VInt (Z.of_nat (result_len result)))])
              (fun e => "Failed to list assets: " ++ e)
              (fun e => [("success", VBool false);
                         ("message", VStr ("Failed to list assets: " ++ e))])
              b w1) as (o & w' & Hrun & Hcalls & Hok).
  { intros r. reflexivity. }
  exists o, w', (("assigned_toIN" ++ Py.join "," (kept outs))
                 :: list_assets_filters params).
  split; [| split; [left; reflexivity | split; [exact Hcalls |]]].
  - unfold asset_tools.list_assets. rewrite (bind_ok _ _ _ _ _ _ Hparts).
    exact Hrun.
  - split; [apply list_request_query | exact Hok].
Qed.

Lemma update_asset_unresolved_user config auth_manager params b w a w0 w1 :
  resolve_asset_id config auth_manager (asset_tools.ua_asset_id params) b w
  = (Ok a, w0) ->
  Py.truthy a = true ->
  Py.truthy (asset_tools.ua_assigned_to params) = true ->
  unresolved (resolve_user_id config auth_manager
                (Py.the (asset_tools.ua_assigned_to params))) b w0 w1 ->
  asset_tools.update_asset resolve_user_id resolve_asset_id config auth_manager
    params b w
  = (Ok (asset_tools.mkAssetResponse false
           ("Could not resolve user: " ++ Py.the (asset_tools.ua_assigned_to params))
           None None), w1).
Proof.
  intros Hasset Ha Htrue (o & Hrun & Hfalse).
  unfold asset_tools.update_asset, asset_tools.update_asset_data.
  unfold bind at 1. unfold bind at 1. rewrite Hasset, Ha. cbn [negb]. cbv zeta.
  rewrite Htrue. unfold bind at 1. unfold bind at 1. rewrite Hrun, Hfalse.
  reflexivity.
Qed.

Lemma transfer_asset_unresolved_user config auth_manager params b w a w0 w1 :
  resolve_asset_id config auth_manager (asset_tools.ta_asset_id params) b w
  = (Ok a, w0) ->
  Py.truthy a = true ->
  unresolved (resolve_user_id config auth_manager
                (asset_tools.ta_new_assigned_to params)) b w0 w1 ->
  asset_tools.transfer_asset resolve_user_id resolve_asset_id config auth_manager
    params b w
  = (Ok (asset_tools.mkAssetResponse false
           ("Could not resolve user: " ++ asset_tools.ta_new_assigned_to params)
           None None), w1).
Proof.
  intros Hasset Ha (o & Hrun & Hfalse).
  unfold asset_tools.transfer_asset, asset_tools.transfer_asset_data.
  unfold bind at 1. unfold bind at 1. rewrite Hasset, Ha. cbn [negb].
  unfold bind at 1. rewrite Hrun, Hfalse. reflexivity.
Qed.

End asset_tools_unresolved_more.

(** C4, amended: when the resolver ends without an identifier, the
    operations that create or change a record ([create_problem],
    [create_request], [create_item_request], [create_asset],
    [update_asset], [delete_asset], [transfer_asset]) return the
    failure ["Could not resolve user: ..."] (["... catalog item:
    ..."], ["Could not find asset: ..."]) in the world the resolver
    left, so they make no further call and the input reaches no
    payload.  The operations that list records do not fail:
    [list_item_requests] and [list_hardware_assets] issue their
    request with the clause on the input as it was given in the query
    string, [list_assets] with a membership clause from which the
    unresolved entries are left out; an answer to that request gives
    a result with [success] true. *)
Theorem unresolved_identifier_handling
    (resolve_user_id resolve_asset_id :
       ServerConfig -> AuthManager -> string -> M (option string))
    config auth_manager b w w1 :
  (forall params,
      Py.truthy (record_tools.assigned_to params) = true ->
      unresolved (record_tools._resolve_user_id config auth_manager
                    (Py.the (record_tools.assigned_to params))) b w w1 ->
      record_tools.create_problem config auth_manager params b w
      = (Ok (record_tools.mkProblemResponse false
               ("Could not resolve user: " ++ Py.the (record_tools.assigned_to params))
               None None), w1))
  /\ (forall params,
        Py.truthy_str (request_tools.cr_requested_for params) = true ->
        unresolved (request_tools._resolve_user_id config auth_manager
                      (request_tools.cr_requested_for params)) b w w1 ->
        request_tools.create_request config auth_manager params b w
        = (Ok (request_tools.mkRequestAndCatalogItemResponse false
                 ("Could not resolve user: " ++ request_tools.cr_requested_for params)
                 None None), w1))
  /\ (forall params,
        Py.truthy_str (request_tools.cir_requested_for params) = true ->
        unresolved (request_tools._resolve_user_id config auth_manager
                      (request_tools.cir_requested_for params)) b w w1 ->
        request_tools.create_item_request config auth_manager params b w
        = (Ok (request_tools.mkRequestAndCatalogItemResponse false
                 ("Could not resolve user: " ++ request_tools.cir_requested_for params)
                 None None), w1))
  /\ (forall params u w0,
        Py.truthy_str (request_tools.cir_requested_for params) = true ->
        request_tools._resolve_user_id config auth_manager
          (request_tools.cir_requested_for params) b w = (Ok u, w0) ->
        Py.truthy u = true ->
        Py.truthy_str (request_tools.cir_cat_item params) = true ->
        unresolved (request_tools._resolve_catalog_item_id config auth_manager
                      (request_tools.cir_cat_item params)) b w0 w1 ->
        request_tools.create_item_request config auth_manager params b w
        = (Ok (request_tools.mkRequestAndCatalogItemResponse false
                 ("Could not resolve catalog item: "
                  ++ request_tools.cir_cat_item params)
                 None None), w1))
  /\ (forall params,
        Py.truthy (asset_tools.ca_assigned_to params) = true ->
        unresolved (resolve_user_id config auth_manager
                      (Py.the (asset_tools.ca_assigned_to params))) b w w1 ->
        asset_tools.create_asset resolve_user_id config auth_manager params b w
        = (Ok (asset_tools.mkAssetResponse false
                 ("Could not resolve user: "
                  ++ Py.the (asset_tools.ca_assigned_to params))
                 None None), w1))
  /\ (forall params,
        unresolved (resolve_asset_id config auth_manager
                      (asset_tools.ua_asset_id params)) b w w1 ->
        asset_tools.update_asset resolve_user_id resolve_asset_id config auth_manager
          params b w
        = (Ok (asset_tools.mkAssetResponse false
                 ("Could not find asset: " ++ asset_tools.ua_asset_id params)
                 None None), w1))
  /\ (forall params a w0,
        resolve_asset_id config auth_manager (asset_tools.ua_asset_id params) b w
        = (Ok a, w0) ->
        Py.truthy a = true ->
        Py.truthy (asset_tools.ua_assigned_to params) = true ->
        unresolved (resolve_user_id config auth_manager
                      (Py.the (asset_tools.ua_assigned_to params))) b w0 w1 ->
        asset_tools.update_asset resolve_user_id resolve_asset_id config auth_manager
          params b w
        = (Ok (asset_tools.mkAssetResponse false
                 ("Could not resolve user: "
                  ++ Py.the (asset_tools.ua_assigned_to params))
                 None None), w1))
  /\ (forall params,
        unresolved (resolve_asset_id config auth_manager
                      (asset_tools.da_asset_id params)) b w w1 ->
        asset_tools.delete_asset resolve_asset_id config auth_manager params b w
        = (Ok (asset_tools.mkAssetResponse false
                 ("Could not find asset: " ++ asset_tools.da_asset_id params)
                 None None), w1))
  /\ (forall params,
        unresolved (resolve_asset_id config auth_manager
                      (asset_tools.ta_asset_id params)) b w w1 ->
        asset_tools.transfer_asset resolve_user_id resolve_asset_id config
          auth_manager params b w
        = (Ok (asset_tools.mkAssetResponse false
                 ("Could not find asset: " ++ asset_tools.ta_asset_id params)
                 None None), w1))
  /\ (forall params a w0,
        resolve_asset_id config auth_manager (asset_tools.ta_asset_id params) b w
        = (Ok a, w0) ->
        Py.truthy a = true ->
        unresolved (resolve_user_id config auth_manager
                      (asset_tools.ta_new_assigned_to params)) b w0 w1 ->
        asset_tools.transfer_asset resolve_user_id resolve_asset_id config
          auth_manager params b w
        = (Ok (asset_tools.mkAssetResponse false
                 ("Could not resolve user: " ++ asset_tools.ta_new_assigned_to params)
                 None None), w1))
  /\ (forall params,
        Py.truthy (request_tools.lir_requested_for params) = true ->
        unresolved (request_tools._resolve_user_id config auth_manager
                      (Py.the (request_tools.lir_requested_for params))) b w w1 ->
        forall parts w2,
          request_tools.list_item_requests_query_parts config auth_manager params b w
          = (Ok parts, w2) ->
          proceeds_with_clause
            (request_tools.list_item_requests config auth_manager params)
            (list_request config auth_manager "/table/sc_req_item"
               (request_tools.lir_limit params) (request_tools.lir_offset params))
            ("requested_for=" ++ Py.the (request_tools.lir_requested_for params))
            b w w2)
  /\ (forall params w0,
        Py.truthy (request_tools.lir_cat_item params) = true ->
        (if Py.truthy (request_tools.lir_requested_for params)
         then exists u,
                request_tools._resolve_user_id config auth_manager
                  (Py.the (request_tools.lir_requested_for params)) b w = (Ok u, w0)
         else w0 = w) ->
        unresolved (request_tools._resolve_catalog_item_id config auth_manager
                      (Py.the (request_tools.lir_cat_item params))) b w0 w1 ->
        proceeds_with_clause
          (request_tools.list_item_requests config auth_manager params)
          (list_request config auth_manager "/table/sc_req_item"
             (request_tools.lir_limit params) (request_tools.lir_offset params))
          ("cat_item=" ++ Py.the (request_tools.lir_cat_item params))
          b w w1)
  /\ (forall params,
        Py.truthy (asset_tools.lha_assigned_to params) = true ->
        unresolved (resolve_user_id config auth_manager
                      (Py.the (asset_tools.lha_assigned_to params))) b w w1 ->
        proceeds_with_clause
          (asset_tools.list_hardware_assets resolve_user_id config auth_manager params)
          (list_request config auth_manager "/table/alm_hardware"
             (asset_tools.lha_limit params) (asset_tools.lha_offset params))
          ("assigned_to=" ++ Py.the (asset_tools.lha_assigned_to params))
          b w w1)
  /\ (forall params user users outs,
        asset_tools.la_assigned_to params = Some (user :: users) ->
        resolved_in_turn resolve_user_id config auth_manager b w (user :: users)
          outs w1 ->
        proceeds_with_clause
          (asset_tools.list_assets resolve_user_id config auth_manager params)
          (list_request config auth_manager "/table/alm_asset"
             (asset_tools.la_limit params) (asset_tools.la_offset params))
          ("assigned_toIN" ++ Py.join "," (kept outs))
          b w w1).
Proof.
  repeat split; intros params.
  - apply create_problem_unresolved.
  - apply create_request_unresolved.
  - apply create_item_request_unresolved_user.
  - intros u w0. apply create_item_request_unresolved_item.
  - apply create_asset_unresolved.
  - apply update_asset_unresolved.
  - intros a w0. apply update_asset_unresolved_user.
  - apply delete_asset_unresolved.
  - apply transfer_asset_unresolved.
  - intros a w0. apply transfer_asset_unresolved_user.
  - intros Htrue Hun parts w2 Hparts.
    apply (list_item_requests_proceeds _ _ _ _ _ _ _ _ Hparts).
    pose proof (list_item_requests_unresolved_user _ _ _ _ _ _ Htrue Hun _ _ Hparts)
      as Hhead.
    destruct parts as [| part rest]; [discriminate |].
    injection Hhead as ->. left. reflexivity.
  - intros w0 Hitem Huser Hun.
    destruct (list_item_requests_unresolved_item _ _ _ _ _ _ _ Hitem Huser Hun)
      as (parts & Hparts & Hin).
    exact (list_item_requests_proceeds _ _ _ _ _ _ _ _ Hparts Hin).
  - intros Htrue Hun.
    pose proof (list_hardware_assets_unresolved resolve_user_id _ _ _ _ _ _ Htrue Hun)
      as Hparts.
    apply (list_hardware_assets_proceeds resolve_user_id _ _ _ _ _ _ _ _ Hparts).
    left. reflexivity.
  - intros user users outs. apply list_assets_proceeds.
Qed.

Lemma unresolved_identifier_handling_witness :
  (exists w1,
      record_tools.create_problem cfg0 auth0 problem_for_jdoe backend_empty w0
      = (Ok (record_tools.mkProblemResponse false "Could not resolve user: jdoe"
               None None), w1)
      /\ map query_of (map fst (calls w1))
         = [Some (VStr "user_name=jdoe"); Some (VStr "email=jdoe")])
  /\ (exists w2,
        proceeds_with_clause
          (request_tools.list_item_requests cfg0 auth0 requests_of_jdoe)
          (list_request cfg0 auth0 "/table/sc_req_item" 10 0)
          "requested_for=jdoe" backend_empty w0 w2
        /\ map query_of (map fst (calls w2))
           = [Some (VStr "user_name=jdoe"); Some (VStr "email=jdoe")]).
Proof.
  split.
  - eexists. split.
    + apply (proj1 (unresolved_identifier_handling record_tools._resolve_user_id
                      record_tools._resolve_user_id
                      cfg0 auth0 backend_empty w0 _) problem_for_jdoe).
      * reflexivity.
      * exists None. split; reflexivity.
    + reflexivity.
  - eexists. split.
    + refine (proj1 (proj2 (proj2 (proj2 (proj2 (proj2 (proj2 (proj2 (proj2 (proj2
               (proj2
                  (unresolved_identifier_handling record_tools._resolve_user_id
                     record_tools._resolve_user_id
                     cfg0 auth0 backend_empty w0 _))))))))))) requests_of_jdoe
               eq_refl _ _ _ eq_refl).
      exists None. split; reflexivity.
    + reflexivity.
Defined.

(** ** Empty identifiers *)


Lemma create_problem_posts_its_data config auth_manager params b w data w1 :
  record_tools.create_problem_data config auth_manager params b w
  = (Ok (inr data), w1) ->
  exists o w',
    record_tools.create_problem config auth_manager params b w = (o, w')
    /\ calls w'
       = (calls w1
          ++ [(record_tools.problem_request config auth_manager data,
               b (calls w1)
                 (record_tools.problem_request config auth_manager data))])%list.
Proof.
  intros Hdata. unfold record_tools.create_problem.
  rewrite (bind_ok _ _ _ _ _ _ Hdata).
  apply (single_request_issues _ _ (fun e => "Failed to create problem: " ++ e)).
  intros r. inspect.
Qed.



Section asset_tools_empty.

Variable resolve_user_id : ServerConfig -> AuthManager -> string -> M (option string).
Variable resolve_asset_id : ServerConfig -> AuthManager -> string -> M (option string).




End asset_tools_empty.



(** * Further properties of the tools *)

(** ** Dictionaries *)

Lemma get_set_same {V} key (v : V) d : Py.get key (Py.set key v d) = Some v.
Proof.
  induction d as [| [k v0] rest IH]; cbn.
  - rewrite String.eqb_refl. reflexivity.
  - destruct (String.eqb k key) eqn:E; cbn; rewrite E; [reflexivity | exact IH].
Qed.

Lemma get_set_other {V} key key' (v : V) d :
  key' <> key -> Py.get key' (Py.set key v d) = Py.get key' d.
Proof.
  intros Hne. induction d as [| [k v0] rest IH]; cbn.
  - destruct (String.eqb key key') eqn:E; [| reflexivity].
    apply String.eqb_eq in E. congruence.
  - destruct (String.eqb k key) eqn:E; cbn.
    + apply String.eqb_eq in E. subst k.
      destruct (String.eqb key key') eqn:E'; [| reflexivity].
      apply String.eqb_eq in E'. congruence.
    + destruct (String.eqb k key'); [reflexivity | exact IH].
Qed.

Lemma get_set_fields_other items : forall key (data : pydict),
  ~ In key (map fst items) ->
  Py.get key (record_tools.set_fields items data) = Py.get key data.
Proof.
  induction items as [| [field value] rest IH]; intros key data Hnot; [reflexivity |].
  cbn [record_tools.set_fields]. rewrite IH.
  - apply get_set_other. intros ->. apply Hnot. left. reflexivity.
  - intros Hin. apply Hnot. right. exact Hin.
Qed.

Lemma get_set_fields_in items : forall key value (data : pydict),
  NoDup (map fst items) -> In (key, value) items ->
  Py.get key (record_tools.set_fields items data) = Some (VStr value).
Proof.
  induction items as [| [field v] rest IH]; intros key value data Hnodup Hin;
    [contradiction |].
  cbn [map fst] in Hnodup. inversion Hnodup as [| ? ? Hnot Hrest]; subst.
  cbn [record_tools.set_fields]. destruct Hin as [Heq | Hin].
  - injection Heq as -> ->. rewrite get_set_fields_other by exact Hnot.
    apply get_set_same.
  - apply IH; assumption.
Qed.

(** ** More on the resolvers *)

(** X1: an identifier of 32 lower-case hexadecimal digits is returned
    as it is by each of the three resolvers, whatever the backend: no
    call is made and nothing is logged. *)
Theorem lower_case_id_is_returned_unchanged config auth_manager s b w :
  lowercase_id s = true ->
  request_tools._resolve_user_id config auth_manager s b w = (Ok (Some s), w)
  /\ request_tools._resolve_catalog_item_id config auth_manager s b w
     = (Ok (Some s), w)
  /\ record_tools._resolve_user_id config auth_manager s b w = (Ok (Some s), w).
Proof.
  intros Hshape.
  rewrite request_tools_resolve_user_id_eq, request_tools_resolve_catalog_item_id_eq,
    record_tools_resolve_user_id_eq.
  rewrite Hshape, (lowercase_is_canonical _ Hshape). repeat split.
Qed.

Lemma lower_case_id_is_returned_unchanged_witness :
  request_tools._resolve_user_id cfg0 auth0 lower_id backend_down w0
  = (Ok (Some lower_id), w0).
Proof.
  apply (lower_case_id_is_returned_unchanged cfg0 auth0 lower_id backend_down w0).
  reflexivity.
Defined.

Lemma resolve_loop_requests b cands w :
  exists xs,
    calls (snd (resolve_loop cands b w)) = (calls w ++ xs)%list
    /\ map fst xs = firstn (length xs) (map fst cands)
    /\ (cands <> [] -> xs <> []).
Proof.
  destruct (resolve_loop cands b w) as [o w'] eqn:Hrun.
  destruct (resolve_loop_post _ _ _ _ _ Hrun) as (xs & Hcalls & _ & _ & Hpost).
  exists xs. split; [exact Hcalls |].
  destruct o as [v | e].
  - destruct Hpost as [(pre & x & row & others & Hxs & _ & _ & _ & Hreq) | (_ & Hreq & _)].
    + split; [exact Hreq |]. intros _. rewrite Hxs. destruct pre; discriminate.
    + split.
      * assert (Hlen : length xs = length (map fst cands))
          by (rewrite <- Hreq, length_map; reflexivity).
        rewrite Hlen, firstn_all. exact Hreq.
      * intros Hne ->. cbn in Hreq. destruct cands; [congruence | discriminate].
  - destruct Hpost as (_ & pre & x & Hxs & _ & _ & Hreq).
    split; [exact Hreq |]. intros _. rewrite Hxs. destruct pre; discriminate.
Qed.

(** X2: whatever the backend answers, a resolver makes at most one call
    per candidate field, in their order: its requests are a prefix of
    the two lookups for a user, of the three for a catalog item. *)
Theorem resolver_requests_are_a_prefix_of_the_candidates config auth_manager s b w :
  (exists xs,
      calls (snd (request_tools._resolve_user_id config auth_manager s b w))
      = (calls w ++ xs)%list
      /\ map fst xs = firstn (length xs) (user_candidates config auth_manager s)
      /\ length xs <= 2)
  /\ (exists xs,
        calls (snd (record_tools._resolve_user_id config auth_manager s b w))
        = (calls w ++ xs)%list
        /\ map fst xs = firstn (length xs) (user_candidates config auth_manager s)
        /\ length xs <= 2)
  /\ (exists xs,
        calls (snd (request_tools._resolve_catalog_item_id config auth_manager s b w))
        = (calls w ++ xs)%list
        /\ map fst xs = firstn (length xs) (catalog_candidates config auth_manager s)
        /\ length xs <= 3).
Proof.
  assert (Hloop : forall cands : list (Request * (string -> string)),
             exists xs,
               calls (snd (resolve_loop cands b w)) = (calls w ++ xs)%list
               /\ map fst xs = firstn (length xs) (map fst cands)
               /\ length xs <= length cands).
  { intros cands. destruct (resolve_loop_requests b cands w) as (xs & Hcalls & Hreq & _).
    exists xs. repeat split; auto.
    apply (f_equal (@length _)) in Hreq.
    rewrite length_map, length_firstn, length_map in Hreq.
    apply Nat.min_l_iff. symmetry. exact Hreq. }
  assert (Hret : forall cands : list Request,
             exists xs : list Exchange,
               calls w = (calls w ++ xs)%list
               /\ map fst xs = firstn (length xs) cands /\ length xs <= 0).
  { intros cands. exists []. rewrite app_nil_r.
    split; [reflexivity | split; [reflexivity | apply le_n]]. }
  rewrite request_tools_resolve_user_id_eq, request_tools_resolve_catalog_item_id_eq,
    record_tools_resolve_user_id_eq.
  split; [| split].
  - destruct (lowercase_id s).
    + destruct (Hret (user_candidates config auth_manager s)) as (xs & H1 & H2 & H3).
      exists xs. repeat split; auto; lia.
    + apply (Hloop (user_lookups config auth_manager s)).
  - destruct (canonical_id s).
    + destruct (Hret (user_candidates config auth_manager s)) as (xs & H1 & H2 & H3).
      exists xs. repeat split; auto; lia.
    + apply (Hloop (user_lookups config auth_manager s)).
  - destruct (lowercase_id s).
    + destruct (Hret (catalog_candidates config auth_manager s)) as (xs & H1 & H2 & H3).
      exists xs. repeat split; auto; lia.
    + apply (Hloop (catalog_lookups config auth_manager s)).
Qed.

(** X3: the two copies of [_resolve_user_id] behave alike, in answer,
    calls and log, exactly on the inputs that are not an identifier of
    32 hexadecimal digits with an upper-case digit among them; on
    those identifiers their runs differ. *)
Theorem user_resolvers_differ_on_upper_case_ids_only config auth_manager s b w :
  request_tools._resolve_user_id config auth_manager s b w
  = record_tools._resolve_user_id config auth_manager s b w
  <-> ~ (canonical_id s = true /\ lowercase_id s = false).
Proof.
  rewrite request_tools_resolve_user_id_eq, record_tools_resolve_user_id_eq.
  destruct (canonical_id s) eqn:Hc, (lowercase_id s) eqn:Hl.
  - split; [intros _ [_ H]; discriminate | reflexivity].
  - split; [| intros H; exfalso; apply H; split; reflexivity].
    intros Heq _.
    destruct (resolve_loop_requests b (user_lookups config auth_manager s) w)
      as (xs & Hcalls & _ & Hne).
    rewrite Heq in Hcalls. cbn in Hcalls.
    apply (f_equal (@length _)) in Hcalls. rewrite length_app in Hcalls.
    assert (xs <> []) by (apply Hne; discriminate).
    destruct xs; [congruence | cbn in Hcalls; lia].
  - apply lowercase_is_canonical in Hl. congruence.
  - split; [intros _ [H _]; discriminate | reflexivity].
Qed.

(** X4: an answer whose ["result"] is a non-empty object, not a list,
    is not handled: the first lookup of [_resolve_user_id] raises a
    [KeyError] at [result[0]], after that single call and without a
    log entry, and the exception leaves [create_request] as well. *)
Theorem object_answer_raises_key_error config auth_manager s b w r kv row :
  lowercase_id s = false ->
  b (calls w) (user_query config auth_manager s "user_name") = Answered r ->
  http_error_msg r = None ->
  json_result r = Some (RDict (kv :: row)) ->
  request_tools._resolve_user_id config auth_manager s b w
  = (Raise KeyError,
     record_call w (user_query config auth_manager s "user_name", Answered r))
  /\ (forall state approval,
        Py.truthy_str s = true ->
        request_tools.create_request config auth_manager
          (request_tools.mkCreateRequestParams s state approval) b w
        = (Raise KeyError,
           record_call w (user_query config auth_manager s "user_name", Answered r))).
Proof.
  intros Hshape Hreply Hstatus Hjson.
  assert (Hrun : request_tools._resolve_user_id config auth_manager s b w
                 = (Raise KeyError,
                    record_call w
                      (user_query config auth_manager s "user_name", Answered r))).
  { rewrite request_tools_resolve_user_id_eq, Hshape.
    unfold resolve_loop, user_lookups. cbn [for_in fst snd].
    unfold bind at 1. rewrite lookup_run. cbv zeta.
    rewrite Hreply. cbn [failure_text]. rewrite Hstatus.
    unfold json_get_result. rewrite Hjson. reflexivity. }
  split; [exact Hrun |].
  intros state approval Htrue.
  unfold request_tools.create_request, request_tools.create_request_body.
  cbv zeta. cbn [request_tools.cr_requested_for]. rewrite Htrue.
  unfold bind at 1. unfold bind at 1. rewrite Hrun. reflexivity.
Qed.

Lemma object_answer_raises_key_error_witness :
  request_tools.create_request cfg0 auth0 request_for_jdoe backend_object w0
  = (Raise KeyError,
     record_call w0
       (user_query cfg0 auth0 "jdoe" "user_name",
        Answered (mkResponse 200 "OK" "" (Some (RDict [("error", "Unexpected")]))
                    "{'result': {'error': 'Unexpected'}}"))).
Proof.
  apply (proj2 (object_answer_raises_key_error cfg0 auth0 "jdoe" backend_object w0
                  (mkResponse 200 "OK" "" (Some (RDict [("error", "Unexpected")]))
                     "{'result': {'error': 'Unexpected'}}")
                  ("error", "Unexpected") [] eq_refl eq_refl eq_refl eq_refl)).
  reflexivity.
Defined.

(** ** More on the operations of the claims *)

(** X5: when the backend accepts the new problem but its answer carries
    no [sys_id], [create_problem] does not return: building the
    success message adds [None] to a string, and the [TypeError]
    leaves the operation after the POST was made. *)
Theorem create_problem_needs_the_sys_id config auth_manager params b w data w1 r row :
  record_tools.create_problem_data config auth_manager params b w
  = (Ok (inr data), w1) ->
  b (calls w1) (record_tools.problem_request config auth_manager data) = Answered r ->
  http_error_msg r = None ->
  json_get_result r (RDict []) = RDict row ->
  Py.get "sys_id" row = None ->
  record_tools.create_problem config auth_manager params b w
  = (Raise TypeError,
     record_call w1 (record_tools.problem_request config auth_manager data, Answered r)).
Proof.
  intros Hdata Hreply Hstatus Hjson Hid.
  unfold record_tools.create_problem. rewrite (bind_ok _ _ _ _ _ _ Hdata).
  unfold try_except. rewrite request_step, Hreply, Hstatus.
  cbv zeta. rewrite Hjson. unfold bind, result_get, ret. rewrite Hid. reflexivity.
Qed.

Lemma create_problem_needs_the_sys_id_witness :
  exists w',
    record_tools.create_problem cfg0 auth0 problem_plain backend_no_sys_id w0
    = (Raise TypeError, w')
    /\ length (calls w') = 1.
Proof.
  eexists. split.
  - apply (create_problem_needs_the_sys_id cfg0 auth0 problem_plain backend_no_sys_id
             w0 _ w0 _ [("number", "PRB0040002")] eq_refl eq_refl eq_refl eq_refl
             eq_refl).
  - reflexivity.
Defined.

Lemma create_problem_data_fields config auth_manager params b w data w1
    items key value :
  record_tools.create_problem_data config auth_manager params b w
  = (Ok (inr data), w1) ->
  record_tools.fields params = Some items ->
  NoDup (map fst items) ->
  In (key, value) items ->
  Py.get key data = Some (VStr value).
Proof.
  intros Hdata Hfields Hnodup Hin.
  unfold record_tools.create_problem_data in Hdata. cbv zeta in Hdata.
  rewrite Hfields in Hdata.
  destruct items as [| item rest]; [contradiction |].
  remember (record_tools.set_fields (item :: rest)) as set_all eqn:Hset.
  unfold bind in Hdata.
  destruct (Py.truthy (record_tools.assigned_to params)).
  - destruct (record_tools._resolve_user_id _ _ _ b w) as [[user_id | e] w'];
      [| discriminate].
    destruct (Py.truthy user_id); [| discriminate].
    injection Hdata as <- <-. rewrite Hset.
    apply get_set_fields_in; assumption.
  - injection Hdata as <- <-. rewrite Hset.
    apply get_set_fields_in; assumption.
Qed.

(** X6: the entries of [params.fields] are written last into the data
    of [create_problem]: once its data are built, the operation makes
    exactly one more call, the POST to the problem table, and each
    entry of [fields] is in the body of that POST with its value, also
    where it names a key set before, such as [urgency] or the resolved
    [assigned_to]. *)
Theorem create_problem_fields_override config auth_manager params b w data w1
    items key value :
  record_tools.create_problem_data config auth_manager params b w
  = (Ok (inr data), w1) ->
  record_tools.fields params = Some items ->
  NoDup (map fst items) ->
  In (key, value) items ->
  exists o w' rq body,
    record_tools.create_problem config auth_manager params b w = (o, w')
    /\ calls w' = (calls w1 ++ [(rq, b (calls w1) rq)])%list
    /\ req_method rq = POST
    /\ req_url rq = api_url config ++ "/table/problem"
    /\ req_json rq = Some body
    /\ Py.get key body = Some (VStr value).
Proof.
  intros Hdata Hfields Hnodup Hin.
  destruct (create_problem_posts_its_data _ _ _ _ _ _ _ Hdata)
    as (o & w' & Hrun & Hcalls).
  exists o, w', (record_tools.problem_request config auth_manager data), data.
  split; [exact Hrun |]. split; [exact Hcalls |].
  repeat split.
  exact (create_problem_data_fields _ _ _ _ _ _ _ _ _ _ Hdata Hfields Hnodup Hin).
Qed.

Lemma create_problem_fields_override_witness :
  exists o w' rq body,
    record_tools.create_problem cfg0 auth0 problem_with_fields backend_empty w0
    = (o, w')
    /\ calls w' = (calls w0 ++ [(rq, backend_empty (calls w0) rq)])%list
    /\ req_method rq = POST
    /\ req_url rq = api_url cfg0 ++ "/table/problem"
    /\ req_json rq = Some body
    /\ Py.get "assigned_to" body = Some (VStr "jdoe").
Proof.
  apply (create_problem_fields_override cfg0 auth0 problem_with_fields backend_empty
           w0 _ w0 [("urgency", "1"); ("assigned_to", "jdoe")] "assigned_to" "jdoe"
           eq_refl eq_refl).
  - repeat constructor; cbn; intuition discriminate.
  - right. left. reflexivity.
Defined.

(** X7: [create_item_request] never links the item to a request: the
    parameter [request] is not read, the data it posts to
    [sc_req_item] has no key ["request"], and those data are what the
    part before [# Make request] has built. *)
Theorem create_item_request_sends_no_request_link config auth_manager params b w
    data w1 :
  request_tools.create_item_request_body config auth_manager params b w
  = (Ok (inr data), w1) ->
  Py.get "request" data = None
  /\ exists o w',
       request_tools.create_item_request config auth_manager params b w = (o, w')
       /\ calls w'
          = (calls w1
             ++ [(post_request config auth_manager
                    (api_url config ++ "/table/sc_req_item") data,
                  b (calls w1)
                    (post_request config auth_manager
                       (api_url config ++ "/table/sc_req_item") data))])%list.
Proof.
  intros Hbody. split.
  - unfold request_tools.create_item_request_body in Hbody. cbv zeta in Hbody.
    unfold bind in Hbody.
    destruct (Py.truthy (request_tools.cir_number params));
      destruct (Py.truthy_str (request_tools.cir_requested_for params));
      try (destruct (request_tools._resolve_user_id _ _ _ b w) as [[u | e] w2];
           [destruct (Py.truthy u) | ]);
      try discriminate;
      cbn in Hbody;
      destruct (Py.truthy_str (request_tools.cir_cat_item params));
      try (match type of Hbody with
           | context [request_tools._resolve_catalog_item_id ?c ?a ?s ?b' ?w'] =>
               destruct (request_tools._resolve_catalog_item_id c a s b' w')
                 as [[item | e'] w3]; [destruct (Py.truthy item) |]
           end);
      try discriminate;
      injection Hbody as <- <-;
      rewrite ?get_set_other by discriminate; reflexivity.
  - unfold request_tools.create_item_request.
    rewrite (bind_ok _ _ _ _ _ _ Hbody).
    apply (single_request_issues _ _ (fun e => "Failed to create item request: " ++ e)).
    intros r. inspect.
Qed.

Lemma create_item_request_sends_no_request_link_witness :
  request_tools.cir_request item_for_request
  = Some "46d44a5dc0a8010e0000b4a1ea8f7e5f"
  /\ Py.get "request"
       [("state", VStr "1"); ("short_description", VStr "Laptop");
        ("quantity", VStr "1")] = None.
Proof.
  split; [reflexivity |].
  exact (proj1 (create_item_request_sends_no_request_link cfg0 auth0 item_for_request
                  backend_empty w0 _ w0 eq_refl)).
Defined.

(** ** The other operations of asset_tools.py *)

Lemma inspects_result_index0 v : inspects_only (result_index0 v).
Proof.
  destruct v as [[| row rest] | row];
    [apply inspects_raise; discriminate | apply inspects_ret
    | apply inspects_raise; discriminate].
Qed.

Lemma inspects_result_items v : inspects_only (result_items v).
Proof.
  destruct v as [rows | [| field row]];
    [apply inspects_ret | apply inspects_ret | apply inspects_raise; discriminate].
Qed.

Ltac inspect_more :=
  repeat first
    [ progress inspect
    | apply inspects_result_index0
    | apply inspects_result_items ].

(** X8: [get_asset] searches by the first of [asset_id], [asset_tag]
    and [serial_number] that is given, in that order, with one GET
    limited to one row; when none is given (absent or empty) it fails
    with its message at once, without a call. *)
Theorem get_asset_uses_the_first_parameter_given config auth_manager params b w :
  match first_present [(asset_tools.ga_asset_id params, "sys_id=");
                       (asset_tools.ga_asset_tag params, "asset_tag=");
                       (asset_tools.ga_serial_number params, "serial_number=")] with
  | Some filter =>
      issues (asset_tools.get_asset config auth_manager params)
        (get_request config auth_manager (api_url config ++ "/table/alm_asset")
           (Some [("sysparm_query", VStr filter);
                  ("sysparm_limit", VStr "1");
                  ("sysparm_display_value", VStr "true")]))
        b w
  | None =>
      asset_tools.get_asset config auth_manager params b w
      = (Ok [("success", VBool false);
             ("message", VStr "At least one search parameter is required")], w)
  end.
Proof.
  unfold asset_tools.get_asset, asset_tools.get_asset_query_params, first_present.
  cbv zeta.
  destruct (Py.truthy (asset_tools.ga_asset_id params));
    [| destruct (Py.truthy (asset_tools.ga_asset_tag params));
       [| destruct (Py.truthy (asset_tools.ga_serial_number params));
          [| reflexivity]]];
    apply (single_request_issues _ _ (fun e => "Failed to get asset: " ++ e));
    intros r; inspect_more.
Qed.

(** X9: once [get_asset] has a filter and the backend answers with a
    list, the result is the failure ["Asset not found"] for the empty
    list and otherwise the first row, under the key ["asset"]. *)
Theorem get_asset_returns_the_first_row config auth_manager params b w
    query_params r rows :
  asset_tools.get_asset_query_params params = inr query_params ->
  b (calls w)
    (get_request config auth_manager (api_url config ++ "/table/alm_asset")
       (Some query_params)) = Answered r ->
  http_error_msg r = None ->
  json_get_result r (RList []) = RList rows ->
  asset_tools.get_asset config auth_manager params b w
  = (Ok (match rows with
         | [] => [("success", VBool false); ("message", VStr "Asset not found")]
         | row :: _ =>
             [("success", VBool true); ("message", VStr "Asset found");
              ("asset", VRow row)]
         end),
     record_call w
       (get_request config auth_manager (api_url config ++ "/table/alm_asset")
          (Some query_params), Answered r)).
Proof.
  intros Hparams Hreply Hstatus Hjson.
  unfold asset_tools.get_asset. cbv zeta. rewrite Hparams.
  unfold try_except. rewrite request_step, Hreply, Hstatus. cbv zeta.
  rewrite Hjson. destruct rows as [| row rest]; reflexivity.
Qed.

Lemma get_asset_returns_the_first_row_witness :
  fst (asset_tools.get_asset cfg0 auth0 asset_by_tag backend_one_asset w0)
  = Ok [("success", VBool true); ("message", VStr "Asset found");
        ("asset", VRow [("sys_id", "00a9a80d3790200044e0bfc8bcbe5d1c");
                        ("asset_tag", "P1000479")])].
Proof.
  rewrite (get_asset_returns_the_first_row cfg0 auth0 asset_by_tag backend_one_asset
             w0 _ _ _ eq_refl eq_refl eq_refl eq_refl).
  reflexivity.
Defined.

(** X10: when the asset does not resolve, [update_asset], [delete_asset]
    and [transfer_asset] return ["Could not find asset: ..."] and stop
    there: the user is not resolved and no PATCH or DELETE is made. *)
Theorem unresolved_asset_stops_the_operation
    (resolve_user_id resolve_asset_id :
       ServerConfig -> AuthManager -> string -> M (option string))
    config auth_manager b w w1 :
  (forall params,
      unresolved (resolve_asset_id config auth_manager
                    (asset_tools.ua_asset_id params)) b w w1 ->
      asset_tools.update_asset resolve_user_id resolve_asset_id config auth_manager
        params b w
      = (Ok (asset_tools.mkAssetResponse false
               ("Could not find asset: " ++ asset_tools.ua_asset_id params)
               None None), w1))
  /\ (forall params,
        unresolved (resolve_asset_id config auth_manager
                      (asset_tools.da_asset_id params)) b w w1 ->
        asset_tools.delete_asset resolve_asset_id config auth_manager params b w
        = (Ok (asset_tools.mkAssetResponse false
                 ("Could not find asset: " ++ asset_tools.da_asset_id params)
                 None None), w1))
  /\ (forall params,
        unresolved (resolve_asset_id config auth_manager
                      (asset_tools.ta_asset_id params)) b w w1 ->
        asset_tools.transfer_asset resolve_user_id resolve_asset_id config
          auth_manager params b w
        = (Ok (asset_tools.mkAssetResponse false
                 ("Could not find asset: " ++ asset_tools.ta_asset_id params)
                 None None), w1)).
Proof.
  repeat split; intros params.
  - apply update_asset_unresolved.
  - apply delete_asset_unresolved.
  - apply transfer_asset_unresolved.
Qed.

Lemma unresolved_asset_stops_the_operation_witness :
  exists w1,
    asset_tools.transfer_asset record_tools._resolve_user_id
      record_tools._resolve_user_id cfg0 auth0 transfer_to_jdoe backend_empty w0
    = (Ok (asset_tools.mkAssetResponse false "Could not find asset: P1000479"
             None None), w1)
    /\ length (calls w1) = 2.
Proof.
  eexists. split.
  - apply (proj2 (proj2 (unresolved_asset_stops_the_operation
                           record_tools._resolve_user_id record_tools._resolve_user_id
                           cfg0 auth0 backend_empty w0 _)) transfer_to_jdoe).
    exists None. split; reflexivity.
  - reflexivity.
Defined.

Lemma string_app_assoc (s t u : string) : (s ++ t) ++ u = s ++ t ++ u.
Proof. induction s as [| c s IH]; cbn; [reflexivity | now rewrite IH]. Qed.

Lemma string_app_nil_r (s : string) : s ++ "" = s.
Proof. induction s as [| c s IH]; cbn; [reflexivity | now rewrite IH]. Qed.

(** X11: once the asset and the new user have resolved, [transfer_asset]
    makes exactly one more call: the PATCH of the resolved asset, whose
    body assigns the resolved user and carries the transfer comment,
    built from the user as given, the reason and the comments. *)
Theorem transfer_asset_patches_the_resolved_asset
    (resolve_user_id resolve_asset_id :
       ServerConfig -> AuthManager -> string -> M (option string))
    config auth_manager params b w asset_sys_id w1 new_user_id w2 :
  resolve_asset_id config auth_manager (asset_tools.ta_asset_id params) b w
  = (Ok (Some asset_sys_id), w1) ->
  asset_sys_id <> "" ->
  resolve_user_id config auth_manager (asset_tools.ta_new_assigned_to params) b w1
  = (Ok (Some new_user_id), w2) ->
  new_user_id <> "" ->
  let rq :=
    patch_request config auth_manager
      (api_url config ++ "/table/alm_asset/" ++ asset_sys_id)
      [("assigned_to", VStr new_user_id);
       ("comments", VStr (transfer_note params))] in
  exists o w',
    asset_tools.transfer_asset resolve_user_id resolve_asset_id config auth_manager
      params b w = (o, w')
    /\ calls w' = (calls w2 ++ [(rq, b (calls w2) rq)])%list.
Proof.
  intros Hasset Haid Huser Huid rq.
  assert (Hnote :
    (let transfer_comment :=
       "Asset transferred to " ++ asset_tools.ta_new_assigned_to params in
     let transfer_comment :=
       if Py.truthy (asset_tools.ta_transfer_reason params)
       then transfer_comment ++ " - Reason: "
            ++ Py.the (asset_tools.ta_transfer_reason params)
       else transfer_comment in
     if Py.truthy (asset_tools.ta_comments params)
     then transfer_comment ++ " - " ++ Py.the (asset_tools.ta_comments params)
     else transfer_comment) = transfer_note params).
  { unfold transfer_note. cbv zeta.
    destruct (Py.truthy (asset_tools.ta_transfer_reason params));
      destruct (Py.truthy (asset_tools.ta_comments params));
      rewrite ?string_app_assoc, ?string_app_nil_r; reflexivity. }
  unfold asset_tools.transfer_asset, asset_tools.transfer_asset_data.
  unfold bind at 1. unfold bind at 1. rewrite Hasset.
  rewrite (truthy_of_nonempty _ Haid). cbn [negb].
  unfold bind at 1. rewrite Huser.
  rewrite (truthy_of_nonempty _ Huid). cbn [negb].
  cbv zeta in Hnote |- *. rewrite Hnote. cbn [ret Py.the Py.of_opt Py.set String.eqb].
  apply (single_request_issues _ _ (fun e => "Failed to transfer asset: " ++ e)).
  intros r. inspect_more.
Qed.

Lemma transfer_asset_patches_the_resolved_asset_witness :
  exists o w',
    asset_tools.transfer_asset request_tools._resolve_user_id
      record_tools._resolve_user_id cfg0 auth0 transfer_known backend_email w0
    = (o, w')
    /\ map (fun x => (req_method (fst x), req_url (fst x), req_json (fst x)))
         (calls w')
       = [(GET, "https://dev.service-now.com/api/now/table/sys_user", None);
          (GET, "https://dev.service-now.com/api/now/table/sys_user", None);
          (PATCH,
           "https://dev.service-now.com/api/now/table/alm_asset/00a9a80d3790200044e0bfc8bcbe5d1c",
           Some [("assigned_to", VStr "6816f79cc0a8016401c5a33be04be441");
                 ("comments",
                  VStr "Asset transferred to jdoe@example.com - Reason: New hire")])].
Proof.
  destruct (transfer_asset_patches_the_resolved_asset
              request_tools._resolve_user_id record_tools._resolve_user_id
              cfg0 auth0 transfer_known backend_email w0
              "00a9a80d3790200044e0bfc8bcbe5d1c" w0
              "6816f79cc0a8016401c5a33be04be441" _
              eq_refl ltac:(discriminate) eq_refl ltac:(discriminate))
    as (o & w' & Hrun & Hcalls).
  exists o, w'. split; [exact Hrun |].
  rewrite Hcalls. reflexivity.
Defined.

(** X12: when the asset resolves but the new user does not,
    [transfer_asset] fails with ["Could not resolve user: ..."] in the
    world the user resolver left: the asset is not patched. *)
Theorem transfer_asset_needs_the_user
    (resolve_user_id resolve_asset_id :
       ServerConfig -> AuthManager -> string -> M (option string))
    config auth_manager params b w asset_sys_id w1 w2 :
  resolve_asset_id config auth_manager (asset_tools.ta_asset_id params) b w
  = (Ok (Some asset_sys_id), w1) ->
  asset_sys_id <> "" ->
  unresolved (resolve_user_id config auth_manager
                (asset_tools.ta_new_assigned_to params)) b w1 w2 ->
  asset_tools.transfer_asset resolve_user_id resolve_asset_id config auth_manager
    params b w
  = (Ok (asset_tools.mkAssetResponse false
           ("Could not resolve user: " ++ asset_tools.ta_new_assigned_to params)
           None None), w2).
Proof.
  intros Hasset Haid (o & Huser & Hfalse).
  unfold asset_tools.transfer_asset, asset_tools.transfer_asset_data.
  unfold bind at 1. unfold bind at 1. rewrite Hasset.
  rewrite (truthy_of_nonempty _ Haid). cbn [negb].
  unfold bind at 1. rewrite Huser, Hfalse. reflexivity.
Qed.

Lemma transfer_asset_needs_the_user_witness :
  exists w2,
    asset_tools.transfer_asset request_tools._resolve_user_id
      record_tools._resolve_user_id cfg0 auth0 transfer_known backend_empty w0
    = (Ok (asset_tools.mkAssetResponse false
             "Could not resolve user: jdoe@example.com" None None), w2)
    /\ map (fun x => req_method (fst x)) (calls w2) = [GET; GET].
Proof.
  eexists. split.
  - apply (transfer_asset_needs_the_user
             request_tools._resolve_user_id record_tools._resolve_user_id
             cfg0 auth0 transfer_known backend_empty w0
             "00a9a80d3790200044e0bfc8bcbe5d1c" w0 _ eq_refl ltac:(discriminate)).
    exists None. split; reflexivity.
  - reflexivity.
Defined.

Lemma set_keeps_values {V} (Q : V -> Prop) key v (d : list (string * V)) :
  Q v -> Forall (fun field => Q (snd field)) d ->
  Forall (fun field => Q (snd field)) (Py.set key v d).
Proof.
  intros Hv. induction 1 as [| [k v0] rest Hhead Hrest IH]; cbn.
  - constructor; [exact Hv | constructor].
  - destruct (String.eqb k key); constructor; auto.
Qed.

Lemma asset_set_if_nonempty key value data :
  Forall (fun field => nonempty_value (snd field)) data ->
  Forall (fun field => nonempty_value (snd field)) (asset_tools.set_if key value data).
Proof.
  intros Hdata. unfold asset_tools.set_if.
  destruct (Py.truthy value) eqn:Htruthy; [| exact Hdata].
  destruct (truthy_some _ Htruthy) as (s & -> & Hs).
  apply set_keeps_values; [| exact Hdata]. exists s. split; [reflexivity | exact Hs].
Qed.

Lemma update_asset_data_nonempty
    (resolve_user_id resolve_asset_id :
       ServerConfig -> AuthManager -> string -> M (option string))
    config auth_manager params b w url data w1 :
  asset_tools.update_asset_data resolve_user_id resolve_asset_id config auth_manager
    params b w = (Ok (inr (url, data)), w1) ->
  Forall (fun field => nonempty_value (snd field)) data.
Proof.
  unfold asset_tools.update_asset_data. unfold bind at 1.
  destruct (resolve_asset_id config auth_manager (asset_tools.ua_asset_id params) b w)
    as [[asset_sys_id | e] wa]; [| discriminate].
  destruct (negb (Py.truthy asset_sys_id)); [discriminate |].
  cbv zeta. unfold bind at 1.
  assert (Hstart : Forall (fun field => nonempty_value (snd field))
            (asset_tools.set_if "serial_number" (asset_tools.ua_serial_number params)
               (asset_tools.set_if "model" (asset_tools.ua_model params)
                  (asset_tools.set_if "display_name"
                     (asset_tools.ua_display_name params) [])))).
  { repeat apply asset_set_if_nonempty. constructor. }
  destruct (Py.truthy (asset_tools.ua_assigned_to params)).
  - unfold bind at 1.
    destruct (resolve_user_id config auth_manager
                (Py.the (asset_tools.ua_assigned_to params)) b wa)
      as [[user_id | e] wu]; [| discriminate].
    destruct (Py.truthy user_id) eqn:Huser; [| discriminate].
    destruct (truthy_some _ Huser) as (s & -> & Hs).
    intros H. injection H as _ <- _.
    repeat apply asset_set_if_nonempty.
    apply set_keeps_values; [| exact Hstart].
    exists s. split; [reflexivity | exact Hs].
  - intros H. injection H as _ <- _.
    repeat apply asset_set_if_nonempty. constructor.
Qed.

(** X13: once its data are built, [update_asset] makes exactly one more
    call, the PATCH of the asset, and every field in the body of that
    PATCH is a non-empty string: a parameter given as the empty string
    is left out like an absent one, so no field can be cleared through
    [update_asset]. *)
Theorem update_asset_sends_only_non_empty_fields
    (resolve_user_id resolve_asset_id :
       ServerConfig -> AuthManager -> string -> M (option string))
    config auth_manager params b w url data w1 :
  asset_tools.update_asset_data resolve_user_id resolve_asset_id config auth_manager
    params b w = (Ok (inr (url, data)), w1) ->
  exists o w' rq body,
    asset_tools.update_asset resolve_user_id resolve_asset_id config auth_manager
      params b w = (o, w')
    /\ calls w' = (calls w1 ++ [(rq, b (calls w1) rq)])%list
    /\ req_method rq = PATCH
    /\ req_url rq = url
    /\ req_json rq = Some body
    /\ Forall (fun field => nonempty_value (snd field)) body.
Proof.
  intros Hdata.
  assert (Hissues :
    exists o w',
      asset_tools.update_asset resolve_user_id resolve_asset_id config auth_manager
        params b w = (o, w')
      /\ calls w'
         = (calls w1
            ++ [(patch_request config auth_manager url data,
                 b (calls w1) (patch_request config auth_manager url data))])%list).
  { unfold asset_tools.update_asset. rewrite (bind_ok _ _ _ _ _ _ Hdata).
    apply (single_request_issues _ _ (fun e => "Failed to update asset: " ++ e)).
    intros r. inspect. }
  destruct Hissues as (o & w' & Hrun & Hcalls).
  exists o, w', (patch_request config auth_manager url data), data.
  split; [exact Hrun |]. split; [exact Hcalls |]. repeat split.
  exact (update_asset_data_nonempty _ _ _ _ _ _ _ _ _ _ Hdata).
Qed.

Lemma update_asset_sends_only_non_empty_fields_witness :
  exists o w' rq body,
    asset_tools.update_asset request_tools._resolve_user_id
      record_tools._resolve_user_id cfg0 auth0 update_location backend_empty w0
    = (o, w')
    /\ calls w' = (calls w0 ++ [(rq, backend_empty (calls w0) rq)])%list
    /\ req_method rq = PATCH
    /\ req_url rq
       = "https://dev.service-now.com/api/now/table/alm_asset/00a9a80d3790200044e0bfc8bcbe5d1c"
    /\ req_json rq = Some body
    /\ Forall (fun field => nonempty_value (snd field)) body.
Proof.
  exact (update_asset_sends_only_non_empty_fields
           request_tools._resolve_user_id record_tools._resolve_user_id
           cfg0 auth0 update_location backend_empty w0
           "https://dev.service-now.com/api/now/table/alm_asset/00a9a80d3790200044e0bfc8bcbe5d1c"
           [("location", VStr "NYC"); ("state", VStr "1")] w0 eq_refl).
Defined.

(** The body sent for [update_location]: the two parameters that are
    not empty. *)
Example update_location_body :
  map (fun x => req_json (fst x))
    (calls (snd (asset_tools.update_asset request_tools._resolve_user_id
                   record_tools._resolve_user_id cfg0 auth0 update_location
                   backend_empty w0)))
  = [Some [("location", VStr "NYC"); ("state", VStr "1")]].
Proof. reflexivity. Qed.

(** X14: [delete_asset] deletes the asset the resolver found and
    reports that resolved id, not the identifier it was given; the
    [reason] parameter has no effect on the calls or on the result. *)
Theorem delete_asset_deletes_the_resolved_asset
    (resolve_asset_id : ServerConfig -> AuthManager -> string -> M (option string))
    config auth_manager params b w asset_sys_id w1 r :
  resolve_asset_id config auth_manager (asset_tools.da_asset_id params) b w
  = (Ok (Some asset_sys_id), w1) ->
  asset_sys_id <> "" ->
  let rq :=
    delete_request config auth_manager
      (api_url config ++ "/table/alm_asset/" ++ asset_sys_id) in
  b (calls w1) rq = Answered r ->
  http_error_msg r = None ->
  forall reason,
    asset_tools.delete_asset resolve_asset_id config auth_manager
      (asset_tools.mkDeleteAssetParams (asset_tools.da_asset_id params) reason) b w
    = (Ok (asset_tools.mkAssetResponse true "Asset deleted successfully"
             (Some asset_sys_id) None),
       record_call w1 (rq, Answered r)).
Proof.
  intros Hasset Haid rq Hreply Hstatus reason.
  unfold asset_tools.delete_asset, asset_tools.delete_asset_target.
  unfold bind at 1. unfold bind at 1. cbn [asset_tools.da_asset_id].
  rewrite Hasset. rewrite (truthy_of_nonempty _ Haid). cbn [negb ret Py.the].
  cbv zeta. unfold try_except. fold rq.
  rewrite request_step, Hreply, Hstatus. reflexivity.
Qed.

Lemma delete_asset_deletes_the_resolved_asset_witness :
  fst (asset_tools.delete_asset record_tools._resolve_user_id cfg0 auth0
         (asset_tools.mkDeleteAssetParams lower_id None) backend_empty w0)
  = Ok (asset_tools.mkAssetResponse true "Asset deleted successfully"
          (Some lower_id) None).
Proof.
  exact (f_equal fst
           (delete_asset_deletes_the_resolved_asset record_tools._resolve_user_id
              cfg0 auth0 delete_p1000479 backend_empty w0 lower_id w0 _
              eq_refl ltac:(discriminate) eq_refl eq_refl None)).
Defined.

Section asset_tools_catch_more.

Variable resolve_user_id : ServerConfig -> AuthManager -> string -> M (option string).
Variable resolve_asset_id : ServerConfig -> AuthManager -> string -> M (option string).
Hypothesis user_resolver_quiet : never_raises_request_exception resolve_user_id.
Hypothesis asset_resolver_quiet : never_raises_request_exception resolve_asset_id.

Lemma update_asset_data_quiet config auth_manager params :
  no_request_exception
    (asset_tools.update_asset_data resolve_user_id resolve_asset_id config
       auth_manager params).
Proof. unfold asset_tools.update_asset_data. quiet_prepare. Qed.

Lemma update_asset_catches config auth_manager params b w :
  catches_transport_failures
    (asset_tools.update_asset_data resolve_user_id resolve_asset_id config
       auth_manager params)
    (asset_tools.update_asset resolve_user_id resolve_asset_id config auth_manager
       params)
    asset_failure "Failed to update asset: " b w.
Proof.
  unfold asset_tools.update_asset. apply catches_bind.
  - apply update_asset_data_quiet.
  - intros [early | [url data]] w1; [apply ret_turns_failures |].
    apply (try_block_turns_failures _
             (fun e => asset_tools.mkAssetResponse false
                         ("Failed to update asset: " ++ e) None None)).
    + try_body.
    + intros e. split; reflexivity.
Qed.

Lemma delete_asset_target_quiet config auth_manager params :
  no_request_exception
    (asset_tools.delete_asset_target resolve_asset_id config auth_manager params).
Proof. unfold asset_tools.delete_asset_target. quiet_prepare. Qed.

Lemma delete_asset_catches config auth_manager params b w :
  catches_transport_failures
    (asset_tools.delete_asset_target resolve_asset_id config auth_manager params)
    (asset_tools.delete_asset resolve_asset_id config auth_manager params)
    asset_failure "Failed to delete asset: " b w.
Proof.
  unfold asset_tools.delete_asset. apply catches_bind.
  - apply delete_asset_target_quiet.
  - intros [early | asset_sys_id] w1; [apply ret_turns_failures |]. cbv zeta.
    apply (try_block_turns_failures _
             (fun e => asset_tools.mkAssetResponse false
                         ("Failed to delete asset: " ++ e) None None)).
    + try_body.
    + intros e. split; reflexivity.
Qed.

Lemma transfer_asset_data_quiet config auth_manager params :
  no_request_exception
    (asset_tools.transfer_asset_data resolve_user_id resolve_asset_id config
       auth_manager params).
Proof. unfold asset_tools.transfer_asset_data. quiet_prepare. Qed.

Lemma transfer_asset_catches config auth_manager params b w :
  catches_transport_failures
    (asset_tools.transfer_asset_data resolve_user_id resolve_asset_id config
       auth_manager params)
    (asset_tools.transfer_asset resolve_user_id resolve_asset_id config auth_manager
       params)
    asset_failure "Failed to transfer asset: " b w.
Proof.
  unfold asset_tools.transfer_asset. apply catches_bind.
  - apply transfer_asset_data_quiet.
  - intros [early | [url data]] w1; [apply ret_turns_failures |].
    apply (try_block_turns_failures _
             (fun e => asset_tools.mkAssetResponse false
                         ("Failed to transfer asset: " ++ e) None None)).
    + try_body.
    + intros e. split; reflexivity.
Qed.

End asset_tools_catch_more.

Lemma get_asset_catches config auth_manager params b w :
  catches_transport_failures (ret tt)
    (asset_tools.get_asset config auth_manager params)
    dict_failure "Failed to get asset: " b w.
Proof.
  apply catches_without_prepare. unfold asset_tools.get_asset. cbv zeta.
  destruct (asset_tools.get_asset_query_params params) as [early | query_params];
    [apply ret_turns_failures |].
  apply (try_block_turns_failures _
           (fun e => [("success", VBool false);
                      ("message", VStr ("Failed to get asset: " ++ e))])).
  - apply request_raises_on_failure. intros r w1. cbv zeta.
    apply inspects_raises_on_failure. inspect_more.
  - intros e. split; reflexivity.
Qed.

Lemma search_assets_by_name_catches config auth_manager params b w :
  catches_transport_failures (ret tt)
    (asset_tools.search_assets_by_name config auth_manager params)
    dict_failure "Failed to search assets by name: " b w.
Proof.
  apply catches_without_prepare. unfold asset_tools.search_assets_by_name. cbv zeta.
  apply (try_block_turns_failures _
           (fun e => [("success", VBool false);
                      ("message", VStr ("Failed to search assets by name: " ++ e))])).
  - try_body.
  - intros e. split; reflexivity.
Qed.

(** X15: the other operations of asset_tools.py catch transport
    failures too.  Over resolvers that raise no [RequestException],
    none of [update_asset], [delete_asset], [transfer_asset],
    [get_asset] and [search_assets_by_name] lets one escape, and a
    failure of the call the operation makes itself gives the result
    with [success] false and the message ["Failed to ...: <error>"]. *)
Theorem asset_operations_catch_transport_failures
    (resolve_user_id resolve_asset_id :
       ServerConfig -> AuthManager -> string -> M (option string))
    config auth_manager b w :
  never_raises_request_exception resolve_user_id ->
  never_raises_request_exception resolve_asset_id ->
  (forall params,
      catches_transport_failures
        (asset_tools.update_asset_data resolve_user_id resolve_asset_id config
           auth_manager params)
        (asset_tools.update_asset resolve_user_id resolve_asset_id config
           auth_manager params)
        asset_failure "Failed to update asset: " b w)
  /\ (forall params,
        catches_transport_failures
          (asset_tools.delete_asset_target resolve_asset_id config auth_manager
             params)
          (asset_tools.delete_asset resolve_asset_id config auth_manager params)
          asset_failure "Failed to delete asset: " b w)
  /\ (forall params,
        catches_transport_failures
          (asset_tools.transfer_asset_data resolve_user_id resolve_asset_id config
             auth_manager params)
          (asset_tools.transfer_asset resolve_user_id resolve_asset_id config
             auth_manager params)
          asset_failure "Failed to transfer asset: " b w)
  /\ (forall params,
        catches_transport_failures (ret tt)
          (asset_tools.get_asset config auth_manager params)
          dict_failure "Failed to get asset: " b w)
  /\ (forall params,
        catches_transport_failures (ret tt)
          (asset_tools.search_assets_by_name config auth_manager params)
          dict_failure "Failed to search assets by name: " b w).
Proof.
  intros Huser Hasset. repeat split; intros params.
  - apply update_asset_catches; assumption.
  - apply delete_asset_catches; assumption.
  - apply transfer_asset_catches; assumption.
  - apply get_asset_catches.
  - apply search_assets_by_name_catches.
Qed.

Lemma asset_operations_catch_transport_failures_witness :
  catches_transport_failures (ret tt)
    (asset_tools.get_asset cfg0 auth0 asset_by_tag)
    dict_failure "Failed to get asset: " backend_down w0
  /\ fst (asset_tools.get_asset cfg0 auth0 asset_by_tag backend_down w0)
     = Ok [("success", VBool false);
           ("message", VStr "Failed to get asset: Connection refused")].
Proof.
  split; [| reflexivity].
  exact (proj1 (proj2 (proj2 (proj2
           (asset_operations_catch_transport_failures
              record_tools._resolve_user_id record_tools._resolve_user_id
              cfg0 auth0 backend_down w0
              record_tools_resolver_never_raises
              record_tools_resolver_never_raises))))
           asset_by_tag).
Defined.

(** ** knowledge_base.py: the operations that write *)

(** X16: the two parameters for an article's title have opposite
    precedence in the two operations.  [create_article] posts the
    [title] as [short_description] whenever the title is non-empty;
    [update_article] patches [short_description] with the parameter of
    that name whenever it is non-empty, and with the [title] only
    otherwise (with neither, the field is not sent). *)
Theorem article_title_precedence config auth_manager b w :
  (forall params,
      issues (knowledge_base.create_article config auth_manager params)
        (post_request config auth_manager (api_url config ++ "/table/kb_knowledge")
           (knowledge_base.create_article_data params)) b w
      /\ Py.get "short_description" (knowledge_base.create_article_data params)
         = Some (VStr (if Py.truthy_str (knowledge_base.car_title params)
                       then knowledge_base.car_title params
                       else knowledge_base.car_short_description params)))
  /\ (forall params,
        issues (knowledge_base.update_article config auth_manager params)
          (patch_request config auth_manager
             (api_url config ++ "/table/kb_knowledge/"
              ++ knowledge_base.uar_article_id params)
             (knowledge_base.update_article_data params)) b w
        /\ Py.get "short_description" (knowledge_base.update_article_data params)
           = if Py.truthy (knowledge_base.uar_short_description params)
             then Some (Py.of_opt (knowledge_base.uar_short_description params))
             else if Py.truthy (knowledge_base.uar_title params)
                  then Some (Py.of_opt (knowledge_base.uar_title params))
                  else None).
Proof.
  split; intros params; split.
  - unfold knowledge_base.create_article. cbv zeta.
    apply (single_request_issues _ _ (fun e => "Failed to create article: " ++ e)).
    intros r. inspect.
  - unfold knowledge_base.create_article_data, knowledge_base.set_if.
    destruct (Py.truthy_str (knowledge_base.car_title params));
      destruct (Py.truthy (knowledge_base.car_keywords params)); reflexivity.
  - unfold knowledge_base.update_article. cbv zeta.
    apply (single_request_issues _ _ (fun e => "Failed to update article: " ++ e)).
    intros r. inspect.
  - unfold knowledge_base.update_article_data, knowledge_base.set_if.
    destruct (Py.truthy (knowledge_base.uar_title params));
      destruct (Py.truthy (knowledge_base.uar_text params));
      destruct (Py.truthy (knowledge_base.uar_short_description params));
      destruct (Py.truthy (knowledge_base.uar_category params));
      destruct (Py.truthy (knowledge_base.uar_keywords params)); reflexivity.
Qed.

(** The article created with a title gets the title; the article
    updated with both gets the short description. *)
Example article_titles_run :
  Py.get "short_description" (knowledge_base.create_article_data article_titled)
  = Some (VStr "How to reset a password")
  /\ Py.get "short_description" (knowledge_base.update_article_data article_retitled)
     = Some (VStr "Old summary").
Proof. split; reflexivity. Qed.

(** X17: [add_comment] and [add_comment_to_kb] make the same single
    call: the PATCH of the article with one field, [work_notes] for a
    work note and [comments] otherwise, holding the comment text. *)
Theorem comment_operations_send_the_same_patch config auth_manager params b w :
  let rq :=
    patch_request config auth_manager
      (api_url config ++ "/table/kb_knowledge/" ++ knowledge_base.ac_article_id params)
      [(if knowledge_base.ac_is_work_note params then "work_notes" else "comments",
        VStr (knowledge_base.ac_comment params))] in
  issues (knowledge_base.add_comment config auth_manager params) rq b w
  /\ issues (knowledge_base.add_comment_to_kb config auth_manager params) rq b w.
Proof.
  cbv zeta. split.
  - unfold knowledge_base.add_comment, knowledge_base.add_comment_data. cbv zeta.
    destruct (knowledge_base.ac_is_work_note params);
      apply (single_request_issues _ _ (fun e => "Failed to add comment: " ++ e));
      intros r; inspect.
  - unfold knowledge_base.add_comment_to_kb. cbv zeta.
    destruct (knowledge_base.ac_is_work_note params);
      apply (single_request_issues _ _
               (fun e => "Failed to add comment to knowledge base: " ++ e));
      intros r; inspect.
Qed.

(** Use the answer [H : b history rq = reply] wherever the goal asks the
    backend the same question. *)
Ltac answered H :=
  match type of H with
  | ?b ?h ?rq = ?reply =>
      repeat match goal with
             | |- context [b ?h' rq] =>
                 replace (b h' rq) with reply by (symmetry; exact H)
             end
  end.

(** X18: when the catalog search of [create_service_request] is
    answered with an empty result, the operation fails with
    ["Catalog item '...' not found"] after that one call: no request
    and no request item are created. *)
Theorem create_service_request_needs_the_catalog_item
    config auth_manager params b w r :
  b (calls w) (knowledge_base.catalog_search_request config auth_manager params)
  = Answered r ->
  http_error_msg r = None ->
  result_truthy (json_get_result r (RList [])) = false ->
  knowledge_base.create_service_request config auth_manager params b w
  = (Ok [("success", VBool false);
         ("message", VStr ("Catalog item '" ++ knowledge_base.csr_catalog_item params
                           ++ "' not found"));
         ("request_id", VNone)],
     record_call w
       (knowledge_base.catalog_search_request config auth_manager params,
        Answered r)).
Proof.
  intros Hreply Hstatus Hempty.
  unfold knowledge_base.create_service_request, try_except.
  rewrite request_step, Hreply, Hstatus. cbv zeta. rewrite Hempty. reflexivity.
Qed.

Lemma create_service_request_needs_the_catalog_item_witness :
  fst (knowledge_base.create_service_request cfg0 auth0 laptop_request
         backend_empty w0)
  = Ok [("success", VBool false);
        ("message", VStr "Catalog item 'Laptop' not found");
        ("request_id", VNone)].
Proof.
  exact (f_equal fst
           (create_service_request_needs_the_catalog_item cfg0 auth0 laptop_request
              backend_empty w0 _ eq_refl eq_refl eq_refl)).
Defined.

(** X19: when the catalog search finds an item and the request is
    created, [create_service_request] makes three calls in order: the
    search, the POST of the request, and the POST of the request item,
    which links the created request (its [sys_id]) to the catalog item
    found (the [sys_id] of the first row).  The [variables] of the
    parameters are in neither body. *)
Theorem create_service_request_links_request_and_item
    config auth_manager params b w r1 first rest catalog_item_id catalog_item_name
    r2 created :
  let rq1 := knowledge_base.catalog_search_request config auth_manager params in
  let rq2 :=
    post_request config auth_manager (api_url config ++ "/table/sc_request")
      (knowledge_base.set_if "requested_for"
         (knowledge_base.csr_requested_for params)
         [("short_description",
           VStr (or_else (knowledge_base.csr_short_description params)
                   ("Request for " ++ catalog_item_name)));
          ("description",
           VStr (or_else (knowledge_base.csr_description params)
                   ("Service catalog request for " ++ catalog_item_name)))]) in
  let rq3 :=
    post_request config auth_manager (api_url config ++ "/table/sc_req_item")
      (knowledge_base.set_if "requested_for"
         (knowledge_base.csr_requested_for params)
         [("request", Py.of_opt (Py.get "sys_id" created));
          ("cat_item", VStr catalog_item_id);
          ("quantity", VInt (knowledge_base.csr_quantity params));
          ("short_description",
           VStr (or_else (knowledge_base.csr_short_description params)
                   ("Request for " ++ catalog_item_name)))]) in
  b (calls w) rq1 = Answered r1 ->
  http_error_msg r1 = None ->
  json_get_result r1 (RList []) = RList (first :: rest) ->
  Py.get "sys_id" first = Some catalog_item_id ->
  Py.get "name" first = Some catalog_item_name ->
  b (calls w ++ [(rq1, Answered r1)])%list rq2 = Answered r2 ->
  http_error_msg r2 = None ->
  json_get_result r2 (RDict []) = RDict created ->
  issues_all (knowledge_base.create_service_request config auth_manager params)
    [rq1; rq2; rq3] b w.
Proof.
  intros rq1 rq2 rq3 Hreply1 Hstatus1 Hjson1 Hid Hname Hreply2 Hstatus2 Hjson2.
  unfold issues_all.
  unfold knowledge_base.create_service_request.
  match goal with
  | |- context [try_except ?body ?handler] =>
      change (try_except body handler b w)
        with (match body b w with
              | (Raise (RequestException e), w') => handler e b w'
              | other => other
              end)
  end.
  fold rq1. rewrite request_step, Hreply1, Hstatus1. cbv zeta. rewrite Hjson1.
  cbn [result_truthy Py.truthy_list negb result_index0].
  unfold bind at 1. cbn [ret].
  unfold row_item. rewrite Hid, Hname.
  unfold bind at 1. cbn [ret]. unfold bind at 1. cbn [ret].
  unfold knowledge_base.service_request_data. cbv zeta. fold rq2.
  rewrite request_step. answered Hreply2. rewrite Hstatus2.
  cbv zeta. rewrite Hjson2. cbn [result_get].
  unfold bind at 1. cbn [ret]. unfold bind at 1. cbn [ret].
  unfold knowledge_base.service_request_item_data. cbv zeta. fold rq3.
  match goal with
  | |- context [match ?body b ?w2 with _ => _ end] =>
      destruct (single_request_issues rq3
                  (fun item_response =>
                     item_id <- result_get (json_get_result item_response (RDict []))
                                  "sys_id" ;;
                     ret [("success", VBool true);
                          ("message",
                           VStr ("Service request " ++ Py.the (Py.get "number" created)
                                 ++ " created successfully"));
                          ("request_id", Py.of_opt (Py.get "sys_id" created));
                          ("request_number", Py.of_opt (Py.get "number" created));
                          ("item_id", Py.of_opt item_id);
                          ("catalog_item", VStr catalog_item_name)])
                  (fun e => "Failed to create service request: " ++ e)
                  (fun e => [("success", VBool false);
                             ("message",
                              VStr ("Failed to create service request: " ++ e));
                             ("request_id", VNone)])
                  b w2 ltac:(intros; inspect))
        as (o & w' & Hrun & Hcalls)
  end.
  exists o, w'. split.
  - exact Hrun.
  - rewrite Hcalls. cbn [exchanges record_call calls].
    answered Hreply1. answered Hreply2. rewrite <- !app_assoc. reflexivity.
Qed.

Lemma create_service_request_links_request_and_item_witness :
  exists rqs,
    issues_all (knowledge_base.create_service_request cfg0 auth0 laptop_request)
      rqs backend_catalog w0
    /\ map (fun rq => (req_method rq, req_url rq, req_json rq)) rqs
       = [(GET, "https://dev.service-now.com/api/now/table/sc_cat_item", None);
          (POST, "https://dev.service-now.com/api/now/table/sc_request",
           Some [("short_description", VStr "Request for Standard Laptop");
                 ("description",
                  VStr "Service catalog request for Standard Laptop");
                 ("requested_for", VStr "jdoe")]);
          (POST, "https://dev.service-now.com/api/now/table/sc_req_item",
           Some [("request", VStr "46d44a5dc0a8010e0000b4a1ea8f7e5f");
                 ("cat_item", VStr "e0d08b13c3330100c8b837659bba8fb4");
                 ("quantity", VInt 2);
                 ("short_description", VStr "Request for Standard Laptop");
                 ("requested_for", VStr "jdoe")])].
Proof.
  eexists. split.
  - apply (create_service_request_links_request_and_item cfg0 auth0 laptop_request
             backend_catalog w0 _ _ _ "e0d08b13c3330100c8b837659bba8fb4"
             "Standard Laptop" _ _
             eq_refl eq_refl eq_refl eq_refl eq_refl eq_refl eq_refl eq_refl).
  - reflexivity.
Defined.

(** ** knowledge_base.py: transport failures *)

Lemma inspects_row_item row key : inspects_only (row_item row key).
Proof.
  unfold row_item. destruct (Py.get key row);
    [apply inspects_ret | apply inspects_raise; discriminate].
Qed.

Lemma create_knowledge_base_catches config auth_manager params b w :
  catches_transport_failures (ret tt)
    (knowledge_base.create_knowledge_base config auth_manager params)
    kb_response_failure "Failed to create knowledge base: " b w.
Proof.
  apply catches_without_prepare. unfold knowledge_base.create_knowledge_base.
  cbv zeta.
  apply (try_block_turns_failures _
           (fun e => knowledge_base.mkKnowledgeBaseResponse false
                       ("Failed to create knowledge base: " ++ e) None None)).
  - try_body.
  - intros e. split; reflexivity.
Qed.

Lemma create_category_catches config auth_manager params b w :
  catches_transport_failures (ret tt)
    (knowledge_base.create_category config auth_manager params)
    category_failure "Failed to create category: " b w.
Proof.
  apply catches_without_prepare. unfold knowledge_base.create_category. cbv zeta.
  apply (try_block_turns_failures _
           (fun e => knowledge_base.mkCategoryResponse false
                       ("Failed to create category: " ++ e) None None)).
  - try_body.
  - intros e. split; reflexivity.
Qed.

Lemma create_article_catches config auth_manager params b w :
  catches_transport_failures (ret tt)
    (knowledge_base.create_article config auth_manager params)
    article_failure "Failed to create article: " b w.
Proof.
  apply catches_without_prepare. unfold knowledge_base.create_article. cbv zeta.
  apply (try_block_turns_failures _
           (fun e => knowledge_base.mkArticleResponse false
                       ("Failed to create article: " ++ e) None None None)).
  - try_body.
  - intros e. split; reflexivity.
Qed.

Lemma update_article_catches config auth_manager params b w :
  catches_transport_failures (ret tt)
    (knowledge_base.update_article config auth_manager params)
    article_failure "Failed to update article: " b w.
Proof.
  apply catches_without_prepare. unfold knowledge_base.update_article. cbv zeta.
  apply (try_block_turns_failures _
           (fun e => knowledge_base.mkArticleResponse false
                       ("Failed to update article: " ++ e) None None None)).
  - try_body.
  - intros e. split; reflexivity.
Qed.

Lemma publish_article_catches config auth_manager params b w :
  catches_transport_failures (ret tt)
    (knowledge_base.publish_article config auth_manager params)
    article_failure "Failed to publish article: " b w.
Proof.
  apply catches_without_prepare. unfold knowledge_base.publish_article. cbv zeta.
  apply (try_block_turns_failures _
           (fun e => knowledge_base.mkArticleResponse false
                       ("Failed to publish article: " ++ e) None None None)).
  - try_body.
  - intros e. split; reflexivity.
Qed.

Lemma add_comment_catches config auth_manager params b w :
  catches_transport_failures (ret tt)
    (knowledge_base.add_comment config auth_manager params)
    comment_failure "Failed to add comment: " b w.
Proof.
  apply catches_without_prepare. unfold knowledge_base.add_comment. cbv zeta.
  apply (try_block_turns_failures _
           (fun e => knowledge_base.mkCommentResponse false
                       ("Failed to add comment: " ++ e) None None)).
  - try_body.
  - intros e. split; reflexivity.
Qed.

Lemma create_service_request_catches config auth_manager params b w :
  catches_transport_failures (ret tt)
    (knowledge_base.create_service_request config auth_manager params)
    dict_failure "Failed to create service request: " b w.
Proof.
  apply catches_without_prepare. unfold knowledge_base.create_service_request.
  apply (try_block_turns_failures _
           (fun e => [("success", VBool false);
                      ("message", VStr ("Failed to create service request: " ++ e));
                      ("request_id", VNone)])).
  - repeat first
      [ apply request_raises_on_failure; intros; cbv zeta
      | apply bind_raises_on_failure;
        [ first [ apply inspects_result_index0 | apply inspects_row_item
                | apply inspects_result_get ] | intros; cbv zeta ]
      | apply inspects_raises_on_failure; solve [inspect_more]
      | match goal with
        | |- raises_on_failure (if ?c then _ else _) _ _ => destruct c
        end ].
  - intros e. split; reflexivity.
Qed.

(** X20: the writing operations of knowledge_base.py catch transport
    failures: none of [create_knowledge_base], [create_category],
    [create_article], [update_article], [publish_article],
    [add_comment] and [create_service_request] lets a
    [RequestException] escape, and a failed call, at whichever of its
    calls, gives the result with [success] false and the message
    ["Failed to ...: <error>"]. *)
Theorem knowledge_base_writes_catch_transport_failures config auth_manager b w :
  (forall params,
      catches_transport_failures (ret tt)
        (knowledge_base.create_knowledge_base config auth_manager params)
        kb_response_failure "Failed to create knowledge base: " b w)
  /\ (forall params,
        catches_transport_failures (ret tt)
          (knowledge_base.create_category config auth_manager params)
          category_failure "Failed to create category: " b w)
  /\ (forall params,
        catches_transport_failures (ret tt)
          (knowledge_base.create_article config auth_manager params)
          article_failure "Failed to create article: " b w)
  /\ (forall params,
        catches_transport_failures (ret tt)
          (knowledge_base.update_article config auth_manager params)
          article_failure "Failed to update article: " b w)
  /\ (forall params,
        catches_transport_failures (ret tt)
          (knowledge_base.publish_article config auth_manager params)
          article_failure "Failed to publish article: " b w)
  /\ (forall params,
        catches_transport_failures (ret tt)
          (knowledge_base.add_comment config auth_manager params)
          comment_failure "Failed to add comment: " b w)
  /\ (forall params,
        catches_transport_failures (ret tt)
          (knowledge_base.create_service_request config auth_manager params)
          dict_failure "Failed to create service request: " b w).
Proof.
  repeat split; intros params.
  - apply create_knowledge_base_catches.
  - apply create_category_catches.
  - apply create_article_catches.
  - apply update_article_catches.
  - apply publish_article_catches.
  - apply add_comment_catches.
  - apply create_service_request_catches.
Qed.

(** ** hardware_ordering.py *)

Lemma inspects_raises_when_unreachable {R} (m : M R) b w :
  inspects_only m -> raises_when_unreachable m b w.
Proof.
  intros (o & Ho & Hm). exists o, w, []. rewrite Hm, app_nil_r.
  repeat split. destruct o as [r | [msg | | | |]]; try constructor.
  exfalso. apply (Ho msg). reflexivity.
Qed.

Lemma bind_raises_when_unreachable {A R} (m : M A) (k : A -> M R) b w :
  raises_when_unreachable m b w ->
  (forall a w1, raises_when_unreachable (k a) b w1) ->
  raises_when_unreachable (bind m k) b w.
Proof.
  intros (o & w1 & xs & Hrun & Hcalls & Hpost) Hk.
  unfold raises_when_unreachable, bind. rewrite Hrun.
  destruct o as [a | e].
  - destruct (Hk a w1) as (o2 & w2 & ys & Hrun2 & Hcalls2 & Hpost2).
    exists o2, w2, (xs ++ ys)%list. split; [exact Hrun2 |]. split.
    { rewrite Hcalls2, Hcalls, app_assoc. reflexivity. }
    destruct o2 as [r | [e | | | |]]; try (apply Forall_app; split; assumption).
    destruct Hpost2 as (pre & x & -> & Hpre & Hx).
    exists (xs ++ pre)%list, x. split; [apply app_assoc |].
    split; [apply Forall_app; split; assumption | exact Hx].
  - exists (Raise e), w1, xs. repeat split; assumption.
Qed.

Lemma call_raises_when_unreachable rq b w :
  raises_when_unreachable (requests_call rq) b w.
Proof.
  unfold raises_when_unreachable, requests_call. cbv zeta.
  destruct (b (calls w) rq) as [e | r] eqn:Hreply.
  - exists (Raise (RequestException e)), (record_call w (rq, Failed e)),
      [(rq, Failed e)].
    repeat split. exists [], (rq, Failed e). repeat split. constructor.
  - exists (Ok r), (record_call w (rq, Answered r)), [(rq, Answered r)].
    repeat split. constructor; [exists r; reflexivity | constructor].
Qed.

Lemma checked_call_raises_when_unreachable {R} rq (k : Response -> M R) b w :
  (forall r w1, raises_when_unreachable (k r) b w1) ->
  raises_when_unreachable
    (response <- requests_call rq ;; raise_for_status response ;;; k response) b w.
Proof.
  intros Hk. unfold raises_when_unreachable. rewrite request_step.
  destruct (b (calls w) rq) as [e | r] eqn:Hreply.
  - exists (Raise (RequestException e)), (record_call w (rq, Failed e)),
      [(rq, Failed e)].
    repeat split. exists [], (rq, Failed e). repeat split. constructor.
  - destruct (http_error_msg r) as [msg |] eqn:Hmsg.
    + exists (Raise (RequestException msg)), (record_call w (rq, Answered r)),
        [(rq, Answered r)].
      repeat split. exists [], (rq, Answered r).
      repeat split; [constructor | exact Hmsg].
    + destruct (Hk r (record_call w (rq, Answered r)))
        as (o & w' & xs & Hrun & Hcalls & Hpost).
      exists o, w', ((rq, Answered r) :: xs).
      split; [exact Hrun |]. split.
      { rewrite Hcalls. cbn. rewrite <- app_assoc. reflexivity. }
      assert (Hq : reached (rq, Answered r)) by (exists r; reflexivity).
      destruct o as [a | [e | | | |]]; try (constructor; assumption).
      destruct Hpost as (pre & x & -> & Hpre & Hx).
      exists ((rq, Answered r) :: pre), x. repeat split; auto.
Qed.

Lemma for_each_raises_when_unreachable {A} (xs : list A) (body : A -> M unit) b :
  (forall x w1, raises_when_unreachable (body x) b w1) ->
  forall w, raises_when_unreachable (for_each xs body) b w.
Proof.
  intros Hbody. induction xs as [| x rest IH]; intros w; cbn [for_each].
  - apply inspects_raises_when_unreachable, inspects_ret.
  - apply bind_raises_when_unreachable; [apply Hbody | intros _ w1; apply IH].
Qed.

Lemma try_block_turns_unreachable {R} (body : M R) (fail : string -> R)
    (is_failure : R -> string -> Prop) prefix b w :
  raises_when_unreachable body b w ->
  (forall e, is_failure (fail e) (prefix ++ e)) ->
  turns_unreachable_into_results
    (try_except body (fun e => logger_error (prefix ++ e) ;;; ret (fail e)))
    is_failure prefix b w.
Proof.
  intros (o & w' & xs & Hrun & Hcalls & Hpost) Hfail.
  unfold turns_unreachable_into_results, try_except. rewrite Hrun.
  assert (Hreached : Forall reached xs -> forall x e,
             In x xs -> snd x = Failed e -> False).
  { intros Hall x e Hin He. rewrite Forall_forall in Hall.
    destruct (Hall x Hin) as (r & Hr). congruence. }
  destruct o as [r | [e | | | |]].
  - exists (Ok r), w', xs. repeat split; auto; try discriminate.
    intros x e Hin He. exfalso. eapply Hreached; eauto.
  - destruct Hpost as (pre & x & Hxs & Hpre & Hx).
    exists (Ok (fail e)), (record_error w' (prefix ++ e)), xs.
    repeat split; auto; try discriminate.
    intros y e' Hin He'. exists (fail e). split; [reflexivity |].
    rewrite Hxs in Hin. apply in_app_or in Hin. destruct Hin as [Hin | [<- | []]].
    + exfalso. rewrite Forall_forall in Hpre. destruct (Hpre y Hin) as (r & Hr).
      congruence.
    + rewrite He' in Hx. cbn in Hx. injection Hx as <-. apply Hfail.
  - exists (Raise KeyError), w', xs. repeat split; auto; try discriminate.
    intros x e Hin He. exfalso. eapply Hreached; eauto.
  - exists (Raise AttributeError), w', xs. repeat split; auto; try discriminate.
    intros x e Hin He. exfalso. eapply Hreached; eauto.
  - exists (Raise TypeError), w', xs. repeat split; auto; try discriminate.
    intros x e Hin He. exfalso. eapply Hreached; eauto.
  - exists (Raise IndexError), w', xs. repeat split; auto; try discriminate.
    intros x e Hin He. exfalso. eapply Hreached; eauto.
Qed.

Lemma inspects_cat_item_name item default :
  inspects_only (hardware_ordering.cat_item_name item default).
Proof.
  unfold hardware_ordering.cat_item_name.
  destruct (Py.get "cat_item" item);
    [apply inspects_raise; discriminate | apply inspects_ret].
Qed.

Lemma inspects_order_items items :
  inspects_only (hardware_ordering.order_items items).
Proof.
  induction items as [| item rest IH]; cbn [hardware_ordering.order_items].
  - apply inspects_ret.
  - apply inspects_bind; [apply inspects_cat_item_name | intros name].
    apply inspects_bind; [exact IH | intros others; apply inspects_ret].
Qed.

Ltac inspect_hardware :=
  repeat first
    [ progress inspect_more
    | apply inspects_cat_item_name
    | apply inspects_order_items
    | apply inspects_row_item ].

Ltac unchecked_body :=
  cbv zeta;
  repeat first
    [ apply checked_call_raises_when_unreachable; intros; cbv zeta
    | apply inspects_raises_when_unreachable; solve [inspect_hardware]
    | apply call_raises_when_unreachable
    | apply for_each_raises_when_unreachable; intros
    | apply bind_raises_when_unreachable; [| intros; cbv zeta ]
    | match goal with
      | |- raises_when_unreachable (if ?c then _ else _) _ _ => destruct c
      | |- raises_when_unreachable (match ?x with _ => _ end) _ _ => destruct x
      end ].

Lemma track_orders_raises_when_unreachable config auth_manager b requests_data :
  forall detailed_orders w,
    raises_when_unreachable
      (hardware_ordering.track_orders config auth_manager requests_data
         detailed_orders) b w.
Proof.
  induction requests_data as [| request rest IH]; intros detailed_orders w;
    cbn [hardware_ordering.track_orders].
  - apply inspects_raises_when_unreachable, inspects_ret.
  - cbv zeta. apply bind_raises_when_unreachable;
      [apply call_raises_when_unreachable | intros items_response w1].
    apply bind_raises_when_unreachable;
      [apply inspects_raises_when_unreachable, inspects_result_items
      | intros rows w2].
    apply bind_raises_when_unreachable;
      [apply inspects_raises_when_unreachable, inspects_order_items
      | intros the_items w3].
    apply IH.
Qed.

Lemma track_hardware_orders_catches config auth_manager params b w :
  turns_unreachable_into_results
    (hardware_ordering.track_hardware_orders config auth_manager params)
    tracked_failure "Failed to track hardware orders: " b w.
Proof.
  unfold hardware_ordering.track_hardware_orders.
  apply (try_block_turns_unreachable _
           (fun e => hardware_ordering.mkTrackedOrders false
                       ("Failed to track hardware orders: " ++ e) [] None)).
  - apply checked_call_raises_when_unreachable. intros r w1. cbv zeta.
    apply bind_raises_when_unreachable;
      [apply inspects_raises_when_unreachable, inspects_result_items
      | intros rows w2].
    apply bind_raises_when_unreachable;
      [apply track_orders_raises_when_unreachable | intros orders w3].
    apply inspects_raises_when_unreachable, inspects_ret.
  - intros e. repeat split.
Qed.

Lemma cancel_hardware_order_catches config auth_manager params b w :
  turns_unreachable_into_results
    (hardware_ordering.cancel_hardware_order config auth_manager params)
    dict_failure "Failed to cancel hardware order: " b w.
Proof.
  unfold hardware_ordering.cancel_hardware_order.
  apply (try_block_turns_unreachable _
           (fun e => [("success", VBool false);
                      ("message", VStr ("Failed to cancel hardware order: " ++ e))])).
  - unchecked_body.
  - intros e. split; reflexivity.
Qed.

Lemma provision_hardware_catches config auth_manager params b w :
  turns_unreachable_into_results
    (hardware_ordering.provision_hardware config auth_manager params)
    dict_failure "Failed to provision hardware: " b w.
Proof.
  unfold hardware_ordering.provision_hardware.
  apply (try_block_turns_unreachable _
           (fun e => [("success", VBool false);
                      ("message", VStr ("Failed to provision hardware: " ++ e))])).
  - unchecked_body.
  - intros e. split; reflexivity.
Qed.

(** X21: a call of [track_hardware_orders], [cancel_hardware_order] or
    [provision_hardware] that does not reach the service is caught like
    in the other tools: no [RequestException] escapes, and the result
    has [success] false and the message ["Failed to ...: <error>"].
    This holds for every call of the operation, also those whose
    response status is not checked. *)
Theorem hardware_operations_catch_unreachable_service config auth_manager b w :
  (forall params,
      turns_unreachable_into_results
        (hardware_ordering.track_hardware_orders config auth_manager params)
        tracked_failure "Failed to track hardware orders: " b w)
  /\ (forall params,
        turns_unreachable_into_results
          (hardware_ordering.cancel_hardware_order config auth_manager params)
          dict_failure "Failed to cancel hardware order: " b w)
  /\ (forall params,
        turns_unreachable_into_results
          (hardware_ordering.provision_hardware config auth_manager params)
          dict_failure "Failed to provision hardware: " b w).
Proof.
  repeat split; intros params.
  - apply track_hardware_orders_catches.
  - apply cancel_hardware_order_catches.
  - apply provision_hardware_catches.
Qed.

Lemma cancel_items_run config auth_manager b :
  always_answers b ->
  forall items w,
    exists w',
      for_each items
        (fun item =>
           requests_call (hardware_ordering.cancel_item_request config auth_manager
                            item) ;;; ret tt) b w
      = (Ok tt, w')
      /\ length (calls w') = length (calls w) + length items.
Proof.
  intros Hanswers. induction items as [| item rest IH]; intros w; cbn [for_each].
  - exists w. split; [reflexivity | cbn; lia].
  - unfold bind at 1. unfold bind at 1. unfold requests_call at 1. cbv zeta.
    destruct (Hanswers (calls w)
                (hardware_ordering.cancel_item_request config auth_manager item))
      as (r & Hr).
    rewrite Hr. cbn [ret].
    destruct (IH (record_call w
                    (hardware_ordering.cancel_item_request config auth_manager item,
                     Answered r))) as (w' & Hrun & Hlen).
    exists w'. split; [exact Hrun |].
    rewrite Hlen. cbn [record_call calls]. rewrite length_app. cbn. lia.
Qed.

(** X22: once the PATCH of the request itself has succeeded,
    [cancel_hardware_order] reports success whatever the service
    answers afterwards: the status of the item listing and of the
    PATCH of each item is never looked at, so the order is reported as
    cancelled also when no item could be cancelled. *)
Theorem cancel_hardware_order_ignores_item_statuses
    config auth_manager params b w r row :
  always_answers b ->
  let rq := hardware_ordering.cancel_request config auth_manager params in
  b (calls w) rq = Answered r ->
  http_error_msg r = None ->
  json_get_result r (RDict []) = RDict row ->
  (forall r2,
      b (calls (record_call w (rq, Answered r)))
        (hardware_ordering.cancel_items_request config auth_manager params)
      = Answered r2 ->
      status_code r2 = 200%Z ->
      exists items, json_get_result r2 (RList []) = RList items) ->
  exists w',
    hardware_ordering.cancel_hardware_order config auth_manager params b w
    = (Ok [("success", VBool true);
           ("message",
            VStr ("Hardware order "
                  ++ hardware_ordering.get_or "number"
                       (hardware_ordering.ch_request_id params) row
                  ++ " cancelled successfully"));
           ("request_id", VStr (hardware_ordering.ch_request_id params));
           ("cancellation_reason",
            VStr (hardware_ordering.ch_cancellation_reason params));
           ("status", VStr "Cancelled")], w').
Proof.
  intros Hanswers rq Hreply Hstatus Hjson Hitems.
  unfold hardware_ordering.cancel_hardware_order, try_except. fold rq.
  rewrite request_step, Hreply, Hstatus. cbv zeta. rewrite Hjson.
  unfold bind at 1. unfold requests_call at 1. cbv zeta.
  destruct (Hanswers (calls (record_call w (rq, Answered r)))
              (hardware_ordering.cancel_items_request config auth_manager params))
    as (r2 & Hr2).
  rewrite Hr2.
  assert (Htail : forall w2,
    (hardware_ordering.result_get_default (RDict row) "number"
       (hardware_ordering.ch_request_id params)) b w2
    = (Ok (hardware_ordering.get_or "number"
             (hardware_ordering.ch_request_id params) row), w2)).
  { intros w2. unfold hardware_ordering.result_get_default, hardware_ordering.get_or.
    reflexivity. }
  unfold bind at 1.
  destruct (status_code r2 =? 200)%Z eqn:Hcode.
  - apply Z.eqb_eq in Hcode. destruct (Hitems r2 Hr2 Hcode) as (items & Hlist).
    rewrite Hlist. cbn [result_items]. unfold bind at 1. cbn [ret].
    destruct (cancel_items_run config auth_manager b Hanswers items
                (record_call (record_call w (rq, Answered r))
                   (hardware_ordering.cancel_items_request config auth_manager params,
                    Answered r2))) as (w' & Hrun & _).
    rewrite Hrun. unfold bind at 1. rewrite Htail. exists w'. reflexivity.
  - cbn [ret]. unfold bind at 1. rewrite Htail. eexists. reflexivity.
Qed.

Lemma cancel_hardware_order_ignores_item_statuses_witness :
  exists w',
    hardware_ordering.cancel_hardware_order cfg0 auth0 cancel_req42
      backend_items_locked w0
    = (Ok [("success", VBool true);
           ("message", VStr "Hardware order REQ0010001 cancelled successfully");
           ("request_id", VStr "46d44a5dc0a8010e0000b4a1ea8f7e5f");
           ("cancellation_reason", VStr "No longer needed");
           ("status", VStr "Cancelled")], w')
    /\ map (fun x => failure_text (snd x)) (calls w')
       = [None; None;
          Some "500 Server Error: Internal Server Error for url: ";
          Some "500 Server Error: Internal Server Error for url: "].
Proof.
  destruct (cancel_hardware_order_ignores_item_statuses cfg0 auth0 cancel_req42
              backend_items_locked w0 _ [("number", "REQ0010001")]
              ltac:(intros [| x [| y history]] rq; eexists; reflexivity)
              eq_refl eq_refl eq_refl
              ltac:(intros r2 Hr2 _; injection Hr2 as <-; eexists; reflexivity))
    as (w' & Hrun).
  exists w'. split; [exact Hrun |].
  apply (f_equal snd) in Hrun. cbn [snd] in Hrun. rewrite <- Hrun. reflexivity.
Defined.

(** X23: when the lookup of the service request is answered with an
    empty result, [provision_hardware] fails with
    ["Service request ... not found"] after that one call: no asset is
    created and the request is not updated. *)
Theorem provision_hardware_needs_the_request config auth_manager params b w r :
  b (calls w) (hardware_ordering.provision_lookup_request config auth_manager params)
  = Answered r ->
  http_error_msg r = None ->
  result_truthy (json_get_result r (RDict [])) = false ->
  hardware_ordering.provision_hardware config auth_manager params b w
  = (Ok [("success", VBool false);
         ("message", VStr ("Service request "
                           ++ hardware_ordering.ph_request_id params
                           ++ " not found"))],
     record_call w
       (hardware_ordering.provision_lookup_request config auth_manager params,
        Answered r)).
Proof.
  intros Hreply Hstatus Hempty.
  unfold hardware_ordering.provision_hardware, try_except.
  rewrite request_step, Hreply, Hstatus. cbv zeta. rewrite Hempty. reflexivity.
Qed.

Lemma provision_hardware_needs_the_request_witness :
  hardware_ordering.provision_hardware cfg0 auth0 provision_req42 backend_blank w0
  = (Ok [("success", VBool false);
         ("message",
          VStr "Service request 46d44a5dc0a8010e0000b4a1ea8f7e5f not found")],
     record_call w0
       (hardware_ordering.provision_lookup_request cfg0 auth0 provision_req42,
        ok_row [])).
Proof.
  exact (provision_hardware_needs_the_request cfg0 auth0 provision_req42
           backend_blank w0 _ eq_refl eq_refl eq_refl).
Defined.

Lemma order_items_run items :
  Forall (fun item => Py.get "cat_item" item = None) items ->
  exists the_items,
    forall b w, hardware_ordering.order_items items b w = (Ok the_items, w).
Proof.
  induction 1 as [| item rest Hitem Hrest (others & IH)];
    cbn [hardware_ordering.order_items].
  - exists []. reflexivity.
  - eexists. intros b w. unfold bind at 1.
    unfold hardware_ordering.cat_item_name. rewrite Hitem. cbn [ret].
    unfold bind at 1. rewrite IH. reflexivity.
Qed.

Lemma track_orders_run config auth_manager b :
  (forall history request_sys_id,
      exists r,
        b history
          (hardware_ordering.order_items_request config auth_manager request_sys_id)
        = Answered r /\ items_listed r) ->
  forall requests_data detailed_orders w,
    exists orders w' xs,
      hardware_ordering.track_orders config auth_manager requests_data
        detailed_orders b w
      = (Ok (detailed_orders ++ orders)%list, w')
      /\ map hardware_ordering.od_request_id orders
         = map (Py.get "sys_id") requests_data
      /\ calls w' = (calls w ++ xs)%list
      /\ map fst xs
         = map (fun request =>
                  hardware_ordering.order_items_request config auth_manager
                    (Py.get "sys_id" request)) requests_data.
Proof.
  intros Hitems.
  induction requests_data as [| request rest IH]; intros detailed_orders w;
    cbn [hardware_ordering.track_orders].
  - exists [], w, []. rewrite !app_nil_r. repeat split.
  - cbv zeta. unfold bind at 1. unfold requests_call at 1. cbv zeta.
    destruct (Hitems (calls w) (Py.get "sys_id" request)) as (r & Hr & Hlisted).
    rewrite Hr.
    set (w1 := record_call w
                 (hardware_ordering.order_items_request config auth_manager
                    (Py.get "sys_id" request), Answered r)).
    assert (Hrows : exists the_items,
      forall k : list hardware_ordering.OrderItem -> M (list hardware_ordering.OrderDetail),
        (rows <- result_items
                   (if (status_code r =? 200)%Z
                    then json_get_result r (RList []) else RList []) ;;
         the_items <- hardware_ordering.order_items rows ;; k the_items) b w1
        = k the_items b w1).
    { destruct (status_code r =? 200)%Z eqn:Hcode.
      - apply Z.eqb_eq in Hcode. destruct (Hlisted Hcode) as (items & -> & Hall).
        destruct (order_items_run items Hall) as (the_items & Hrun).
        exists the_items. intros k. cbn [result_items].
        unfold bind at 1. cbn [ret]. unfold bind at 1. rewrite Hrun. reflexivity.
      - exists []. intros k. reflexivity. }
    destruct Hrows as (the_items & Hrows). rewrite Hrows.
    match goal with
    | |- context [hardware_ordering.track_orders _ _ rest ?acc b w1] =>
        destruct (IH acc w1) as (orders & w' & xs & Hrun & Hids & Hcalls & Hrqs);
        unfold Py.append in Hrun |- *;
        match type of Hrun with
        | hardware_ordering.track_orders _ _ _ (_ ++ [?order])%list _ _ = _ =>
            exists (order :: orders), w',
              ((hardware_ordering.order_items_request config auth_manager
                  (Py.get "sys_id" request), Answered r) :: xs)
        end
    end.
    rewrite Hrun, <- app_assoc. split; [reflexivity |].
    split; [cbn [map hardware_ordering.od_request_id]; rewrite Hids; reflexivity |].
    split.
    + rewrite Hcalls. unfold w1. cbn [record_call calls].
      rewrite <- app_assoc. reflexivity.
    + cbn [map fst]. rewrite Hrqs. reflexivity.
Qed.

(** X24: [track_hardware_orders] asks for the items of every order it
    found, one call per order after the search, in the order of the
    search result, each by the [sys_id] of the order; it returns one
    entry per order in the same order, and an item listing that is
    refused (a status other than 200) leaves that order without items
    and does not fail the tracking. *)
Theorem track_hardware_orders_asks_once_per_order
    config auth_manager params b w r requests_data :
  b (calls w) (hardware_ordering.track_request config auth_manager params)
  = Answered r ->
  http_error_msg r = None ->
  json_get_result r (RList []) = RList requests_data ->
  (forall history request_sys_id,
      exists r',
        b history
          (hardware_ordering.order_items_request config auth_manager request_sys_id)
        = Answered r' /\ items_listed r') ->
  exists orders w' xs,
    hardware_ordering.track_hardware_orders config auth_manager params b w
    = (Ok (hardware_ordering.mkTrackedOrders true
             ("Found " ++ Py.str_int (Z.of_nat (length requests_data))
              ++ " hardware orders")
             orders (Some (Z.of_nat (length requests_data)))), w')
    /\ map hardware_ordering.od_request_id orders
       = map (Py.get "sys_id") requests_data
    /\ calls w' = (calls w ++ xs)%list
    /\ map fst xs
       = hardware_ordering.track_request config auth_manager params
         :: map (fun request =>
                   hardware_ordering.order_items_request config auth_manager
                     (Py.get "sys_id" request)) requests_data.
Proof.
  intros Hreply Hstatus Hjson Hitems.
  unfold hardware_ordering.track_hardware_orders, try_except.
  rewrite request_step, Hreply, Hstatus. cbv zeta. rewrite Hjson.
  cbn [result_items]. unfold bind at 1. cbn [ret].
  destruct (track_orders_run config auth_manager b Hitems requests_data []
              (record_call w
                 (hardware_ordering.track_request config auth_manager params,
                  Answered r)))
    as (orders & w' & xs & Hrun & Hids & Hcalls & Hrqs).
  unfold bind at 1. rewrite Hrun. cbn [app ret].
  assert (Hlen : length orders = length requests_data).
  { rewrite <- (length_map hardware_ordering.od_request_id orders), Hids.
    apply length_map. }
  rewrite Hlen.
  exists orders, w',
    ((hardware_ordering.track_request config auth_manager params, Answered r) :: xs).
  split; [reflexivity |]. split; [exact Hids |]. split.
  - rewrite Hcalls. cbn [record_call calls]. rewrite <- app_assoc. reflexivity.
  - cbn [map fst]. rewrite Hrqs. reflexivity.
Qed.

Lemma track_hardware_orders_asks_once_per_order_witness :
  exists orders w',
    hardware_ordering.track_hardware_orders cfg0 auth0 track_all backend_two_orders w0
    = (Ok (hardware_ordering.mkTrackedOrders true "Found 2 hardware orders"
             orders (Some 2%Z)), w')
    /\ map hardware_ordering.od_request_number orders
       = [Some "REQ0010001"; Some "REQ0010002"]
    /\ map (fun x => query_of (fst x)) (calls w')
       = [Some (VStr "");
          Some (VStr "request=46d44a5dc0a8010e0000b4a1ea8f7e5f");
          Some (VStr "request=57e55b6ed1b9121f1111c5b2fb908f60")].
Proof.
  destruct (track_hardware_orders_asks_once_per_order cfg0 auth0 track_all
              backend_two_orders w0 _ _ eq_refl eq_refl eq_refl
              ltac:(intros [| x history] id; eexists;
                    (split; [reflexivity |]); intros Hcode;
                    [eexists; split; [reflexivity | repeat constructor]
                    | discriminate Hcode]))
    as (orders & w' & xs & Hrun & _).
  exists orders, w'. split; [exact Hrun |]. split.
  - exact (eq_sym (f_equal (fun p =>
             match fst p with
             | Ok t => map hardware_ordering.od_request_number
                         (hardware_ordering.to_orders t)
             | Raise _ => []
             end) Hrun)).
  - exact (eq_sym (f_equal (fun p => map (fun x => query_of (fst x)) (calls (snd p)))
                     Hrun)).
Defined.

(** X25: [browse_hardware_catalog] makes exactly one call, the GET of
    the catalog items.  Its query is the fixed clause [active=true],
    then the category and manufacturer clauses that are given, then,
    unless [availability] is true, the clause [active=false]: with
    [availability] false or absent the operation asks for items that
    are active and not active at once.  The [price_range] parameter
    has no effect on the run. *)
Theorem browse_hardware_catalog_asks_for_active_items
    (price_range_of : string -> string) config auth_manager params b w :
  exists o w' rq,
    hardware_ordering.browse_hardware_catalog price_range_of config auth_manager
      params b w = (o, w')
    /\ calls w' = (calls w ++ [(rq, b (calls w) rq)])%list
    /\ req_method rq = GET
    /\ req_url rq = api_url config ++ "/table/sc_cat_item"
    /\ query_of rq
       = Some (VStr (String.concat "^"
                 ("active=true"
                  :: clause (hardware_ordering.bh_category params)
                       ("category.nameLIKE"
                        ++ Py.the (hardware_ordering.bh_category params))
                  ++ clause (hardware_ordering.bh_manufacturer params)
                       ("short_descriptionLIKE"
                        ++ Py.the (hardware_ordering.bh_manufacturer params))
                  ++ match hardware_ordering.bh_availability params with
                     | Some true => []
                     | _ => ["active=false"]
                     end)%list))
    /\ forall price_range,
         hardware_ordering.browse_hardware_catalog price_range_of config
           auth_manager
           (hardware_ordering.mkBrowseHardwareCatalogParams
              (hardware_ordering.bh_category params)
              (hardware_ordering.bh_manufacturer params)
              price_range
              (hardware_ordering.bh_availability params)
              (hardware_ordering.bh_limit params)
              (hardware_ordering.bh_offset params)) b w
         = (o, w').
Proof.
  destruct (single_request_issues
              (hardware_ordering.browse_hardware_catalog_request config auth_manager
                 params)
              (fun response =>
                 rows <- result_items (json_get_result response (RList [])) ;;
                 ret (hardware_ordering.mkCatalogPage true
                        ("Found "
                         ++ Py.str_int
                              (Z.of_nat
                                 (length
                                    (map (hardware_ordering.process_item
                                            price_range_of) rows)))
                         ++ " hardware items")
                        (map (hardware_ordering.process_item price_range_of) rows)
                        (Some (Z.of_nat
                                 (length
                                    (map (hardware_ordering.process_item
                                            price_range_of) rows))))
                        (Some (hardware_ordering.bh_category params,
                               hardware_ordering.bh_manufacturer params,
                               hardware_ordering.bh_availability params))))
              (fun e => "Failed to browse hardware catalog: " ++ e)
              (fun e => hardware_ordering.mkCatalogPage false
                          ("Failed to browse hardware catalog: " ++ e) [] None None)
              b w ltac:(intros; inspect_more))
    as (o & w' & Hrun & Hcalls).
  exists o, w',
    (hardware_ordering.browse_hardware_catalog_request config auth_manager params).
  split; [exact Hrun |]. split; [exact Hcalls |].
  split; [reflexivity |]. split; [reflexivity |]. split; [| intros; exact Hrun].
  unfold hardware_ordering.browse_hardware_catalog_request,
    hardware_ordering.browse_hardware_catalog_query_filters, clause, Py.append,
    query_of, get_request.
  cbv zeta. cbn [req_params Py.get String.eqb Ascii.eqb Bool.eqb].
  destruct (Py.truthy (hardware_ordering.bh_category params));
    destruct (Py.truthy (hardware_ordering.bh_manufacturer params));
    destruct (hardware_ordering.bh_availability params) as [[|] |];
    cbn [negb app Py.truthy_list]; rewrite join_concat; reflexivity.
Qed.

(** Browsing for unavailable laptops. *)
Example browse_hardware_catalog_unavailable :
  forall price_range_of,
    map (fun x => query_of (fst x))
      (calls (snd (hardware_ordering.browse_hardware_catalog price_range_of
                     cfg0 auth0 browse_unavailable backend_empty w0)))
    = [Some (VStr "active=true^category.nameLIKELaptops^active=false")].
Proof. reflexivity. Qed.
